(** * nelpy tuning curves

    A shallow embedding of [nelpy/auxiliary/_tuningcurve.py]
    ([TuningCurve1D] and [DirectionalTuningCurve1D]) together with the
    properties of its ratemap pipeline.

    Conventions of the embedding:
    - numpy floats are exact rationals ([Q]); comparisons are the exact
      ones, numeric equalities are stated with [==]; rounding, infinities
      and nan are outside the model;
    - a 2-D array is the list of its rows, a 1-D array a list;
    - a Python exception is the [Raise] branch of [result];
    - [warnings.warn] appends to a log that the function returns;
    - the methods that copy a curve or update it in place ([__add__],
      [normalize], [smooth], the reordering methods) run on a store of
      objects, arrays and lists, in which a [TuningCurve1D] record is
      the value that an object stands for. *)

From Stdlib Require Import QArith Qround Qpower Lqa.
From stdpp Require Import gmap list strings pretty.

(** ** Exceptions and the error monad *)

Inductive exn : Type :=
  | ValueError (msg : string)
  | TypeError (msg : string)
  | IndexError (msg : string)
  | AttributeError (msg : string)
  | RuntimeError (msg : string)
  | OverflowError (msg : string)
  | NotImplementedError.

Inductive result (A : Type) : Type :=
  | Ok (a : A)
  | Raise (e : exn).
Arguments Ok {A} a.
Arguments Raise {A} e.

#[global] Instance result_ret : MRet result := λ A a, Ok a.
#[global] Instance result_bind : MBind result :=
  λ A B f m, match m with Ok a => f a | Raise e => Raise e end.

Definition is_Ok {A} (r : result A) : Prop := ∃ a, r = Ok a.

(** [for x in l: st = body(st, x)] where the body may raise. *)
Fixpoint for_each {S A : Type} (body : S → A → result S) (st : S) (l : list A)
  : result S :=
  match l with
  | [] => Ok st
  | x :: rest => st' ← body st x; for_each body st' rest
  end.

(** [[f(x) for x in l]] where [f] may raise. *)
Fixpoint map_result {A B : Type} (f : A → result B) (l : list A)
  : result (list B) :=
  match l with
  | [] => Ok []
  | x :: rest => y ← f x; ys ← map_result f rest; Ok (y :: ys)
  end.

(** ** Numbers *)

Definition Qltb (x y : Q) : bool := negb (Qle_bool y x).
Definition Qgtb (x y : Q) : bool := Qltb y x.
Definition Qgeb (x y : Q) : bool := Qle_bool y x.
Definition ZtoQ (z : Z) : Q := inject_Z z.
Definition NtoQ (n : nat) : Q := inject_Z (Z.of_nat n).

(** Python's [int(x)] on a float: truncation towards zero. *)
Definition py_int (x : Q) : Z :=
  if Qle_bool 0 x then Qfloor x else Qceiling x.

Fixpoint count {A : Type} (p : A → bool) (l : list A) : nat :=
  match l with
  | [] => 0
  | x :: rest => (if p x then 1 else 0) + count p rest
  end.

Definition Qsum (l : list Q) : Q := foldl Qplus 0%Q l.

(** ** numpy *)

Module np.

(** [np.linspace(start, stop, num)] with [endpoint=True]: the samples
    [i * step + start], the last one overwritten by [stop]. *)
Definition linspace (start stop : Q) (num : nat) : list Q :=
  match num with
  | 0 => []
  | 1 => [start]
  | S div =>
      let step := ((stop - start) / NtoQ div)%Q in
      fmap (λ i, (NtoQ i * step + start)%Q) (seq 0 div) ++ [stop]
  end.

Fixpoint nondecreasing (l : list Q) : bool :=
  match l with
  | x :: (y :: _) as rest => Qle_bool x y && nondecreasing rest
  | _ => true
  end.

Fixpoint nonincreasing (l : list Q) : bool :=
  match l with
  | x :: (y :: _) as rest => Qle_bool y x && nonincreasing rest
  | _ => true
  end.

(** [a.searchsorted(v, side)] on a sorted [a]: the number of elements
    strictly below [v] (left), or at most [v] (right). *)
Definition searchsorted_left (a : list Q) (v : Q) : nat :=
  count (λ x, Qltb x v) a.
Definition searchsorted_right (a : list Q) (v : Q) : nat :=
  count (λ x, Qle_bool x v) a.

(** [v[:-1]] and [v[-1:]]. *)
Definition all_but_last {A} (v : list A) : list A := take (length v - 1) v.
Definition last_slice {A} (v : list A) : list A := drop (length v - 1) v.

(** [np.diff]. *)
Definition diff (c : list Z) : list Z := zip_with Z.sub (tail c) c.

(** [np.histogram(a, bins=edges)] for an array of edges: the counts
    are the differences of the cumulative counts, every bin half-open
    except the last one, which includes its right edge.  Samples
    outside the edges fall in no bin. *)
Definition search_sorted_inclusive (a v : list Q) : list Z :=
  fmap (λ e, Z.of_nat (searchsorted_left a e)) (all_but_last v)
  ++ fmap (λ e, Z.of_nat (searchsorted_right a e)) (last_slice v).

Definition histogram (a edges : list Q) : result (list Z) :=
  if nondecreasing edges
  then Ok (diff (search_sorted_inclusive a edges))
  else Raise (ValueError "bins must increase monotonically, when an array").

(** [np.digitize(x, bins, right=True)]:
    [bins[i-1] < x <= bins[i]] for increasing bins. *)
Definition monotonicity (bins : list Q) : Z :=
  if nondecreasing bins then 1
  else if nonincreasing bins then (-1)
  else 0.

Definition digitize_right (x bins : list Q) : result (list Z) :=
  match monotonicity bins with
  | 0%Z =>
      Raise (ValueError "bins must be monotonically increasing or decreasing")
  | Zneg _ =>
      Ok (fmap (λ v, Z.of_nat (length bins)
                    - Z.of_nat (searchsorted_left (reverse bins) v))%Z x)
  | Zpos _ => Ok (fmap (λ v, Z.of_nat (searchsorted_left bins v)) x)
  end.

(** [np.max] of a 1-D array; a zero-size array has no maximum. *)
Definition amax (row : list Q) : result Q :=
  match row with
  | [] =>
      Raise (ValueError "zero-size array to reduction operation maximum")
  | x :: rest => Ok (foldl (λ m y, if Qltb m y then y else m) x rest)
  end.

(** [np.argwhere(mask)] of a boolean vector, as the list of positions. *)
Fixpoint argwhere_from (i : nat) (mask : list bool) : list nat :=
  match mask with
  | [] => []
  | b :: rest => (if b then [i] else []) ++ argwhere_from (S i) rest
  end.
Definition argwhere (mask : list bool) : list nat := argwhere_from 0 mask.

(** An elementwise operation against a scalar, on a 2-D array. *)
Definition elementwise (f : Q → Q) (a : list (list Q)) : list (list Q) :=
  (λ row : list Q, f <$> row) <$> a.

(** [np.zeros((rows, cols))] *)
Definition zeros (rows : nat) (cols : Z) : result (list (list Q)) :=
  if decide (cols < 0)%Z
  then Raise (ValueError "negative dimensions are not allowed")
  else Ok (replicate rows (replicate (Z.to_nat cols) 0%Q)).

(** [a / b] on two 2-D arrays of one shape.  (numpy also stretches a
    dimension of size one; the tuning curves never rely on that, and
    the model raises like numpy does for every other mismatch.) *)
Definition true_divide (a b : list (list Q)) : result (list (list Q)) :=
  if decide (length <$> a = length <$> b)
  then Ok (zip_with (zip_with Qdiv) a b)
  else Raise (ValueError "operands could not be broadcast together").

End np.

(** A Python index into a sequence of length [n]: negative indices
    count from the end. *)
Definition py_index (n : nat) (j : Z) : result nat :=
  if decide (0 ≤ j < Z.of_nat n)%Z then Ok (Z.to_nat j)
  else if decide (- Z.of_nat n ≤ j < 0)%Z then Ok (Z.to_nat (j + Z.of_nat n))
  else Raise (IndexError "index out of bounds").

(** [l.index(x)] *)
Definition list_index (l : list Z) (x : Z) : result nat :=
  match list_find (λ y, y = x) l with
  | Some (i, _) => Ok i
  | None => Raise (ValueError "x is not in list")
  end.

Definition enumerate {A} (l : list A) : list (nat * A) :=
  zip (seq 0 (length l)) l.

(** ** scipy.ndimage Gaussian filter

    [scipy.ndimage.filters.gaussian_filter] is an external library; it
    is modelled after its reference implementation (normalised kernel,
    correlation with the default [reflect] boundary).  The floating
    point exponential is a parameter. *)

Module ndimage.
Section filters.
Variable exp : Q → Q.

Definition _gaussian_kernel1d (sigma : Q) (radius : nat) : list Q :=
  let sigma2 := (sigma * sigma)%Q in
  let x := fmap (λ i, (Z.of_nat i - Z.of_nat radius)%Z) (seq 0 (2 * radius + 1)) in
  let phi_x := fmap (λ x, exp (- (1 # 2) / sigma2 * (ZtoQ x * ZtoQ x))%Q) x in
  fmap (λ p, (p / Qsum phi_x)%Q) phi_x.

(** Boundary mode [reflect]: (d c b a | a b c d | d c b a). *)
Definition reflect (n : nat) (j : Z) : nat :=
  let m := (j mod (2 * Z.of_nat n))%Z in
  Z.to_nat (if decide (m < Z.of_nat n)%Z then m else (2 * Z.of_nat n - 1 - m)%Z).

(** [correlate1d] along an axis whose elements are of type [A]
    (numbers along the last axis, whole rows along the first). *)
Definition correlate1d {A} (zero : A) (add : A → A → A) (scale : Q → A → A)
    (weights : list Q) (input : list A) : result (list A) :=
  match weights with
  | [] => Raise (RuntimeError "no filter weights given")
  | _ =>
      let n := length input in
      let size1 := Z.of_nat (length weights / 2) in
      Ok (fmap (λ i,
                 foldl (λ acc kw,
                          add acc
                            (scale kw.2
                               (nth (reflect n (Z.of_nat i + Z.of_nat kw.1 - size1))
                                    input zero)))
                       zero (enumerate weights))
              (seq 0 n))
  end.

Definition gaussian_weights (sigma truncate : Q) : result (list Q) :=
  let lw := py_int (truncate * sigma + (1 # 2))%Q in
  if decide (lw < 0)%Z then Raise (RuntimeError "no filter weights given")
  else Ok (reverse (_gaussian_kernel1d sigma (Z.to_nat lw))).

(** [gaussian_filter1d] along axis 1 (within each row). *)
Definition gaussian_filter1d_axis1 (input : list (list Q)) (sigma truncate : Q)
  : result (list (list Q)) :=
  weights ← gaussian_weights sigma truncate;
  map_result (correlate1d 0%Q Qplus Qmult weights) input.

(** [gaussian_filter1d] along axis 0 (across the rows). *)
Definition gaussian_filter1d_axis0 (n_cols : nat) (input : list (list Q))
    (sigma truncate : Q) : result (list (list Q)) :=
  weights ← gaussian_weights sigma truncate;
  correlate1d (replicate n_cols 0%Q) (zip_with Qplus) (λ w, fmap (Qmult w))
    weights input.

(** [gaussian_filter(input, sigma=(sigma0, sigma1), truncate=truncate)]:
    one 1-D pass per axis whose sigma exceeds 1e-15, axis 0 first. *)
Definition gaussian_filter (n_cols : nat) (input : list (list Q))
    (sigma0 sigma1 truncate : Q) : result (list (list Q)) :=
  let tiny := (1 # 1000000000000000)%Q in
  pass0 ← (if Qltb tiny sigma0
           then gaussian_filter1d_axis0 n_cols input sigma0 truncate
           else Ok input);
  if Qltb tiny sigma1
  then gaussian_filter1d_axis1 pass0 sigma1 truncate
  else Ok pass0.

End filters.
End ndimage.

(** ** Data providers

    The binned spike train and the external correlate are collaborators
    of the tuning curve: a spike train exposes its unit metadata, the
    unit x time matrix of spike counts, the bin duration and the bin
    centers; the correlate is queried at time points. *)

Record BinnedSpikeTrainArray := {
  unit_ids : list Z;
  unit_labels : list string;
  unit_tags : list string;
  data : list (list Q);
  ds : Q;
  bin_centers : list Q
}.

(** [extern.asarray(at=at)] returns the correlate at the time points. *)
Record AnalogSignalArray := { asarray : list Q → list Q * list Q }.

(** ** TuningCurve1D *)

Record TuningCurve1D := {
  _bins : list Q;
  _ratemap : list (list Q);
  _occupancy : list Z;
  _unit_ids : list Z;
  _unit_labels : list string;
  _unit_tags : list string;
  _label : option string
}.

(** A constructed object: either the empty object (every attribute
    [None]) or a curve. *)
Inductive tuning_curve :=
  | EmptyCurve
  | Curve (c : TuningCurve1D).

Definition set_ratemap (c : TuningCurve1D) (rm : list (list Q)) : TuningCurve1D :=
  {| _bins := _bins c; _ratemap := rm; _occupancy := _occupancy c;
     _unit_ids := _unit_ids c; _unit_labels := _unit_labels c;
     _unit_tags := _unit_tags c; _label := _label c |}.

Definition n_bins_of (bins : list Q) : Z := Z.of_nat (length bins) - 1.
Definition n_bins (c : TuningCurve1D) : Z := n_bins_of (_bins c).
Definition n_units (c : TuningCurve1D) : nat := length (_unit_ids c).

(** The default transform: look the correlate up at the bin centers. *)
Definition _trans_func (extern : AnalogSignalArray) (at_ : list Q) : list Q :=
  (asarray extern at_).2.

(** [self.trans_func] is only bound when no [transform_func] is given. *)
Definition trans_func_attr (transform_func : option (AnalogSignalArray → list Q → list Q))
  : result (AnalogSignalArray → list Q → list Q) :=
  match transform_func with
  | None => Ok _trans_func
  | Some _ => Raise (AttributeError "object has no attribute 'trans_func'")
  end.

Section pipeline.
Variable transform_func : option (AnalogSignalArray → list Q → list Q).
Variable extern : AnalogSignalArray.
Variable bst : BinnedSpikeTrainArray.
Variable bins : list Q.
Variable ids : list Z.

Definition _compute_occupancy : result (list Z) :=
  trans_func ← trans_func_attr transform_func;
  let ext := trans_func extern (bin_centers bst) in
  np.histogram ext bins.

(** [data[:, tt]] *)
Definition column (tt : nat) : result (list Q) :=
  map_result (λ row : list Q,
                match row !! tt with
                | Some v => Ok v
                | None => Raise (IndexError "index out of bounds for axis 1")
                end) (data bst).

(** [ratemap[:, bidx-1] += data[:, tt]] on a ratemap with [n_cols]
    columns. *)
Definition iadd_column (n_cols : Z) (ratemap : list (list Q))
    (tt_bidx : nat * Z) : result (list (list Q)) :=
  j ← py_index (Z.to_nat n_cols) (tt_bidx.2 - 1);
  col ← column tt_bidx.1;
  if decide (length col = length ratemap)
  then Ok (zip_with (λ row v, alter (λ x, x + v)%Q j row) ratemap col)
  else if decide (length col = 1)
  then Ok (fmap (alter (λ x, x + hd 0 col)%Q j) ratemap)
  else Raise (ValueError "operands could not be broadcast together").

Definition _compute_ratemap : result (list (list Q)) :=
  trans_func ← trans_func_attr transform_func;
  let ext := trans_func extern (bin_centers bst) in
  ext_bin_idx ← np.digitize_right ext bins;
  if decide (0 < length (filter (λ i, n_bins_of bins ≤ i)%Z ext_bin_idx))
  then Raise (ValueError "decoded values outside of [extmin, extmax]")
  else
    let ext_bin_idx := filter (λ i, i < n_bins_of bins)%Z ext_bin_idx in
    ratemap ← np.zeros (length ids) (n_bins_of bins);
    ratemap ← for_each (iadd_column (n_bins_of bins)) ratemap
                       (enumerate ext_bin_idx);
    Ok (np.elementwise (λ x, x / ds bst)%Q ratemap).

Definition _normalize_firing_rate_by_occupancy (occupancy : list Z)
    (ratemap : list (list Q)) : result (list (list Q)) :=
  let denom := replicate (length ids) occupancy in
  let denom :=
    (λ row : list Z, (λ d, if decide (d = 0%Z) then 1%Z else d) <$> row)
      <$> denom in
  np.true_divide ratemap ((λ row : list Z, ZtoQ <$> row) <$> denom).

End pipeline.

(** [ratemap[ratemap < minbgrate] = minbgrate] *)
Definition enforce_minbgrate (minbgrate : Q) (ratemap : list (list Q))
  : list (list Q) :=
  np.elementwise (λ x, if Qltb x minbgrate then minbgrate else x) ratemap.

(** [bins[0]] and [bins[-1]] *)
Definition first_edge (bins : list Q) : result Q :=
  match bins with
  | [] => Raise (IndexError "index 0 is out of bounds")
  | x :: _ => Ok x
  end.
Definition last_edge (bins : list Q) : result Q :=
  match last bins with
  | None => Raise (IndexError "index -1 is out of bounds")
  | Some x => Ok x
  end.

Section smoothing.
Variable exp : Q → Q.

(** The array computed by [smooth]. *)
Definition smooth_ratemap (bins : list Q) (ids : list Z)
    (ratemap : list (list Q)) (sigma bw : option Q) : result (list (list Q)) :=
  let sigma := default (1 # 10)%Q sigma in
  let bw := default 4%Q bw in
  hi ← last_edge bins;
  lo ← first_edge bins;
  let ds := ((hi - lo) / ZtoQ (n_bins_of bins))%Q in
  if negb (n_bins_of bins =? 0)%Z && Qeq_bool (hi - lo) 0 && Qltb 0 sigma
  then
    (* a bin width of zero: [sigma / ds] is the float infinity, which
       the filter cannot convert to a kernel radius *)
    Raise (OverflowError "cannot convert float infinity to integer")
  else
    let sigma := (sigma / ds)%Q in
    let n_cols := Z.to_nat (n_bins_of bins) in
    if decide (1 < length ids)
    then ndimage.gaussian_filter exp n_cols ratemap 0 sigma bw
    else ndimage.gaussian_filter exp n_cols ratemap sigma sigma bw.

(** The five steps that [__init__] runs on a spike train: occupancy,
    ratemap, normalization, floor, optional smoothing. *)
Definition estimate (transform_func : option (AnalogSignalArray → list Q → list Q))
    (extern : AnalogSignalArray) (bst : BinnedSpikeTrainArray)
    (bins : list Q) (ids : list Z) (minbgrate : Q) (sigma bw : option Q)
  : result (list Z * list (list Q)) :=
  occupancy ← _compute_occupancy transform_func extern bst bins;
  ratemap ← _compute_ratemap transform_func extern bst bins ids;
  ratemap ← _normalize_firing_rate_by_occupancy ids occupancy ratemap;
  let ratemap := enforce_minbgrate minbgrate ratemap in
  ratemap ←
    match sigma with
    | Some s =>
        if Qltb 0 s
        then smooth_ratemap bins ids ratemap sigma bw
        else Ok ratemap
    | None => Ok ratemap
    end;
  Ok (occupancy, ratemap).

(** Keyword arguments of [TuningCurve1D.__init__], with their defaults. *)
Record kwargs := {
  kw_sigma : option Q;
  kw_bw : option Q;
  kw_n_extern : option nat;
  kw_transform_func : option (AnalogSignalArray → list Q → list Q);
  kw_minbgrate : option Q;
  kw_extmin : option Q;
  kw_extmax : option Q;
  kw_label : option string;
  kw_empty : bool
}.

Definition default_kwargs : kwargs :=
  {| kw_sigma := None; kw_bw := None; kw_n_extern := None;
     kw_transform_func := None; kw_minbgrate := None;
     kw_extmin := Some 0%Q; kw_extmax := Some 1%Q; kw_label := None;
     kw_empty := false |}.

(** The bin edges: only [(n_extern, extmin, extmax)] is implemented. *)
Definition make_bins (n_extern : option nat) (extmin extmax : option Q)
  : result (list Q) :=
  match n_extern, extmin, extmax with
  | Some n, Some lo, Some hi => Ok (np.linspace lo hi (n + 1))
  | _, _, _ => Raise NotImplementedError
  end.

(** [TuningCurve1D.__init__(self, bst, extern, *, ...)] *)
Definition __init__ (bst : BinnedSpikeTrainArray) (extern : AnalogSignalArray)
    (kw : kwargs) : result tuning_curve :=
  if kw_empty kw then Ok EmptyCurve
  else
    let minbgrate := default (1 # 100)%Q (kw_minbgrate kw) in
    bins ← make_bins (kw_n_extern kw) (kw_extmin kw) (kw_extmax kw);
    '(occupancy, ratemap) ←
      estimate (kw_transform_func kw) extern bst bins (unit_ids bst)
               minbgrate (kw_sigma kw) (kw_bw kw);
    Ok (Curve {| _bins := bins; _ratemap := ratemap; _occupancy := occupancy;
                 _unit_ids := unit_ids bst; _unit_labels := unit_labels bst;
                 _unit_tags := unit_tags bst; _label := kw_label kw |}).

(** A call [TuningCurve1D(...)]: [bst] and [extern] are positional
    parameters without a default, so a call that omits one of them
    fails before the body runs. *)
Definition TuningCurve1D_call (bst : option BinnedSpikeTrainArray)
    (extern : option AnalogSignalArray) (kw : kwargs) : result tuning_curve :=
  match bst, extern with
  | Some b, Some e => __init__ b e kw
  | _, _ =>
      Raise (TypeError "__init__() missing required positional arguments")
  end.

End smoothing.

(** ** Unit-indexed operations *)

(** [seq[idx]] for a list of positions (numpy fancy indexing). *)
Definition take_positions {A} (l : list A) (idx : list nat) : result (list A) :=
  map_result (λ i, match l !! i with
                   | Some x => Ok x
                   | None => Raise (IndexError "index out of bounds")
                   end) idx.

(** The loop of [_unit_subset]: the positions of the requested ids,
    one warning per id that is not found. *)
Fixpoint subset_positions (ids unit_list : list Z) : list string * list nat :=
  match unit_list with
  | [] => ([], [])
  | unit :: rest =>
      let '(warned, found) := subset_positions ids rest in
      match list_index ids unit with
      | Ok id => (warned, id :: found)
      | Raise _ =>
          (("unit_id " +:+ pretty unit
              +:+ " not found in TuningCurve1D; ignoring") :: warned, found)
      end
  end.

Section unit_ops.
Variable exp : Q → Q.

Definition empty_kwargs : kwargs :=
  {| kw_sigma := None; kw_bw := None; kw_n_extern := None;
     kw_transform_func := None; kw_minbgrate := None;
     kw_extmin := Some 0%Q; kw_extmax := Some 1%Q; kw_label := None;
     kw_empty := true |}.

(** [_unit_subset(unit_list)]: the warnings issued and the outcome. *)
Definition _unit_subset (self : TuningCurve1D) (unit_list : list Z)
  : list string * result tuning_curve :=
  let '(warned, unit_subset_ids) := subset_positions (_unit_ids self) unit_list in
  match take_positions (_unit_ids self) unit_subset_ids with
  | Raise e => (warned, Raise e)
  | Ok new_unit_ids =>
  match take_positions (_unit_labels self) unit_subset_ids with
  | Raise e => (warned, Raise e)
  | Ok new_unit_labels =>
      if decide (length unit_subset_ids = 0)
      then (warned ++ ["no units remaining in requested unit subset"],
            TuningCurve1D_call exp None None empty_kwargs)
      else
        (warned,
         rows ← take_positions (_ratemap self) unit_subset_ids;
         Ok (Curve {| _bins := _bins self; _ratemap := rows;
                      _occupancy := _occupancy self;
                      _unit_ids := new_unit_ids;
                      _unit_labels := new_unit_labels;
                      _unit_tags := _unit_tags self;
                      _label := _label self |}))
  end
  end.

End unit_ops.

(** [seq[frm], seq[to] = seq[to], seq[frm]] *)
Definition swap_items {A} (l : list A) (frm to : nat) : result (list A) :=
  match l !! to, l !! frm with
  | Some at_to, Some at_frm => Ok (<[to := at_frm]> (<[frm := at_to]> l))
  | _, _ => Raise (IndexError "list index out of range")
  end.

(** [np.argmax] of a row: the first position of its maximum. *)
Definition argmax (row : list Q) : result nat :=
  m ← np.amax row;
  match list_find (λ x, Qle_bool m x = true) row with
  | Some (i, _) => Ok i
  | None => Raise (ValueError "attempt to get argmax of an empty sequence")
  end.


(** ** DirectionalTuningCurve1D *)

Record DirectionalTuningCurve1D := {
  base : TuningCurve1D;
  _unit_ids_l2r : list Z;
  _unit_ids_r2l : list Z;
  _min_peakfiringrate : Q;
  _max_avgfiringrate : Q;
  _unimodal : bool
}.

(** What [argwhere(...).squeeze().tolist()] hands to the index
    operator: [squeeze] drops every axis of length one, so a single
    hit is a bare integer and anything else a list. *)
Inductive index_object :=
  | IndexInt (i : nat)
  | IndexList (l : list nat).

Definition squeeze_tolist (hits : list nat) : index_object :=
  match hits with
  | [i] => IndexInt i
  | l => IndexList l
  end.

(** The value of [np.asanyarray(unit_ids)[index]]: an integer index
    selects a numpy scalar, a list of integers an array. *)
Inductive indexed_value :=
  | NumpyScalar (v : Z)
  | NumpyArray (vs : list Z).

Definition index_array (arr : list Z) (idx : index_object)
  : result indexed_value :=
  match idx with
  | IndexInt i =>
      match arr !! i with
      | Some v => Ok (NumpyScalar v)
      | None => Raise (IndexError "index out of bounds")
      end
  | IndexList l => vs ← take_positions arr l; Ok (NumpyArray vs)
  end.

(** [set(x)]: a numpy scalar is not iterable. *)
Definition py_set (x : indexed_value) : result (gset Z) :=
  match x with
  | NumpyScalar _ => Raise (TypeError "'numpy.int64' object is not iterable")
  | NumpyArray vs => Ok (list_to_set vs)
  end.

(** [ratemap.max(axis=1)] and [ratemap.mean(axis=1)] on an array with
    [width] columns. *)
Definition max_axis1 (width : Z) (ratemap : list (list Q)) : result (list Q) :=
  if decide (width = 0)%Z
  then Raise (ValueError "zero-size array to reduction operation maximum")
  else map_result np.amax ratemap.

Definition mean_axis1 (ratemap : list (list Q)) : list Q :=
  fmap (λ row, Qsum row / NtoQ (length row))%Q ratemap.

Section restrict.
Variable ids : list Z.
Variable width : Z.
Variable min_peakfiringrate max_avgfiringrate : Q.
Variable unimodal : bool.

(** [restrict_units(ratemap)] *)
Definition restrict_units (ratemap : list (list Q)) : result (gset Z) :=
  peaks ← max_axis1 width ratemap;
  above ← index_array ids
    (squeeze_tolist (np.argwhere (fmap (λ p, Qgtb p min_peakfiringrate) peaks)));
  unit_ids_to_keep ← py_set above;
  below ← index_array ids
    (squeeze_tolist
       (np.argwhere (fmap (λ m, Qltb m max_avgfiringrate) (mean_axis1 ratemap))));
  below ← py_set below;
  let unit_ids_to_keep := unit_ids_to_keep ∩ below in
  if unimodal then Raise NotImplementedError
  else Ok unit_ids_to_keep.

(** [for unit_id in only: ratemap[unit_idx, :] = directional[unit_idx, :]] *)
Definition replace_rows (directional : list (list Q)) (only : list Z)
    (ratemap : list (list Q)) : result (list (list Q)) :=
  for_each (λ rm unit_id,
              unit_idx ← list_index ids unit_id;
              match directional !! unit_idx with
              | Some row =>
                  if decide (unit_idx < length rm)
                  then Ok (<[unit_idx := row]> rm)
                  else Raise (IndexError "index out of bounds for axis 0")
              | None => Raise (IndexError "index out of bounds for axis 0")
              end)
           ratemap only.

End restrict.

(** Keyword arguments of [DirectionalTuningCurve1D.__init__]. *)
Record directional_kwargs := {
  dkw : kwargs;
  kw_min_peakfiringrate : option Q;
  kw_max_avgfiringrate : option Q;
  kw_unimodal : bool
}.

Inductive directional_curve :=
  | EmptyDirectional
  | Directional (c : DirectionalTuningCurve1D).

Section directional.
Variable exp : Q → Q.

(** One pass of the pipeline of [__init__] on a spike train; the unit
    list is the one of the combined spike train. *)
Definition directional_pass (kw : directional_kwargs)
    (extern : AnalogSignalArray) (ids : list Z) (bins : list Q)
    (bst : BinnedSpikeTrainArray) : result (list Z * list (list Q)) :=
  estimate exp (kw_transform_func (dkw kw)) extern bst bins ids
           (default (1 # 100)%Q (kw_minbgrate (dkw kw)))
           (kw_sigma (dkw kw)) (kw_bw (dkw kw)).

(** [DirectionalTuningCurve1D.__init__(self, *, bst_l2r, bst_r2l,
    bst_combined, extern, ...)].  [list(s)] of a set [s] enumerates it
    in an order that Python does not specify; [elements] fixes one. *)
Definition Directional__init__ (bst_l2r bst_r2l bst_combined : BinnedSpikeTrainArray)
    (extern : AnalogSignalArray) (kw : directional_kwargs)
  : result directional_curve :=
  if kw_empty (dkw kw) then Ok EmptyDirectional
  else
    let min_peakfiringrate := default (3 # 2)%Q (kw_min_peakfiringrate kw) in
    let max_avgfiringrate := default 10%Q (kw_max_avgfiringrate kw) in
    bins ← make_bins (kw_n_extern (dkw kw)) (kw_extmin (dkw kw))
                     (kw_extmax (dkw kw));
    let ids := unit_ids bst_combined in
    '(_, ratemap_l2r) ← directional_pass kw extern ids bins bst_l2r;
    '(_, ratemap_r2l) ← directional_pass kw extern ids bins bst_r2l;
    '(occupancy, ratemap) ← directional_pass kw extern ids bins bst_combined;
    let restrict := restrict_units ids (n_bins_of bins) min_peakfiringrate
                                   max_avgfiringrate (kw_unimodal kw) in
    l2r_unit_ids ← restrict ratemap_l2r;
    r2l_unit_ids ← restrict ratemap_r2l;
    let common_unit_ids := elements (r2l_unit_ids ∩ l2r_unit_ids) in
    let l2r_only_unit_ids :=
      elements (l2r_unit_ids ∖ list_to_set common_unit_ids) in
    let r2l_only_unit_ids :=
      elements (r2l_unit_ids ∖ list_to_set common_unit_ids) in
    ratemap ← replace_rows ids ratemap_l2r l2r_only_unit_ids ratemap;
    ratemap ← replace_rows ids ratemap_r2l r2l_only_unit_ids ratemap;
    Ok (Directional
          {| base := {| _bins := bins; _ratemap := ratemap;
                        _occupancy := occupancy; _unit_ids := ids;
                        _unit_labels := unit_labels bst_combined;
                        _unit_tags := unit_tags bst_combined;
                        _label := kw_label (dkw kw) |};
             _unit_ids_l2r := l2r_only_unit_ids;
             _unit_ids_r2l := r2l_only_unit_ids;
             _min_peakfiringrate := min_peakfiringrate;
             _max_avgfiringrate := max_avgfiringrate;
             _unimodal := kw_unimodal kw |}).

End directional.

(** ** Objects, references and in-place updates

    Curves are Python objects: [copy.copy] makes a new object that
    shares the ratemap array and the id and label lists of the
    original, [copy.deepcopy] copies those as well, an attribute
    assignment rebinds a reference, and [swap_rows] and the item
    assignments of the reordering loop update an array or a list in
    place.  The store keeps what can be shared and updated in place
    (the ratemap array, the unit id list, the unit label list) in
    cells of their own; the attributes that no method updates in place
    are kept by value.  A [TuningCurve1D] record is the value that an
    object stands for at some point ([view]). *)

Definition addr := nat.

(** The attribute table of a [TuningCurve1D] object. *)
Record attributes := {
  at_bins : list Q;
  at_ratemap : addr;
  at_occupancy : list Z;
  at_unit_ids : addr;
  at_unit_labels : addr;
  at_unit_tags : list string;
  at_label : option string
}.

Inductive cell :=
  | NdArray (a : list (list Q))
  | IntList (l : list Z)
  | StrList (l : list string)
  | Instance (d : attributes).

Module py.

(** A computation on the store that may raise; the store survives an
    exception. *)
Definition M (A : Type) : Type := gmap addr cell → result A * gmap addr cell.

#[global] Instance M_ret : MRet M := λ A a h, (Ok a, h).
#[global] Instance M_bind : MBind M :=
  λ A B f m h, match m h with
               | (Ok a, h') => f a h'
               | (Raise e, h') => (Raise e, h')
               end.

Definition lift {A} (r : result A) : M A := λ h, (r, h).

Definition alloc (c : cell) : M addr :=
  λ h, let a := fresh (dom h) in (Ok a, <[a := c]> h).

Definition update (r : addr) (c : cell) : M unit :=
  λ h, (Ok (), <[r := c]> h).

Definition instance (o : addr) : M attributes :=
  λ h, match h !! o with
       | Some (Instance d) => (Ok d, h)
       | _ => (Raise (AttributeError "not a TuningCurve1D object"), h)
       end.

Definition ndarray (r : addr) : M (list (list Q)) :=
  λ h, match h !! r with
       | Some (NdArray a) => (Ok a, h)
       | _ => (Raise (TypeError "not an array"), h)
       end.

Definition int_list (r : addr) : M (list Z) :=
  λ h, match h !! r with
       | Some (IntList l) => (Ok l, h)
       | _ => (Raise (TypeError "not a list"), h)
       end.

Definition str_list (r : addr) : M (list string) :=
  λ h, match h !! r with
       | Some (StrList l) => (Ok l, h)
       | _ => (Raise (TypeError "not a list"), h)
       end.

(** A new object for a curve given by value, with an array and lists
    of its own. *)
Definition new (c : TuningCurve1D) : M addr :=
  r_rm ← alloc (NdArray (_ratemap c));
  r_ids ← alloc (IntList (_unit_ids c));
  r_labels ← alloc (StrList (_unit_labels c));
  alloc (Instance {| at_bins := _bins c; at_ratemap := r_rm;
                     at_occupancy := _occupancy c; at_unit_ids := r_ids;
                     at_unit_labels := r_labels;
                     at_unit_tags := _unit_tags c;
                     at_label := _label c |}).

(** [copy.copy(obj)]: a new object with the same attribute table. *)
Definition copy (o : addr) : M addr :=
  d ← instance o; alloc (Instance d).

(** [copy.deepcopy(obj)]: a new object whose array and lists are
    copies. *)
Definition deepcopy (o : addr) : M addr :=
  d ← instance o;
  rm ← ndarray (at_ratemap d);
  ids ← int_list (at_unit_ids d);
  labels ← str_list (at_unit_labels d);
  r_rm ← alloc (NdArray rm);
  r_ids ← alloc (IntList ids);
  r_labels ← alloc (StrList labels);
  alloc (Instance {| at_bins := at_bins d; at_ratemap := r_rm;
                     at_occupancy := at_occupancy d; at_unit_ids := r_ids;
                     at_unit_labels := r_labels;
                     at_unit_tags := at_unit_tags d;
                     at_label := at_label d |}).

(** [obj._ratemap = array]: the attribute now refers to a new array. *)
Definition set_ratemap (o : addr) (a : list (list Q)) : M unit :=
  d ← instance o;
  r ← alloc (NdArray a);
  update o (Instance {| at_bins := at_bins d; at_ratemap := r;
                        at_occupancy := at_occupancy d;
                        at_unit_ids := at_unit_ids d;
                        at_unit_labels := at_unit_labels d;
                        at_unit_tags := at_unit_tags d;
                        at_label := at_label d |}).

(** [for x in l: body(x)] with a local variable threaded through. *)
Fixpoint for_each {S A : Type} (body : S → A → M S) (st : S) (l : list A)
  : M S :=
  match l with
  | [] => mret st
  | x :: rest => st' ← body st x; for_each body st' rest
  end.

End py.

(** The curve that an object stands for: its attributes with the
    array and the lists read from the store. *)
Definition view (h : gmap addr cell) (o : addr) : option TuningCurve1D :=
  match h !! o with
  | Some (Instance d) =>
      match h !! at_ratemap d, h !! at_unit_ids d, h !! at_unit_labels d with
      | Some (NdArray rm), Some (IntList ids), Some (StrList labels) =>
          Some {| _bins := at_bins d; _ratemap := rm;
                  _occupancy := at_occupancy d; _unit_ids := ids;
                  _unit_labels := labels; _unit_tags := at_unit_tags d;
                  _label := at_label d |}
      | _, _, _ => None
      end
  | _ => None
  end.

(** ** Methods on objects *)

(** [self.n_units], [self.ratemap], [self.unit_ids] and [self.n_bins]. *)
Definition n_units_at (o : addr) : py.M nat :=
  d ← py.instance o; ids ← py.int_list (at_unit_ids d); mret (length ids).
Definition ratemap_at (o : addr) : py.M (list (list Q)) :=
  d ← py.instance o; py.ndarray (at_ratemap d).
Definition unit_ids_at (o : addr) : py.M (list Z) :=
  d ← py.instance o; py.int_list (at_unit_ids d).
Definition n_bins_at (o : addr) : py.M Z :=
  d ← py.instance o; mret (n_bins_of (at_bins d)).

(** The right operand of an arithmetic operator: a number, a reference
    to some object, or a value of another type. *)
Inductive operand :=
  | Number (x : Q)
  | Reference (o : addr)
  | OtherValue (type_name : string).

(** [isinstance(other, TuningCurve1D)] *)
Definition is_curve (o : addr) : py.M bool :=
  λ h, (Ok (match h !! o with Some (Instance _) => true | _ => false end), h).

(** [__add__(self, other)] *)
Definition __add__ (self : addr) (other : operand) : py.M addr :=
  out ← py.copy self;
  match other with
  | Number x =>
      rm ← ratemap_at out;
      py.set_ratemap out (np.elementwise (λ r, r + x)%Q rm);;
      mret out
  | Reference o =>
      curve ← is_curve o;
      if curve : bool then py.lift (Raise NotImplementedError)
      else py.lift (Raise (TypeError "unsupported operand type(s) for +"))
  | OtherValue ty =>
      py.lift (Raise (TypeError
                 ("unsupported operand type(s) for +: 'TuningCurve1D' and '"
                    +:+ ty +:+ "'")))
  end.

(** [normalize(self, inplace)] *)
Definition normalize (self : addr) (inplace : bool) : py.M addr :=
  out ← (if inplace then mret self else py.deepcopy self);
  n_units ← n_units_at self;
  (if decide (1 < n_units)
   then
     out_ratemap ← ratemap_at out;
     per_unit_max ← py.lift (map_result np.amax out_ratemap);
     self_ratemap ← ratemap_at self;
     width ← n_bins_at out;
     ratemap ← py.lift (np.true_divide self_ratemap
                          (replicate (Z.to_nat width) <$> per_unit_max));
     py.set_ratemap out ratemap
   else
     out_ratemap ← ratemap_at out;
     per_unit_max ← py.lift (np.amax (concat out_ratemap));
     self_ratemap ← ratemap_at self;
     width ← n_bins_at out;
     ratemap ← py.lift (np.true_divide self_ratemap
                          ((λ _, replicate (Z.to_nat width) per_unit_max)
                             <$> self_ratemap));
     py.set_ratemap out ratemap);;
  mret out.

Section smooth_method.
Variable exp : Q → Q.


End smooth_method.

(** Modelled from the spec: [utils.swap_rows] lives in [nelpy/utils.py],
    which is not part of the sources at hand; reordering is specified to
    permute the ratemap rows together with the unit ids and labels, so
    it exchanges the rows [frm] and [to] of the array, in place. *)
Definition swap_rows (arr : addr) (frm to : nat) : py.M unit :=
  a ← py.ndarray arr;
  a ← py.lift (swap_items a frm to);
  py.update arr (NdArray a).

(** [ids[frm], ids[to] = ids[to], ids[frm]] on the list an attribute
    refers to. *)
Definition swap_int_items (l : addr) (frm to : nat) : py.M unit :=
  items ← py.int_list l;
  items ← py.lift (swap_items items frm to);
  py.update l (IntList items).

Definition swap_str_items (l : addr) (frm to : nat) : py.M unit :=
  items ← py.str_list l;
  items ← py.lift (swap_items items frm to);
  py.update l (StrList items).

(** One iteration of the loop over [enumerate(neworder)]; [oldorder]
    is a local list. *)
Definition reorder_step (out : addr) (oldorder : list Z) (oi_ni : nat * Z)
  : py.M (list Z) :=
  frm ← py.lift (list_index oldorder oi_ni.2);
  let to := oi_ni.1 in
  d ← py.instance out;
  swap_rows (at_ratemap d) frm to;;
  d ← py.instance out;
  swap_int_items (at_unit_ids d) frm to;;
  d ← py.instance out;
  swap_str_items (at_unit_labels d) frm to;;
  py.lift (swap_items oldorder frm to).

(** The loop shared (verbatim in the source) by both reordering
    methods, from [oldorder = list(range(len(neworder)))] on. *)
Definition reorder_loop (out : addr) (neworder : list Z) : py.M unit :=
  let oldorder := Z.of_nat <$> seq 0 (length neworder) in
  py.for_each (reorder_step out) oldorder (enumerate neworder);;
  mret ().

Section reordering.
(** [ndarray.argsort()] with numpy's default sorting kind. *)
Variable argsort : list nat → list nat.

Definition _get_peak_firing_order_idx (self : addr) : py.M (list Z) :=
  ratemap ← ratemap_at self;
  peaks ← py.lift (map_result argmax ratemap);
  mret (Z.of_nat <$> argsort peaks).

Definition get_peak_firing_order_ids (self : addr) : py.M (list Z) :=
  ratemap ← ratemap_at self;
  peaks ← py.lift (map_result argmax ratemap);
  ids ← unit_ids_at self;
  py.lift (take_positions ids (argsort peaks)).

(** [_reorder_units_by_idx(self, neworder, inplace=)] *)
Definition _reorder_units_by_idx (self : addr) (neworder : option (list Z))
    (inplace : bool) : py.M addr :=
  neworder ← match neworder with
             | None => _get_peak_firing_order_idx self
             | Some l => mret l
             end;
  out ← (if inplace then mret self else py.deepcopy self);
  reorder_loop out neworder;;
  mret out.

(** [reorder_units_by_ids(self, neworder, inplace=)] *)
Definition reorder_units_by_ids (self : addr) (neworder : option (list Z))
    (inplace : bool) : py.M addr :=
  neworder ← match neworder with
             | None => get_peak_firing_order_ids self
             | Some l => mret l
             end;
  out ← (if inplace then mret self else py.deepcopy self);
  ids ← unit_ids_at self;
  neworder ← py.lift (map_result (λ x, i ← list_index ids x; Ok (Z.of_nat i))
                                 neworder);
  reorder_loop out neworder;;
  mret out.

End reordering.

(** ** Properties, setters and subscripting of [TuningCurve1D] *)

(** The [bin_centers] property:
    [(self.bins + (self.bins[1] - self.bins[0])/2)[:-1]]. *)
Definition TuningCurve1D_bin_centers (self : TuningCurve1D) : result (list Q) :=
  match _bins self with
  | b0 :: b1 :: _ =>
      Ok (np.all_but_last ((λ b, b + (b1 - b0) / 2)%Q <$> _bins self))
  | _ => Raise (IndexError "index 1 is out of bounds for axis 0")
  end.

(** The [isempty] property: [len(self.ratemap) == 0]. *)
Definition isempty (self : TuningCurve1D) : bool :=
  bool_decide (length (_ratemap self) = 0).

(** The [shape] property, for a two-dimensional ratemap. *)
Definition shape (self : TuningCurve1D) : nat * nat :=
  if isempty self then (n_units self, 0)
  else (length (_ratemap self), length (default [] (head (_ratemap self)))).

(** [__len__] *)
Definition __len__ (self : TuningCurve1D) : nat := n_units self.

(** The [unit_ids] setter, for a sequence of integers (on which
    [int(id)] is the identity). *)
Definition set_unit_ids (self : TuningCurve1D) (val : list Z)
  : result TuningCurve1D :=
  if decide (length val ≠ n_units self)
  then Raise (TypeError "unit_ids must be of length n_units")
  else if decide (size (list_to_set val : gset Z) < length val)
  then Raise (TypeError "duplicate unit_ids are not allowed")
  else Ok {| _bins := _bins self; _ratemap := _ratemap self;
             _occupancy := _occupancy self; _unit_ids := val;
             _unit_labels := _unit_labels self;
             _unit_tags := _unit_tags self; _label := _label self |}.

(** A subscript [tc[...]]: an integer, a list of integers or a tuple
    of integers. *)
Inductive subscript :=
  | SubInt (i : Z)
  | SubList (l : list Z)
  | SubTuple (l : list Z).

(** [a[idx]] along the first axis for a list of integers: negative
    entries count from the end. *)
Definition fancy_index {A} (a : list A) (idx : list Z) : result (list A) :=
  map_result (λ j, i ← py_index (length a) j;
                   match a !! i with
                   | Some x => Ok x
                   | None => Raise (IndexError "index out of bounds")
                   end) idx.

(** [__getitem__(self, *idx)]: a lone integer stays wrapped in a list,
    a list or a tuple is the index list itself; every exception of the
    indexing is turned into a [TypeError]. *)
Definition __getitem__ (self : TuningCurve1D) (sub : subscript)
  : result TuningCurve1D :=
  let idx := match sub with
             | SubInt i => [i]
             | SubList l => l
             | SubTuple l => l
             end in
  if isempty self then Ok self
  else
    match
      (ratemap ← fancy_index (_ratemap self) idx;
       unit_ids ← fancy_index (_unit_ids self) idx;
       unit_labels ← fancy_index (_unit_labels self) idx;
       Ok {| _bins := _bins self; _ratemap := ratemap;
             _occupancy := _occupancy self; _unit_ids := unit_ids;
             _unit_labels := unit_labels;
             _unit_tags := _unit_tags self; _label := _label self |})
    with
    | Ok out => Ok out
    | Raise _ => Raise (TypeError "unsupported subsctipting type")
    end.

(** ** Arithmetic with a number, on objects *)

(** [__sub__(self, other)] and [__mul__(self, other)] for a number
    [other]: a shallow copy whose ratemap attribute is rebound. *)
Definition __sub__ (self : addr) (other : Q) : py.M addr :=
  out ← py.copy self;
  rm ← ratemap_at out;
  py.set_ratemap out (np.elementwise (λ r, r - other)%Q rm);;
  mret out.

Definition __mul__ (self : addr) (other : Q) : py.M addr :=
  out ← py.copy self;
  rm ← ratemap_at out;
  py.set_ratemap out (np.elementwise (λ r, r * other)%Q rm);;
  mret out.

(** [__rmul__(self, other)]: [self * other]. *)
Definition __rmul__ (self : addr) (other : Q) : py.M addr :=
  __mul__ self other.

Section reorder_units_method.
Variable argsort : list nat → list nat.


End reorder_units_method.

(** ** Iteration *)

(** What [__next__] hands out: a shallow copy of the curve whose
    ratemap is one row, whose [_unit_ids] is one integer and whose
    [_unit_labels] is one string. *)
Record unit_curve := {
  uc_bins : list Q;
  uc_ratemap : list Q;
  uc_occupancy : list Z;
  uc_unit_ids : Z;
  uc_unit_labels : string;
  uc_unit_tags : list string;
  uc_label : option string
}.

(** The outcome of a call of [__next__] that does not fail. *)
Inductive next_outcome :=
  | StopIteration
  | Yielded (out : unit_curve).

(** [__iter__(self)]: the index attribute of the curve is set to zero
    (and the curve itself is the iterator). *)
Definition __iter__ (_index : option Z) : option Z := Some 0%Z.

(** [__next__(self)] on a curve whose index attribute is [_index]
    ([None] when [__iter__] never ran): the outcome and the index
    attribute afterwards. *)
Definition __next__ (self : TuningCurve1D) (_index : option Z)
  : result next_outcome * option Z :=
  match _index with
  | None => (Raise (AttributeError "object has no attribute '_index'"), None)
  | Some index =>
      if decide (index > Z.of_nat (n_units self) - 1)%Z
      then (Ok StopIteration, Some index)
      else
        match
          (i ← py_index (length (_ratemap self)) index;
           row ← match _ratemap self !! i with
                 | Some row => Ok row
                 | None => Raise (IndexError "index out of bounds")
                 end;
           j ← py_index (length (_unit_ids self)) index;
           id ← match _unit_ids self !! j with
                | Some id => Ok id
                | None => Raise (IndexError "list index out of range")
                end;
           k ← py_index (length (_unit_labels self)) index;
           label ← match _unit_labels self !! k with
                   | Some label => Ok label
                   | None => Raise (IndexError "list index out of range")
                   end;
           Ok {| uc_bins := _bins self; uc_ratemap := row;
                 uc_occupancy := _occupancy self; uc_unit_ids := id;
                 uc_unit_labels := label; uc_unit_tags := _unit_tags self;
                 uc_label := _label self |})
        with
        | Ok out => (Ok (Yielded out), Some (index + 1)%Z)
        | Raise e => (Raise e, Some index)
        end
  end.

(** [for out in self: items.append(out)]: [__iter__] once, then
    [__next__] until it stops; the items and the index attribute
    afterwards.  The loop body runs at most [fuel] times. *)
Fixpoint next_until_stop (fuel : nat) (self : TuningCurve1D)
    (_index : option Z) : result (list unit_curve) * option Z :=
  match fuel with
  | 0 => (Raise (RuntimeError "iteration did not stop"), _index)
  | S fuel =>
      match __next__ self _index with
      | (Ok StopIteration, _index) => (Ok [], _index)
      | (Ok (Yielded out), _index) =>
          match next_until_stop fuel self _index with
          | (Ok items, _index) => (Ok (out :: items), _index)
          | (Raise e, _index) => (Raise e, _index)
          end
      | (Raise e, _index) => (Raise e, _index)
      end
  end.

Definition for_each_unit (fuel : nat) (self : TuningCurve1D)
    (_index : option Z) : result (list unit_curve) * option Z :=
  next_until_stop fuel self (__iter__ _index).

(** ** Concrete data used by the examples *)

Definition example_curve : TuningCurve1D :=
  {| _bins := np.linspace 0 1 5;
     _ratemap := [[1; 2; 3; 4]; [2; 2; 1; 1]; [5; 0; 0; 1]]%Q;
     _occupancy := [1; 1; 1; 1]%Z;
     _unit_ids := [10; 20; 30]%Z;
     _unit_labels := ["a"; "b"; "c"];
     _unit_tags := [];
     _label := None |}.

(** ** The selection criteria of the directional curve, per unit *)

(** The peak rate of a row exceeds a threshold; its mean rate is below
    a threshold. *)
Definition peak_above (min_peak : Q) (row : list Q) : Prop :=
  ∃ p, np.amax row = Ok p ∧ Qgtb p min_peak = true.
Definition mean_below (max_avg : Q) (row : list Q) : Prop :=
  Qltb (Qsum row / NtoQ (length row))%Q max_avg = true.


(** The unit in row [i] of a ratemap is retained: its peak rate exceeds
    the minimum peak rate and its mean rate is below the maximum
    average rate. *)
Definition retained (min_peak max_avg : Q) (ratemap : list (list Q))
    (i : nat) : Prop :=
  ∃ row, ratemap !! i = Some row ∧
         peak_above min_peak row ∧ mean_below max_avg row.

(** ** Shapes and bounds of arrays *)

(** A 2-D array of [rows] rows and [cols] columns. *)
Definition has_shape (rows cols : nat) (a : list (list Q)) : Prop :=
  length a = rows ∧ Forall (λ row, length row = cols) a.

(** Every entry is at least [m]. *)
Definition all_ge (m : Q) (a : list (list Q)) : Prop :=
  Forall (Forall (λ x, m <= x)%Q) a.

(** ** Histogram bins *)

(** The sample [x] lies in the bin with edges [lo] and [hi]: half-open,
    except for the last bin, which includes its right edge. *)
Definition in_bin (lo hi : Q) (is_last : bool) (x : Q) : bool :=
  Qle_bool lo x && (if is_last then Qle_bool x hi else Qltb x hi).

(** The spike counts of one unit (a row of the data matrix), summed
    over the samples whose correlate value is at or below the first bin
    edge. *)
Definition below_range_count (first_edge : Q) (ext counts : list Q) : Q :=
  Qsum (zip_with (λ x d, if Qle_bool x first_edge then d else 0%Q) ext counts).

(** ** Reordering *)

(** [out] is [l] read at the positions [order]:
    [out = [l[o] for o in order]]. *)
Definition picked {A} (l : list A) (order : list Z) (out : list A) : Prop :=
  Forall2 (λ o x, l !! Z.to_nat o = Some x) order out.

(** The contents that the reordering loop works on: the array and the
    two lists of the reordered object, and the local [oldorder]. *)
Record reorder_state := {
  rs_ratemap : list (list Q);
  rs_unit_ids : list Z;
  rs_unit_labels : list string;
  rs_oldorder : list Z
}.

(** What one iteration of the loop does to these contents. *)
Definition contents_step (st : reorder_state) (oi_ni : nat * Z)
  : result reorder_state :=
  frm ← list_index (rs_oldorder st) oi_ni.2;
  let to := oi_ni.1 in
  rm ← swap_items (rs_ratemap st) frm to;
  ids ← swap_items (rs_unit_ids st) frm to;
  labels ← swap_items (rs_unit_labels st) frm to;
  oldorder ← swap_items (rs_oldorder st) frm to;
  Ok {| rs_ratemap := rm; rs_unit_ids := ids; rs_unit_labels := labels;
        rs_oldorder := oldorder |}.

(** The contents of a curve at the start of the loop, and the curve
    with the contents that the loop has reached. *)
Definition contents_of (c : TuningCurve1D) (oldorder : list Z)
  : reorder_state :=
  {| rs_ratemap := _ratemap c; rs_unit_ids := _unit_ids c;
     rs_unit_labels := _unit_labels c; rs_oldorder := oldorder |}.

Definition with_contents (c : TuningCurve1D) (st : reorder_state)
  : TuningCurve1D :=
  {| _bins := _bins c; _ratemap := rs_ratemap st;
     _occupancy := _occupancy c; _unit_ids := rs_unit_ids st;
     _unit_labels := rs_unit_labels st; _unit_tags := _unit_tags c;
     _label := _label c |}.

(** The cells that the reordering loop may update for an object with
    the attribute table [d]; every other cell is left as it is. *)
Definition outside (d : attributes) (a : addr) : Prop :=
  a ≠ at_ratemap d ∧ a ≠ at_unit_ids d ∧ a ≠ at_unit_labels d.

(** What the reordering loop maintains after [k] iterations: the first
    [k] entries of [oldorder] are those of [neworder], no position has
    been lost, and the ratemap rows, unit ids and unit labels are the
    original ones read in the order [oldorder]. *)
Record reorder_invariant (self : TuningCurve1D) (neworder : list Z)
    (k : nat) (st : reorder_state) : Prop := {
  inv_members : ∀ x, x ∈ neworder → x ∈ rs_oldorder st;
  inv_prefix : take k (rs_oldorder st) = take k neworder;
  inv_length : length (rs_oldorder st) = length neworder;
  inv_ratemap : picked (_ratemap self) (rs_oldorder st) (rs_ratemap st);
  inv_ids : picked (_unit_ids self) (rs_oldorder st) (rs_unit_ids st);
  inv_labels : picked (_unit_labels self) (rs_oldorder st) (rs_unit_labels st)
}.

(** ** More concrete data *)

(** A positive rational stand-in for the exponential: [2 ^ floor x]. *)
Definition exp2 (x : Q) : Q := (2 ^ Qfloor x)%Q.

(** A correlate that equals the time at which it is read. *)
Definition extern_identity : AnalogSignalArray :=
  {| asarray := λ at_, (at_, at_) |}.

(** Three units over five time bins; the correlate visits the first
    three bins of [[0, 1]] and, in the last time bin, the lower edge. *)
Definition example_bst : BinnedSpikeTrainArray :=
  {| unit_ids := [1; 2; 3]%Z;
     unit_labels := ["a"; "b"; "c"];
     unit_tags := [];
     data := [[0; 5; 5; 0; 1]; [2; 2; 2; 2; 7]; [0; 0; 0; 0; 3]]%Q;
     ds := 1%Q;
     bin_centers := [1 # 10; 3 # 10; 3 # 10; 6 # 10; 0]%Q |}.

(** The same spike train with the correlate at [extmax] in the last
    time bin. *)
Definition example_bst_at_extmax : BinnedSpikeTrainArray :=
  {| unit_ids := [1; 2; 3]%Z;
     unit_labels := ["a"; "b"; "c"];
     unit_tags := [];
     data := [[0; 5; 5; 0; 1]; [2; 2; 2; 2; 7]; [0; 0; 0; 0; 3]]%Q;
     ds := 1%Q;
     bin_centers := [1 # 10; 3 # 10; 3 # 10; 6 # 10; 1]%Q |}.

(** Four bins on [[0, 1]], without and with smoothing. *)
Definition example_kwargs : kwargs :=
  {| kw_sigma := None; kw_bw := None; kw_n_extern := Some 4;
     kw_transform_func := None; kw_minbgrate := None;
     kw_extmin := Some 0%Q; kw_extmax := Some 1%Q; kw_label := None;
     kw_empty := false |}.

Definition example_kwargs_smooth : kwargs :=
  {| kw_sigma := Some (1 # 4)%Q; kw_bw := None; kw_n_extern := Some 4;
     kw_transform_func := None; kw_minbgrate := None;
     kw_extmin := Some 0%Q; kw_extmax := Some 1%Q; kw_label := None;
     kw_empty := false |}.

(** Spike trains of a directional curve over the time bins with
    correlate values 1/8, 3/8, 5/8 and 0.  Unit 1 is active from left
    to right only, unit 2 in both directions, unit 3 passes neither
    selection (too quiet one way, too active on average the other). *)
Definition example_bst_l2r : BinnedSpikeTrainArray :=
  {| unit_ids := [1; 2; 3]%Z;
     unit_labels := ["a"; "b"; "c"];
     unit_tags := [];
     data := [[4; 0; 0; 0]; [0; 4; 0; 0]; [0; 0; 1; 0]]%Q;
     ds := 1%Q;
     bin_centers := [1 # 8; 3 # 8; 5 # 8; 0]%Q |}.

Definition example_bst_r2l : BinnedSpikeTrainArray :=
  {| unit_ids := [1; 2; 3]%Z;
     unit_labels := ["a"; "b"; "c"];
     unit_tags := [];
     data := [[0; 0; 1; 0]; [0; 4; 0; 0]; [0; 50; 50; 50]]%Q;
     ds := 1%Q;
     bin_centers := [1 # 8; 3 # 8; 5 # 8; 0]%Q |}.

Definition example_bst_combined : BinnedSpikeTrainArray :=
  {| unit_ids := [1; 2; 3]%Z;
     unit_labels := ["a"; "b"; "c"];
     unit_tags := [];
     data := [[4; 0; 1; 0]; [0; 8; 0; 0]; [0; 50; 51; 50]]%Q;
     ds := 1%Q;
     bin_centers := [1 # 8; 3 # 8; 5 # 8; 0]%Q |}.

Definition example_directional_kwargs : directional_kwargs :=
  {| dkw := example_kwargs; kw_min_peakfiringrate := None;
     kw_max_avgfiringrate := None; kw_unimodal := false |}.

(** A store that holds [example_curve] as its only object. *)
Definition example_store : gmap addr cell :=
  (py.new example_curve ∅).2.
Definition example_object : addr :=
  match (py.new example_curve ∅).1 with Ok o => o | Raise _ => 0 end.

(** ** More concrete data *)

(** A transform that doubles the correlate. *)
Definition example_transform (extern : AnalogSignalArray) (at_ : list Q)
  : list Q :=
  (λ x, 2 * x)%Q <$> (asarray extern at_).2.

Definition example_kwargs_transform : kwargs :=
  {| kw_sigma := None; kw_bw := None; kw_n_extern := Some 4;
     kw_transform_func := Some example_transform; kw_minbgrate := None;
     kw_extmin := Some 0%Q; kw_extmax := Some 1%Q; kw_label := None;
     kw_empty := false |}.

Definition example_kwargs_no_extmax : kwargs :=
  {| kw_sigma := None; kw_bw := None; kw_n_extern := Some 4;
     kw_transform_func := None; kw_minbgrate := None;
     kw_extmin := Some 0%Q; kw_extmax := None; kw_label := None;
     kw_empty := false |}.

Definition example_kwargs_unimodal : directional_kwargs :=
  {| dkw := example_kwargs; kw_min_peakfiringrate := None;
     kw_max_avgfiringrate := None; kw_unimodal := true |}.

(** ** Totals *)

(** The sum of a list of integers ([np.sum] of an integer vector). *)
Definition Zsum (l : list Z) : Z := foldr Z.add 0%Z l.

(** The number of samples in the closed interval [[lo, hi]]. *)
Definition count_within (lo hi : Q) (samples : list Q) : nat :=
  count (λ x, Qle_bool lo x && Qle_bool x hi) samples.

(** The example spike train with the correlate at 9/10, inside the
    last of four bins on [[0, 1]], in the last time bin. *)
Definition example_bst_last_bin : BinnedSpikeTrainArray :=
  {| unit_ids := [1; 2; 3]%Z;
     unit_labels := ["a"; "b"; "c"];
     unit_tags := [];
     data := [[0; 5; 5; 0; 1]; [2; 2; 2; 2; 7]; [0; 0; 0; 0; 3]]%Q;
     ds := 1%Q;
     bin_centers := [1 # 10; 3 # 10; 3 # 10; 6 # 10; 9 # 10]%Q |}.

(** ** Sorting positions *)





(** * Properties *)

(** ** The error monad *)

Lemma bind_Ok {A B} (m : result A) (f : A → result B) b :
  m ≫= f = Ok b ↔ ∃ a, m = Ok a ∧ f a = Ok b.
Proof.
  destruct m as [a|e]; simpl.
  - split; [eauto | by intros (? & [= ->] & ?)].
  - split; [done | by intros (? & ? & ?)].
Qed.

Lemma map_result_Ok {A B} (f : A → result B) l ys :
  map_result f l = Ok ys ↔ Forall2 (λ x y, f x = Ok y) l ys.
Proof.
  revert ys. induction l as [|x l IH]; intros ys; simpl.
  - split; [intros [= <-]; constructor | by inversion 1].
  - split.
    + intros (y & Hy & (ys' & Hys & [= <-])%bind_Ok)%bind_Ok.
      constructor; [done | by apply IH].
    + inversion 1 as [|? y ? ys' Hy Hys]; subst.
      rewrite Hy; simpl. apply IH in Hys. by rewrite Hys.
Qed.

Lemma take_positions_Ok {A} (l : list A) idx xs :
  take_positions l idx = Ok xs ↔ Forall2 (λ i x, l !! i = Some x) idx xs.
Proof.
  unfold take_positions. rewrite map_result_Ok.
  split; intros H; eapply Forall2_impl; [exact H | | exact H | ];
    intros i x; simpl; destruct (l !! i); naive_solver.
Qed.

Lemma exp2_pos x : (0 < exp2 x)%Q.
Proof. unfold exp2. by apply Qpower_0_lt. Qed.

(** ** Occupancy normalization *)

Lemma true_divide_Ok a b :
  length <$> a = length <$> b →
  np.true_divide a b = Ok (zip_with (zip_with Qdiv) a b).
Proof. intros H. unfold np.true_divide. by rewrite decide_True. Qed.

(** C4: normalization divides the entry of unit [u] in bin [b] by the
    occupancy of [b], for every unit alike, except that a bin with
    zero occupancy is divided by 1; no divisor is zero, and the entry
    of a zero-occupancy bin keeps its value. *)
Theorem normalize_by_occupancy_entries
    (ids : list Z) (occupancy : list Z) (ratemap : list (list Q)) :
  length ratemap = length ids →
  Forall (λ row, length row = length occupancy) ratemap →
  ∃ out,
    _normalize_firing_rate_by_occupancy ids occupancy ratemap = Ok out ∧
    length out = length ratemap ∧
    ∀ u b row r o,
      ratemap !! u = Some row → row !! b = Some r → occupancy !! b = Some o →
      let divisor := if decide (o = 0%Z) then 1%Z else o in
      ∃ row', out !! u = Some row' ∧
        length row' = length row ∧
        row' !! b = Some (r / ZtoQ divisor)%Q ∧
        ¬ (ZtoQ divisor == 0)%Q ∧
        (o = 0%Z → (r / ZtoQ divisor == r)%Q).
Proof.
  intros Hrows Hcols. unfold _normalize_firing_rate_by_occupancy.
  set (fix0 := λ d : Z, if decide (d = 0%Z) then 1%Z else d).
  set (denom := (λ row : list Z, ZtoQ <$> row) <$> _).
  assert (Hdenom : ∀ u, u < length ids →
            denom !! u = Some (ZtoQ <$> (fix0 <$> occupancy))).
  { intros u Hu. unfold denom.
    rewrite !list_lookup_fmap, lookup_replicate_2 by done. done. }
  assert (Hshape : length <$> ratemap = length <$> denom).
  { apply list_eq; intros u. rewrite !list_lookup_fmap.
    destruct (ratemap !! u) as [row|] eqn:Hu.
    - rewrite Hdenom by (rewrite <- Hrows; by eapply lookup_lt_Some).
      simpl. rewrite !length_fmap. f_equal.
      by eapply (Forall_lookup_1 _ _ _ _ Hcols).
    - apply lookup_ge_None in Hu. rewrite (proj2 (lookup_ge_None denom u)); [done|].
      unfold denom. rewrite !length_fmap, length_replicate. lia. }
  eexists. split; [by apply true_divide_Ok|].
  split.
  { rewrite length_zip_with. apply (f_equal length) in Hshape.
    rewrite !length_fmap in Hshape. lia. }
  intros u b row r o Hu Hb Ho.
  set (divisor := if decide (o = 0%Z) then 1%Z else o).
  assert (Hlt : u < length ids) by (rewrite <- Hrows; by eapply lookup_lt_Some).
  eexists. rewrite lookup_zip_with, Hu, (Hdenom u Hlt). simpl.
  split; [done|].
  assert (Hlen : length row = length occupancy)
    by (by eapply (Forall_lookup_1 _ _ _ _ Hcols)).
  split; [rewrite length_zip_with, !length_fmap; lia|].
  split.
  { rewrite lookup_zip_with, Hb. simpl.
    by rewrite !list_lookup_fmap, Ho. }
  assert (Hnz : divisor ≠ 0%Z) by (unfold divisor; case_decide; lia).
  split.
  { unfold ZtoQ. intros H. apply Hnz.
    unfold Qeq in H. simpl in H. lia. }
  intros ->. unfold divisor. rewrite decide_True by done.
  unfold ZtoQ. field.
Qed.

(** C4, at a concrete input: two units, one bin occupied twice and one
    empty bin. *)
Lemma normalize_by_occupancy_entries_witness :
  length [[4; 3]; [6; 5]]%Q = length [1; 2]%Z ∧
  Forall (λ row : list Q, length row = length [2; 0]%Z) [[4; 3]; [6; 5]]%Q ∧
  ∃ out,
    _normalize_firing_rate_by_occupancy [1; 2]%Z [2; 0]%Z [[4; 3]; [6; 5]]%Q
    = Ok out ∧
    length out = 2.
Proof.
  assert (Hcols : Forall (λ row : list Q, length row = length [2; 0]%Z)
                         [[4; 3]; [6; 5]]%Q) by (by repeat constructor).
  split; [reflexivity|]. split; [exact Hcols|].
  destruct (normalize_by_occupancy_entries [1; 2]%Z [2; 0]%Z
              [[4; 3]; [6; 5]]%Q eq_refl Hcols) as (out & Hout & Hlen & _).
  exists out. split; [exact Hout | exact Hlen].
Defined.

(** ** Subsetting by unit ids *)

Lemma list_index_Ok (l : list Z) x i :
  list_index l x = Ok i ↔ l !! i = Some x ∧ ∀ j, j < i → l !! j ≠ Some x.
Proof.
  unfold list_index.
  destruct (list_find (λ y, y = x) l) as [[i' y]|] eqn:Hf.
  - apply list_find_Some in Hf as (Hi & -> & Hmin). split.
    + intros [= <-]. split; [done|]. intros j Hj Hjx. by eapply Hmin.
    + intros [Hi' Hmin']. f_equal.
      destruct (Nat.lt_trichotomy i i') as [?|[?|?]]; [|done|].
      * exfalso. by eapply (Hmin i).
      * exfalso. by eapply (Hmin' i').
  - split; [done|]. intros [Hi _]. exfalso.
    apply list_find_None in Hf. by eapply Forall_lookup_1 in Hf.
Qed.

Lemma list_index_Raise (l : list Z) x :
  x ∉ l ↔ ∃ e, list_index l x = Raise e.
Proof.
  unfold list_index.
  destruct (list_find (λ y, y = x) l) as [[i' y]|] eqn:Hf.
  - apply list_find_Some in Hf as (Hi & -> & _). split.
    + intros []. by eapply list_elem_of_lookup_2.
    + by intros [? ?].
  - split; [eauto|]. intros _ Hin. apply list_find_None in Hf.
    by eapply Forall_forall in Hf.
Qed.

Lemma list_index_NoDup (l : list Z) x i :
  NoDup l → l !! i = Some x → list_index l x = Ok i.
Proof.
  intros Hnd Hi. apply list_index_Ok. split; [done|].
  intros j Hj Hjx. pose proof (NoDup_lookup _ _ _ _ Hnd Hi Hjx). lia.
Qed.

Lemma subset_positions_absent ids unit_list :
  Forall (λ u, u ∉ ids) unit_list →
  (subset_positions ids unit_list).2 = [] ∧
  length (subset_positions ids unit_list).1 = length unit_list.
Proof.
  induction 1 as [|u l Hu _ IH]; [done|]. simpl.
  destruct (subset_positions ids l) as [warned found]. simpl in IH.
  destruct IH as [-> IH].
  destruct (proj1 (list_index_Raise _ _) Hu) as [e ->]. simpl. by rewrite IH.
Qed.

(** C8, the failing path: when none of the requested ids is present,
    [_unit_subset] warns once per id and once for the empty remainder,
    and then raises [TypeError], because the empty curve is requested
    by a constructor call that lacks the two required arguments. *)
Theorem unit_subset_of_absent_ids_raises
    (exp : Q → Q) (self : TuningCurve1D) (unit_list : list Z) :
  Forall (λ u, u ∉ _unit_ids self) unit_list →
  ∃ warned,
    _unit_subset exp self unit_list
    = (warned ++ ["no units remaining in requested unit subset"],
       Raise (TypeError "__init__() missing required positional arguments")) ∧
    length warned = length unit_list.
Proof.
  intros Habs. apply subset_positions_absent in Habs as [Hfound Hlen].
  unfold _unit_subset.
  destruct (subset_positions (_unit_ids self) unit_list) as [warned found].
  simpl in *. subst found. simpl. by exists warned.
Qed.

(** C8, at a concrete input: unit 7 is not a unit of the curve. *)
Lemma unit_subset_of_absent_ids_raises_witness :
  Forall (λ u, u ∉ _unit_ids example_curve) [7%Z] ∧
  ∃ warned,
    _unit_subset exp2 example_curve [7%Z]
    = (warned ++ ["no units remaining in requested unit subset"],
       Raise (TypeError "__init__() missing required positional arguments")) ∧
    length warned = 1.
Proof.
  assert (Habs : Forall (λ u, u ∉ _unit_ids example_curve) [7%Z]).
  { repeat constructor. apply (bool_decide_unpack _). by vm_compute. }
  split; [exact Habs|].
  exact (unit_subset_of_absent_ids_raises exp2 example_curve [7%Z] Habs).
Defined.

(** The part of C8 that the code does honour: a request for one present
    and one absent id warns once and yields the single-unit curve of
    the present id. *)
Lemma unit_subset_one_present_one_absent
    (exp : Q → Q) (self : TuningCurve1D) (present absent : Z) i label row :
  _unit_ids self !! i = Some present →
  NoDup (_unit_ids self) →
  absent ∉ _unit_ids self →
  _unit_labels self !! i = Some label →
  _ratemap self !! i = Some row →
  _unit_subset exp self [present; absent]
  = (["unit_id " +:+ pretty absent +:+ " not found in TuningCurve1D; ignoring"],
     Ok (Curve {| _bins := _bins self; _ratemap := [row];
                  _occupancy := _occupancy self; _unit_ids := [present];
                  _unit_labels := [label]; _unit_tags := _unit_tags self;
                  _label := _label self |})).
Proof.
  intros Hi Hnd Habs Hlab Hrow. unfold _unit_subset. simpl.
  destruct (proj1 (list_index_Raise _ _) Habs) as [e ->].
  rewrite (list_index_NoDup _ _ _ Hnd Hi). simpl.
  unfold take_positions. simpl. by rewrite Hi, Hlab, Hrow.
Qed.

(** ** Unit selection by firing rate *)

Lemma elem_of_argwhere_from i0 mask i :
  i ∈ np.argwhere_from i0 mask ↔ ∃ k, i = i0 + k ∧ mask !! k = Some true.
Proof.
  revert i0. induction mask as [|b mask IH]; intros i0; simpl.
  - rewrite elem_of_nil. split; [done | by intros (k & _ & Hk)].
  - rewrite elem_of_app, IH. split.
    + intros [Hb|(k & -> & Hk)].
      * destruct b; [|by apply elem_of_nil in Hb].
        apply list_elem_of_singleton in Hb as ->. exists 0. split; [lia|done].
      * exists (S k). split; [lia|done].
    + intros ([|k] & -> & Hk); simpl in Hk.
      * injection Hk as ->. left. rewrite Nat.add_0_r. apply list_elem_of_here.
      * right. exists k. split; [lia|done].
Qed.

Lemma elem_of_argwhere mask i :
  i ∈ np.argwhere mask ↔ mask !! i = Some true.
Proof.
  unfold np.argwhere. rewrite elem_of_argwhere_from.
  split; [by intros (k & -> & Hk) | intros H; by exists i].
Qed.

(** [set(np.asanyarray(ids)[hits.squeeze().tolist()])] *)
Lemma select_ids_Ok (ids : list Z) hits (S : gset Z) :
  index_array ids (squeeze_tolist hits) ≫= py_set = Ok S →
  length hits ≠ 1 ∧
  ∀ id, id ∈ S ↔ ∃ i, i ∈ hits ∧ ids !! i = Some id.
Proof.
  intros (v & Hv & HS)%bind_Ok.
  destruct v as [v|vs]; [done|]. injection HS as <-.
  assert (Hlist : squeeze_tolist hits = IndexList hits ∧ length hits ≠ 1).
  { destruct hits as [|i [|j hits]]; [done| |done].
    simpl in Hv. by destruct (ids !! i). }
  destruct Hlist as [Hlist Hlen]. rewrite Hlist in Hv. simpl in Hv.
  apply bind_Ok in Hv as (vs' & Hvs & [= ->]).
  apply take_positions_Ok in Hvs. split; [done|]. intros id.
  rewrite elem_of_list_to_set. split.
  - intros (k & Hk)%list_elem_of_lookup_1.
    destruct (Forall2_lookup_r _ _ _ _ _ Hvs Hk) as (i & Hi & Hid).
    exists i. split; [by eapply list_elem_of_lookup_2 | done].
  - intros (i & (k & Hk)%list_elem_of_lookup_1 & Hid).
    destruct (Forall2_lookup_l _ _ _ _ _ Hvs Hk) as (id' & Hid' & Heq).
    rewrite Hid in Heq. injection Heq as ->.
    by eapply list_elem_of_lookup_2.
Qed.

Lemma select_ids_single (ids : list Z) i :
  i < length ids →
  index_array ids (squeeze_tolist [i]) ≫= py_set
  = Raise (TypeError "'numpy.int64' object is not iterable").
Proof.
  intros (id & Hid)%lookup_lt_is_Some_2. simpl. by rewrite Hid.
Qed.

(** C5, the failing path: when exactly one unit has its peak above
    [min_peakfiringrate], [squeeze] turns the one-element index array
    into a bare integer, the id array is indexed to a scalar, and
    [set] of that scalar raises [TypeError]: no unit is retained. *)
Theorem restrict_units_single_peak_unit_raises
    (ids : list Z) (width : Z) (min_peak max_avg : Q) (unimodal : bool)
    (ratemap : list (list Q)) (peaks : list Q) (i : nat) :
  max_axis1 width ratemap = Ok peaks →
  np.argwhere ((λ p, Qgtb p min_peak) <$> peaks) = [i] →
  i < length ids →
  restrict_units ids width min_peak max_avg unimodal ratemap
  = Raise (TypeError "'numpy.int64' object is not iterable").
Proof.
  intros Hpeaks Hhits Hi. unfold restrict_units.
  rewrite Hpeaks. simpl. rewrite Hhits.
  pose proof (select_ids_single ids i Hi) as Hsel. simpl in Hsel |- *.
  destruct (ids !! i); [done|discriminate Hsel].
Qed.

(** C5, at a concrete input: of three units with peaks 4, 2 and 5, only
    the third exceeds a minimum peak rate of 4.5. *)
Lemma restrict_units_single_peak_unit_raises_witness :
  max_axis1 4 (_ratemap example_curve) = Ok [4; 2; 5]%Q ∧
  np.argwhere ((λ p, Qgtb p (9 # 2)) <$> [4; 2; 5]%Q) = [2] ∧
  2 < length (_unit_ids example_curve) ∧
  restrict_units (_unit_ids example_curve) 4 (9 # 2) 10 false
    (_ratemap example_curve)
  = Raise (TypeError "'numpy.int64' object is not iterable").
Proof.
  split; [reflexivity|]. split; [reflexivity|].
  split; [vm_compute; lia|].
  apply (restrict_units_single_peak_unit_raises (_unit_ids example_curve) 4
           (9 # 2) 10 false (_ratemap example_curve) [4; 2; 5]%Q 2
           eq_refl eq_refl).
  vm_compute. lia.
Defined.

(** Whenever [restrict_units] returns, it returns the ids of the units
    that meet both criteria. *)
Lemma restrict_units_Ok ids width min_peak max_avg unimodal ratemap S :
  restrict_units ids width min_peak max_avg unimodal ratemap = Ok S →
  ∀ id, id ∈ S ↔
    (∃ i row, ids !! i = Some id ∧ ratemap !! i = Some row ∧
              peak_above min_peak row) ∧
    (∃ i row, ids !! i = Some id ∧ ratemap !! i = Some row ∧
              mean_below max_avg row).
Proof.
  unfold restrict_units. intros (peaks & Hpeaks & H)%bind_Ok.
  apply bind_Ok in H as (above & Habove & H).
  apply bind_Ok in H as (keep & Hkeep & H).
  apply bind_Ok in H as (below & Hbelow & H).
  apply bind_Ok in H as (keep' & Hkeep' & H).
  destruct unimodal; [done|]. injection H as <-.
  assert (Hsel1 : ∀ id, id ∈ keep ↔ ∃ i,
            i ∈ np.argwhere ((λ p, Qgtb p min_peak) <$> peaks)
            ∧ ids !! i = Some id).
  { eapply select_ids_Ok. simpl. by rewrite Habove. }
  assert (Hsel2 : ∀ id, id ∈ keep' ↔ ∃ i,
            i ∈ np.argwhere ((λ m, Qltb m max_avg) <$> mean_axis1 ratemap)
            ∧ ids !! i = Some id).
  { eapply select_ids_Ok. simpl. by rewrite Hbelow. }
  unfold max_axis1 in Hpeaks. case_decide; [done|].
  apply map_result_Ok in Hpeaks.
  intros id. rewrite elem_of_intersection, Hsel1, Hsel2.
  apply ZifyClasses.and_morph; split.
  - intros (i & Hi%elem_of_argwhere & Hid).
    rewrite list_lookup_fmap in Hi.
    destruct (peaks !! i) as [p|] eqn:Hp; [|done].
    destruct (Forall2_lookup_r _ _ _ _ _ Hpeaks Hp) as (row & Hrow & Hmax).
    injection Hi as Hi. exists i, row. split_and!; [done..|by exists p].
  - intros (i & row & Hid & Hrow & p & Hmax & Hgt). exists i. split; [|done].
    apply elem_of_argwhere. rewrite list_lookup_fmap.
    destruct (Forall2_lookup_l _ _ _ _ _ Hpeaks Hrow) as (p' & Hp' & Hmax').
    rewrite Hmax in Hmax'. injection Hmax' as <-. by rewrite Hp', <- Hgt.
  - intros (i & Hi%elem_of_argwhere & Hid).
    unfold mean_axis1 in Hi. rewrite !list_lookup_fmap in Hi.
    destruct (ratemap !! i) as [row|] eqn:Hrow; [|done].
    injection Hi as Hi. by exists i, row.
  - intros (i & row & Hid & Hrow & Hlt). exists i. split; [|done].
    apply elem_of_argwhere. unfold mean_axis1.
    rewrite !list_lookup_fmap, Hrow. simpl. by rewrite <- Hlt.
Qed.

(** ** Directional reconciliation *)

Lemma replace_rows_Ok ids directional only rm rm' :
  NoDup ids →
  replace_rows ids directional only rm = Ok rm' →
  length rm' = length rm ∧
  ∀ i id, ids !! i = Some id →
    (id ∈ only → rm' !! i = directional !! i) ∧
    (id ∉ only → rm' !! i = rm !! i).
Proof.
  intros Hnd. revert rm. induction only as [|u only IH]; intros rm; simpl.
  - intros [= <-]. split; [done|]. intros i id _. split; [|done].
    by intros ?%elem_of_nil.
  - intros (rm1 & Hstep & Hrest)%bind_Ok.
    apply bind_Ok in Hstep as (idx & Hidx & Hstep).
    destruct (directional !! idx) as [row|] eqn:Hrow; [|done].
    case_decide as Hlt; [|done]. injection Hstep as <-.
    apply IH in Hrest as [Hlen Hrest]. rewrite length_insert in Hlen.
    split; [done|]. intros i id Hid.
    apply list_index_Ok in Hidx as [Hidx _].
    destruct (Hrest i id Hid) as [Hin Hout]. split.
    + intros Hel. destruct (decide (id ∈ only)) as [|Hni]; [by apply Hin|].
      apply elem_of_cons in Hel as [->|]; [|done].
      rewrite (Hout Hni).
      assert (i = idx) as -> by (by eapply NoDup_lookup).
      by rewrite list_lookup_insert_eq.
    + intros Hni. apply not_elem_of_cons in Hni as [Hne Hni].
      rewrite (Hout Hni). apply list_lookup_insert_ne.
      intros <-. rewrite Hidx in Hid. by injection Hid.
Qed.

Lemma restrict_units_retained ids width min_peak max_avg unimodal ratemap S i id :
  NoDup ids →
  restrict_units ids width min_peak max_avg unimodal ratemap = Ok S →
  ids !! i = Some id →
  id ∈ S ↔ retained min_peak max_avg ratemap i.
Proof.
  intros Hnd HS Hid. rewrite (restrict_units_Ok _ _ _ _ _ _ _ HS id). split.
  - intros [(i1 & row1 & Hi1 & Hrow1 & Hpeak) (i2 & row2 & Hi2 & Hrow2 & Hmean)].
    assert (i1 = i) as -> by (by eapply NoDup_lookup).
    assert (i2 = i) as -> by (by eapply NoDup_lookup).
    rewrite Hrow1 in Hrow2. injection Hrow2 as <-. by exists row1.
  - intros (row & Hrow & Hpeak & Hmean). split; by exists i, row.
Qed.

(** C2: after a directional construction, the row of a unit retained
    in the left-to-right pass only is the left-to-right estimate, the row
    of a unit retained in the right-to-left pass only is the
    right-to-left estimate, the row of a unit retained in both passes or
    in neither is the combined estimate, and [unit_ids_l2r]
    ([unit_ids_r2l]) holds exactly the ids of the left-to-right-only
    (right-to-left-only) units. *)
Theorem directional_rows_and_unit_lists
    (exp : Q → Q) (bst_l2r bst_r2l bst_combined : BinnedSpikeTrainArray)
    (extern : AnalogSignalArray) (kw : directional_kwargs)
    (c : DirectionalTuningCurve1D) :
  NoDup (unit_ids bst_combined) →
  Directional__init__ exp bst_l2r bst_r2l bst_combined extern kw
  = Ok (Directional c) →
  ∃ occ_l2r ratemap_l2r occ_r2l ratemap_r2l ratemap_combined,
    directional_pass exp kw extern (unit_ids bst_combined) (_bins (base c))
                     bst_l2r = Ok (occ_l2r, ratemap_l2r) ∧
    directional_pass exp kw extern (unit_ids bst_combined) (_bins (base c))
                     bst_r2l = Ok (occ_r2l, ratemap_r2l) ∧
    directional_pass exp kw extern (unit_ids bst_combined) (_bins (base c))
                     bst_combined
    = Ok (_occupancy (base c), ratemap_combined) ∧
    _unit_ids (base c) = unit_ids bst_combined ∧
    ∀ i id, unit_ids bst_combined !! i = Some id →
      let in_l2r := retained (_min_peakfiringrate c) (_max_avgfiringrate c)
                             ratemap_l2r i in
      let in_r2l := retained (_min_peakfiringrate c) (_max_avgfiringrate c)
                             ratemap_r2l i in
      (in_l2r ∧ ¬ in_r2l → _ratemap (base c) !! i = ratemap_l2r !! i) ∧
      (in_r2l ∧ ¬ in_l2r → _ratemap (base c) !! i = ratemap_r2l !! i) ∧
      (in_l2r ∧ in_r2l → _ratemap (base c) !! i = ratemap_combined !! i) ∧
      (¬ in_l2r ∧ ¬ in_r2l → _ratemap (base c) !! i = ratemap_combined !! i) ∧
      (id ∈ _unit_ids_l2r c ↔ in_l2r ∧ ¬ in_r2l) ∧
      (id ∈ _unit_ids_r2l c ↔ in_r2l ∧ ¬ in_l2r).
Proof.
  intros Hnd. unfold Directional__init__.
  destruct (kw_empty (dkw kw)); [done|].
  intros (bins & Hbins & H)%bind_Ok.
  apply bind_Ok in H as ([occ_l rm_l] & Hl & H).
  apply bind_Ok in H as ([occ_r rm_r] & Hr & H).
  apply bind_Ok in H as ([occ_c rm_c] & Hc & H).
  apply bind_Ok in H as (Sl & HSl & H).
  apply bind_Ok in H as (Sr & HSr & H).
  apply bind_Ok in H as (rm1 & Hrm1 & H).
  apply bind_Ok in H as (rm2 & Hrm2 & H).
  injection H as <-. cbn [base _bins _occupancy _ratemap _unit_ids
    _unit_ids_l2r _unit_ids_r2l _min_peakfiringrate _max_avgfiringrate].
  exists occ_l, rm_l, occ_r, rm_r, rm_c. split_and!; [done..|].
  intros i id Hid.
  pose proof (restrict_units_retained _ _ _ _ _ _ _ _ _ Hnd HSl Hid) as Hkl.
  pose proof (restrict_units_retained _ _ _ _ _ _ _ _ _ Hnd HSr Hid) as Hkr.
  destruct (replace_rows_Ok _ _ _ _ _ Hnd Hrm1) as [_ H1].
  destruct (replace_rows_Ok _ _ _ _ _ Hnd Hrm2) as [_ H2].
  destruct (H1 i id Hid) as [H1in H1out].
  destruct (H2 i id Hid) as [H2in H2out].
  rewrite <- Hkl, <- Hkr.
  assert (Hl2r : id ∈ elements (Sl ∖ list_to_set (elements (Sr ∩ Sl)))
                ↔ id ∈ Sl ∧ id ∉ Sr).
  { rewrite elem_of_elements, elem_of_difference, elem_of_list_to_set,
      elem_of_elements, elem_of_intersection. tauto. }
  assert (Hr2l : id ∈ elements (Sr ∖ list_to_set (elements (Sr ∩ Sl)))
                ↔ id ∈ Sr ∧ id ∉ Sl).
  { rewrite elem_of_elements, elem_of_difference, elem_of_list_to_set,
      elem_of_elements, elem_of_intersection. tauto. }
  rewrite Hl2r, Hr2l in *.
  split_and!.
  - intros [? ?]. rewrite H2out by tauto. apply H1in; tauto.
  - exact H2in.
  - intros [? ?]. rewrite H2out, H1out by tauto. done.
  - intros [? ?]. rewrite H2out, H1out by tauto. done.
  - done.
  - done.
Qed.

(** C2, at a concrete input: unit 1 is retained from left to right
    only, unit 2 in both directions, unit 3 in neither. *)
Lemma directional_rows_and_unit_lists_witness :
  NoDup (unit_ids example_bst_combined) ∧
  ∃ c,
    Directional__init__ exp2 example_bst_l2r example_bst_r2l
      example_bst_combined extern_identity example_directional_kwargs
    = Ok (Directional c) ∧
    _unit_ids (base c) = unit_ids example_bst_combined ∧
    _unit_ids_l2r c = [1%Z] ∧ _unit_ids_r2l c = [] ∧
    ∃ occ_l2r ratemap_l2r,
      directional_pass exp2 example_directional_kwargs extern_identity
        (unit_ids example_bst_combined) (_bins (base c)) example_bst_l2r
      = Ok (occ_l2r, ratemap_l2r) ∧
      ∀ i id, unit_ids example_bst_combined !! i = Some id →
        id ∈ _unit_ids_l2r c → _ratemap (base c) !! i = ratemap_l2r !! i.
Proof.
  assert (Hnd : NoDup (unit_ids example_bst_combined)).
  { apply (bool_decide_unpack _). by vm_compute. }
  split; [exact Hnd|].
  eexists. split; [vm_compute; reflexivity|].
  match goal with |- _ = _ ∧ _ = _ ∧ _ = _ ∧ ∃ _ _, directional_pass _ _ _ _ (_bins (base ?c)) _ = _ ∧ _ =>
    destruct (directional_rows_and_unit_lists exp2 example_bst_l2r
                example_bst_r2l example_bst_combined extern_identity
                example_directional_kwargs c Hnd)
      as (occ_l & rm_l & occ_r & rm_r & rm_c & Hl & Hr & Hc & Hids & Hrows)
  end.
  { vm_compute. reflexivity. }
  split; [exact Hids|]. split; [reflexivity|]. split; [reflexivity|].
  exists occ_l, rm_l. split; [exact Hl|].
  intros i id Hi Hin.
  destruct (Hrows i id Hi) as (Hrow & _ & _ & _ & Hmem & _).
  apply Hrow, Hmem, Hin.
Defined.

(** ** Shapes along the pipeline *)


Lemma zeros_shape rows cols a :
  np.zeros rows cols = Ok a → has_shape rows (Z.to_nat cols) a.
Proof.
  unfold np.zeros. case_decide; [done|]. intros [= <-]. split.
  - by rewrite length_replicate.
  - apply Forall_replicate. by rewrite length_replicate.
Qed.

Lemma iadd_column_shape bst n_cols rows cols rm tb rm' :
  has_shape rows cols rm →
  iadd_column bst n_cols rm tb = Ok rm' →
  has_shape rows cols rm'.
Proof.
  intros [Hrows Hcols]. unfold iadd_column.
  intros (j & Hj & H)%bind_Ok. apply bind_Ok in H as (col & Hcol & H).
  case_decide as Hlen.
  - injection H as <-. split.
    + rewrite length_zip_with. lia.
    + apply Forall_lookup_2. intros u row.
      rewrite lookup_zip_with. intros Hu.
      destruct (rm !! u) as [r|] eqn:Hr; [|done]. simpl in Hu.
      destruct (col !! u) as [v|]; [|done]. injection Hu as <-.
      rewrite length_alter. by eapply (Forall_lookup_1 _ _ _ _ Hcols).
  - case_decide; [|done]. injection H as <-. split.
    + by rewrite length_fmap.
    + apply Forall_fmap. eapply Forall_impl; [exact Hcols|].
      intros row Hrow. simpl. by rewrite length_alter.
Qed.

Lemma elementwise_shape f rows cols a :
  has_shape rows cols a → has_shape rows cols (np.elementwise f a).
Proof.
  intros [Hrows Hcols]. unfold np.elementwise. split.
  - by rewrite length_fmap.
  - apply Forall_fmap. eapply Forall_impl; [exact Hcols|].
    intros row Hrow. simpl. by rewrite length_fmap.
Qed.


Lemma true_divide_shape rows cols a b out :
  has_shape rows cols a →
  np.true_divide a b = Ok out →
  has_shape rows cols out.
Proof.
  intros [Hrows Hcols]. unfold np.true_divide.
  case_decide as Hshape; [|done]. intros [= <-]. split.
  - rewrite length_zip_with. apply (f_equal length) in Hshape.
    rewrite !length_fmap in Hshape. lia.
  - apply Forall_lookup_2. intros u row. rewrite lookup_zip_with. intros Hu.
    destruct (a !! u) as [ra|] eqn:Ha; [|done]. simpl in Hu.
    destruct (b !! u) as [rb|] eqn:Hb; [|done]. injection Hu as <-.
    apply (f_equal (λ l, l !! u)) in Hshape.
    rewrite !list_lookup_fmap, Ha, Hb in Hshape. injection Hshape as Hlen.
    rewrite length_zip_with, <- Hlen, Nat.min_id.
    by eapply (Forall_lookup_1 _ _ _ _ Hcols).
Qed.

Lemma enforce_minbgrate_shape m rows cols a :
  has_shape rows cols a → has_shape rows cols (enforce_minbgrate m a).
Proof. apply elementwise_shape. Qed.

Lemma Qltb_true x y : Qltb x y = true ↔ (x < y)%Q.
Proof.
  unfold Qltb. rewrite negb_true_iff, <- not_true_iff_false, Qle_bool_iff.
  split; [apply Qnot_le_lt | apply Qlt_not_le].
Qed.

Lemma Qltb_false x y : Qltb x y = false ↔ (y <= x)%Q.
Proof. unfold Qltb. by rewrite negb_false_iff, Qle_bool_iff. Qed.

Lemma enforce_minbgrate_all_ge m a : all_ge m (enforce_minbgrate m a).
Proof.
  unfold all_ge, enforce_minbgrate, np.elementwise.
  apply Forall_fmap, Forall_true. intros row. simpl.
  apply Forall_fmap, Forall_true. intros x. simpl.
  destruct (Qltb x m) eqn:Hx; [apply Qle_refl | by apply Qltb_false].
Qed.

(** ** Sums of rationals *)

Lemma foldl_Qplus_acc (a : Q) l : (foldl Qplus a l == a + Qsum l)%Q.
Proof.
  unfold Qsum. revert a. induction l as [|x l IH]; intros a; simpl.
  - ring.
  - rewrite (IH (a + x)%Q), (IH (0 + x)%Q). ring.
Qed.

Lemma Qsum_cons x l : (Qsum (x :: l) == x + Qsum l)%Q.
Proof. unfold Qsum at 1. simpl. rewrite foldl_Qplus_acc. ring. Qed.

Lemma Qsum_app l1 l2 : (Qsum (l1 ++ l2) == Qsum l1 + Qsum l2)%Q.
Proof.
  induction l1 as [|x l1 IH]; simpl.
  - unfold Qsum at 2. simpl. ring.
  - rewrite !Qsum_cons, IH. ring.
Qed.

Lemma Qsum_reverse l : (Qsum (reverse l) == Qsum l)%Q.
Proof.
  induction l as [|x l IH]; [reflexivity|].
  rewrite reverse_cons, Qsum_app, !Qsum_cons, IH. unfold Qsum at 2. simpl. ring.
Qed.

Lemma Qsum_nonneg l : Forall (λ x, 0 <= x)%Q l → (0 <= Qsum l)%Q.
Proof.
  induction 1 as [|x l Hx Hl IH].
  - unfold Qsum. simpl. lra.
  - rewrite Qsum_cons. lra.
Qed.

Lemma Qsum_pos l : l ≠ [] → Forall (λ x, 0 < x)%Q l → (0 < Qsum l)%Q.
Proof.
  intros Hne Hpos. destruct Hpos as [|x l Hx Hl]; [done|].
  rewrite Qsum_cons.
  assert (0 <= Qsum l)%Q; [|lra].
  apply Qsum_nonneg. eapply Forall_impl; [exact Hl|].
  intros y Hy. simpl in *. lra.
Qed.

Lemma Qsum_scaled (s : Q) l :
  ¬ (s == 0)%Q → (Qsum ((λ p, p / s)%Q <$> l) == Qsum l / s)%Q.
Proof.
  intros Hs. induction l as [|x l IH].
  - unfold Qsum. simpl. field. done.
  - rewrite fmap_cons, !Qsum_cons, IH. field. done.
Qed.

(** ** The Gaussian filter keeps a lower bound *)

Section gaussian_bound.
Variable exp : Q → Q.
Hypothesis exp_pos : ∀ x, (0 < exp x)%Q.

Lemma gaussian_kernel1d_normalised sigma radius :
  let w := ndimage._gaussian_kernel1d exp sigma radius in
  Forall (λ x, 0 <= x)%Q w ∧ (Qsum w == 1)%Q ∧ length w = 2 * radius + 1.
Proof.
  unfold ndimage._gaussian_kernel1d.
  set (phi := (λ x : Z, exp _) <$> _).
  assert (Hlen : length phi = 2 * radius + 1).
  { unfold phi. by rewrite !length_fmap, length_seq. }
  assert (Hpos : Forall (λ x, 0 < x)%Q phi).
  { unfold phi. apply Forall_fmap, Forall_true. intros x. apply exp_pos. }
  assert (HS : (0 < Qsum phi)%Q).
  { apply Qsum_pos; [|done]. intros Hnil. rewrite Hnil in Hlen. simpl in Hlen. lia. }
  simpl. split_and!.
  - apply Forall_fmap. eapply Forall_impl; [exact Hpos|]. intros x Hx.
    simpl in *. apply Qle_shift_div_l; [done|]. lra.
  - rewrite Qsum_scaled by lra. field. lra.
  - by rewrite length_fmap.
Qed.

Lemma gaussian_weights_normalised sigma truncate w :
  ndimage.gaussian_weights exp sigma truncate = Ok w →
  Forall (λ x, 0 <= x)%Q w ∧ (Qsum w == 1)%Q ∧ w ≠ [].
Proof.
  unfold ndimage.gaussian_weights. case_decide; [done|]. intros [= <-].
  destruct (gaussian_kernel1d_normalised sigma
              (Z.to_nat (py_int (truncate * sigma + (1 # 2))%Q)))
    as (Hpos & Hsum & Hlen).
  split_and!.
  - by apply Forall_reverse.
  - by rewrite Qsum_reverse.
  - intros Hnil. apply (f_equal length) in Hnil.
    rewrite length_reverse, Hlen in Hnil. simpl in Hnil. lia.
Qed.

End gaussian_bound.

Lemma reflect_lt n j : 0 < n → ndimage.reflect n j < n.
Proof.
  intros Hn. unfold ndimage.reflect.
  pose proof (Z.mod_pos_bound j (2 * Z.of_nat n)). case_decide; lia.
Qed.

Lemma enumerate_snd {A} (l : list A) : (enumerate l).*2 = l.
Proof. unfold enumerate. apply snd_zip. by rewrite length_seq. Qed.

(** A correlation with non-negative weights keeps a lower bound that
    is compatible with sums and scalings: [lb c a] reads "[a] is at
    least [c] times the bound". *)
Section correlate_bound.
Context {A : Type} (zero : A) (add : A → A → A) (scale : Q → A → A).
Variable lb : Q → A → Prop.
Hypothesis lb_zero : lb 0 zero.
Hypothesis lb_add : ∀ c c' a b, lb c a → lb c' b → lb (c + c')%Q (add a b).
Hypothesis lb_scale : ∀ w x, (0 <= w)%Q → lb 1 x → lb w (scale w x).
Hypothesis lb_proper : ∀ c c' a, (c == c')%Q → lb c a → lb c' a.

Lemma correlate_taps (input : list A) (pos : nat → nat) kws c acc :
  (∀ k, pos k < length input) →
  Forall (lb 1) input →
  Forall (λ kw : nat * Q, 0 <= kw.2)%Q kws →
  lb c acc →
  lb (c + Qsum (kws.*2))%Q
     (foldl (λ acc kw, add acc (scale kw.2 (nth (pos kw.1) input zero)))
            acc kws).
Proof.
  intros Hpos Hin Hkws. revert c acc.
  induction Hkws as [|[k w] kws Hw Hkws IH]; intros c acc Hacc; simpl.
  - eapply lb_proper; [|exact Hacc]. unfold Qsum. simpl. ring.
  - eapply lb_proper; [|apply (IH (c + w)%Q)].
    + rewrite Qsum_cons. change (list_fmap _ _ snd kws) with (kws.*2). ring.
    + apply lb_add; [done|]. apply lb_scale; [done|].
      rewrite nth_lookup.
      destruct (lookup_lt_is_Some_2 input (pos k) (Hpos k)) as [x Hx].
      rewrite Hx. simpl. by eapply (Forall_lookup_1 _ _ _ _ Hin).
Qed.

Lemma correlate1d_lb weights input out :
  Forall (λ w, 0 <= w)%Q weights →
  Forall (lb 1) input →
  ndimage.correlate1d zero add scale weights input = Ok out →
  length out = length input ∧ Forall (lb (Qsum weights)) out.
Proof.
  intros Hw Hin. unfold ndimage.correlate1d.
  destruct weights as [|w0 weights]; [done|]. intros [= <-]. split.
  - by rewrite length_fmap, length_seq.
  - apply Forall_fmap, Forall_forall. intros i Hi%elem_of_seq. simpl.
    eapply lb_proper;
      [|apply (correlate_taps input
                 (λ k, ndimage.reflect (length input)
                         (Z.of_nat i + Z.of_nat k
                          - Z.of_nat (length (w0 :: weights) / 2)))
                 (enumerate (w0 :: weights)) 0%Q zero)].
    + rewrite enumerate_snd. ring.
    + intros k. apply reflect_lt. lia.
    + done.
    + apply Forall_forall. intros [k w] Hkw. simpl.
      eapply (proj1 (Forall_forall _ _) Hw).
      rewrite <- (enumerate_snd (w0 :: weights)).
      apply list_elem_of_fmap. by exists (k, w).
    + done.
Qed.

End correlate_bound.

Section gaussian_filter_bound.
Variable exp : Q → Q.
Hypothesis exp_pos : ∀ x, (0 < exp x)%Q.
Variable m : Q.

Lemma correlate_row_bound weights (row out : list Q) :
  Forall (λ w, 0 <= w)%Q weights → (Qsum weights == 1)%Q →
  Forall (λ x, m <= x)%Q row →
  ndimage.correlate1d 0%Q Qplus Qmult weights row = Ok out →
  length out = length row ∧ Forall (λ x, m <= x)%Q out.
Proof.
  intros Hw Hsum Hrow Hout.
  destruct (correlate1d_lb 0%Q Qplus Qmult (λ c x, c * m <= x)%Q) with
    (weights := weights) (input := row) (out := out) as [Hlen Hlb].
  - simpl. lra.
  - intros c c' a b Ha Hb. simpl in *. nra.
  - intros w x Hw0 Hx. simpl in *. nra.
  - intros c c' a Hc Ha. simpl in *. by rewrite <- Hc.
  - done.
  - eapply Forall_impl; [exact Hrow|]. intros x Hx. simpl in *. lra.
  - done.
  - split; [done|]. eapply Forall_impl; [exact Hlb|].
    intros x Hx. simpl in *. rewrite Hsum in Hx. lra.
Qed.

Lemma gaussian_filter1d_axis1_bound rows cols input sigma truncate out :
  has_shape rows cols input → all_ge m input →
  ndimage.gaussian_filter1d_axis1 exp input sigma truncate = Ok out →
  has_shape rows cols out ∧ all_ge m out.
Proof.
  intros [Hrows Hcols] Hge. unfold ndimage.gaussian_filter1d_axis1.
  intros (w & Hw & Hout)%bind_Ok.
  apply (gaussian_weights_normalised exp exp_pos) in Hw as (Hw & Hsum & _).
  apply map_result_Ok in Hout.
  assert (Hall : ∀ u r, out !! u = Some r →
            length r = cols ∧ Forall (λ x, m <= x)%Q r).
  { intros u r Hr.
    destruct (Forall2_lookup_r _ _ _ _ _ Hout Hr) as (row & Hrow & Hcorr).
    destruct (correlate_row_bound w row r) as [Hlen Hb]; try done.
    - by eapply (Forall_lookup_1 _ _ _ _ Hge).
    - split; [|done]. rewrite Hlen. by eapply (Forall_lookup_1 _ _ _ _ Hcols). }
  split; [split|].
  - by rewrite <- (Forall2_length _ _ _ Hout).
  - apply Forall_lookup_2. intros u r Hr. by apply (Hall u r).
  - apply Forall_lookup_2. intros u r Hr. by apply (Hall u r).
Qed.

Lemma gaussian_filter1d_axis0_bound rows cols input sigma truncate out :
  has_shape rows cols input → all_ge m input →
  ndimage.gaussian_filter1d_axis0 exp cols input sigma truncate = Ok out →
  has_shape rows cols out ∧ all_ge m out.
Proof.
  intros [Hrows Hcols] Hge. unfold ndimage.gaussian_filter1d_axis0.
  intros (w & Hw & Hout)%bind_Ok.
  apply (gaussian_weights_normalised exp exp_pos) in Hw as (Hw & Hsum & _).
  destruct (correlate1d_lb (replicate cols 0%Q) (zip_with Qplus)
              (λ w, fmap (Qmult w))
              (λ c (row : list Q),
                 length row = cols ∧ Forall (λ x, c * m <= x)%Q row))
    with (weights := w) (input := input) (out := out) as [Hlen Hlb].
  - split; [by rewrite length_replicate|].
    apply Forall_replicate. lra.
  - intros c c' a b [Hla Ha] [Hlb Hb]. split.
    + rewrite length_zip_with. lia.
    + apply Forall_lookup_2. intros i x. rewrite lookup_zip_with. intros Hx.
      destruct (a !! i) as [xa|] eqn:Hxa; [|done]. simpl in Hx.
      destruct (b !! i) as [xb|] eqn:Hxb; [|done]. injection Hx as <-.
      pose proof (Forall_lookup_1 _ _ _ _ Ha Hxa) as H1.
      pose proof (Forall_lookup_1 _ _ _ _ Hb Hxb) as H2.
      simpl in *. nra.
  - intros w0 x Hw0 [Hlx Hx]. split; [by rewrite length_fmap|].
    apply Forall_fmap. eapply Forall_impl; [exact Hx|].
    intros y Hy. simpl in *. nra.
  - intros c c' a Hc [Hla Ha]. split; [done|].
    eapply Forall_impl; [exact Ha|]. intros y Hy. simpl in *. by rewrite <- Hc.
  - done.
  - apply Forall_lookup_2. intros u row Hrow. split.
    + by eapply (Forall_lookup_1 _ _ _ _ Hcols).
    + pose proof (Forall_lookup_1 _ _ _ _ Hge Hrow) as Hr.
      eapply Forall_impl; [exact Hr|]. intros y Hy. simpl in *. lra.
  - done.
  - split; [split|].
    + lia.
    + eapply Forall_impl; [exact Hlb|]. by intros row [? _].
    + eapply Forall_impl; [exact Hlb|]. intros row [_ Hr].
      eapply Forall_impl; [exact Hr|]. intros y Hy. simpl in *.
      rewrite Hsum in Hy. lra.
Qed.

Lemma gaussian_filter_bound rows cols input sigma0 sigma1 truncate out :
  has_shape rows cols input → all_ge m input →
  ndimage.gaussian_filter exp cols input sigma0 sigma1 truncate = Ok out →
  has_shape rows cols out ∧ all_ge m out.
Proof.
  intros Hshape Hge. unfold ndimage.gaussian_filter.
  intros (pass0 & Hpass0 & Hout)%bind_Ok.
  assert (has_shape rows cols pass0 ∧ all_ge m pass0) as [Hshape0 Hge0].
  { destruct (Qltb _ sigma0).
    - by eapply gaussian_filter1d_axis0_bound.
    - by injection Hpass0 as <-. }
  destruct (Qltb _ sigma1).
  - by eapply gaussian_filter1d_axis1_bound.
  - by injection Hout as <-.
Qed.

Lemma smooth_ratemap_bound bins ids ratemap sigma bw out :
  has_shape (length ids) (Z.to_nat (n_bins_of bins)) ratemap →
  all_ge m ratemap →
  smooth_ratemap exp bins ids ratemap sigma bw = Ok out →
  has_shape (length ids) (Z.to_nat (n_bins_of bins)) out ∧ all_ge m out.
Proof.
  intros Hshape Hge. unfold smooth_ratemap.
  intros (hi & _ & H)%bind_Ok. apply bind_Ok in H as (lo & _ & H).
  destruct (_ && _); [done|].
  case_decide; by eapply gaussian_filter_bound.
Qed.

End gaussian_filter_bound.

(** ** Construction: bins, shapes and the background-rate floor *)

Lemma linspace_length start stop num :
  length (np.linspace start stop num) = num.
Proof.
  unfold np.linspace. destruct num as [|[|n]]; [done..|].
  rewrite length_app, length_fmap, length_seq. simpl. lia.
Qed.

Lemma histogram_length a edges occ :
  np.histogram a edges = Ok occ → length occ = length edges - 1.
Proof.
  unfold np.histogram. destruct (np.nondecreasing edges); [|done].
  intros [= <-]. unfold np.diff, np.search_sorted_inclusive.
  rewrite length_zip_with, length_tl, length_app, !length_fmap.
  unfold np.all_but_last, np.last_slice.
  rewrite length_take, length_drop. lia.
Qed.




(** ** Bin edges *)

Lemma nondecreasing_true l :
  np.nondecreasing l = true ↔
  ∀ i a b, l !! i = Some a → l !! S i = Some b → (a <= b)%Q.
Proof.
  induction l as [|x [|y l] IH].
  - split; [by intros _ i a b ?|done].
  - split; [by intros _ [|i] a b ? ?|done].
  - change (np.nondecreasing (x :: y :: l))
      with (Qle_bool x y && np.nondecreasing (y :: l)).
    rewrite andb_true_iff, IH, Qle_bool_iff. split.
    + intros [Hxy Hrest] [|i] a b Ha Hb.
      * injection Ha as <-. by injection Hb as <-.
      * by eapply (Hrest i).
    + intros H. split; [by apply (H 0)|].
      intros i a b Ha Hb. by apply (H (S i)).
Qed.

Lemma nondecreasing_le l i j a b :
  np.nondecreasing l = true → i ≤ j →
  l !! i = Some a → l !! j = Some b → (a <= b)%Q.
Proof.
  rewrite nondecreasing_true. intros Hl Hij Ha. revert b.
  induction Hij as [|j Hij IH]; intros b Hb.
  - rewrite Ha in Hb. injection Hb as <-. apply Qle_refl.
  - destruct (lookup_lt_is_Some_2 l j) as [c Hc].
    { apply lookup_lt_Some in Hb. lia. }
    eapply Qle_trans; [by apply IH|]. by eapply Hl.
Qed.

Lemma NtoQ_S i : (NtoQ (S i) == NtoQ i + 1)%Q.
Proof.
  unfold NtoQ. rewrite Nat2Z.inj_succ. unfold Z.succ.
  by rewrite inject_Z_plus.
Qed.

Lemma NtoQ_pos n : 0 < n → (0 < NtoQ n)%Q.
Proof.
  intros Hn. unfold NtoQ. change 0%Q with (inject_Z 0).
  rewrite <- Zlt_Qlt. lia.
Qed.

Lemma NtoQ_le i j : i ≤ j → (NtoQ i <= NtoQ j)%Q.
Proof. intros Hn. unfold NtoQ. rewrite <- Zle_Qle. lia. Qed.

Section linspace.
Variables lo hi : Q.
Variable n : nat.
Hypothesis lo_lt_hi : (lo < hi)%Q.
Hypothesis n_pos : 1 ≤ n.

Let step : Q := ((hi - lo) / NtoQ n)%Q.
Let bins : list Q := np.linspace lo hi (n + 1).

Lemma linspace_step_pos : (0 < step)%Q.
Proof.
  unfold step. apply Qlt_shift_div_l; [by apply NtoQ_pos|]. lra.
Qed.

Lemma linspace_n_steps : (NtoQ n * step == hi - lo)%Q.
Proof.
  unfold step. field. pose proof (NtoQ_pos n n_pos). lra.
Qed.

Lemma linspace_lookup i :
  bins !! i =
  if decide (i < n) then Some (NtoQ i * step + lo)%Q
  else if decide (i = n) then Some hi else None.
Proof.
  unfold bins, np.linspace. replace (n + 1) with (S n) by lia.
  destruct n as [|n'] eqn:Hn; [lia|]. fold step.
  case_decide as Hi.
  - rewrite lookup_app_l by (by rewrite length_fmap, length_seq).
    rewrite list_lookup_fmap, lookup_seq_lt by done. done.
  - rewrite lookup_app_r by (rewrite length_fmap, length_seq; lia).
    rewrite length_fmap, length_seq. case_decide as Hi'.
    + by rewrite Hi', Nat.sub_diag.
    + apply lookup_ge_None. simpl. lia.
Qed.

Lemma linspace_last : bins !! n = Some hi.
Proof using lo_lt_hi n_pos.
  rewrite linspace_lookup, decide_False by lia. by rewrite decide_True.
Qed.

Lemma linspace_first : ∃ e0, bins !! 0 = Some e0 ∧ (e0 == lo)%Q.
Proof using lo_lt_hi n_pos.
  rewrite linspace_lookup, decide_True by lia. eexists. split; [done|].
  unfold NtoQ. simpl. ring.
Qed.

Lemma linspace_inner_lt_hi i e :
  i < n → bins !! i = Some e → (e < hi)%Q.
Proof.
  intros Hi. rewrite linspace_lookup, decide_True by done. intros [= <-].
  pose proof linspace_n_steps. pose proof linspace_step_pos.
  pose proof (NtoQ_le (S i) n Hi) as Hle. rewrite NtoQ_S in Hle. nra.
Qed.

Lemma linspace_nondecreasing : np.nondecreasing bins = true.
Proof.
  apply nondecreasing_true. intros i a b Ha Hb.
  pose proof linspace_step_pos.
  assert (Hi : i < n).
  { apply lookup_lt_Some in Hb. unfold bins in Hb.
    rewrite linspace_length in Hb. lia. }
  pose proof (linspace_inner_lt_hi i a Hi Ha) as Hlt.
  rewrite linspace_lookup in Ha, Hb. rewrite decide_True in Ha by done.
  injection Ha as <-. case_decide.
  - injection Hb as <-. rewrite NtoQ_S. lra.
  - case_decide; [|done]. injection Hb as <-. lra.
Qed.

End linspace.

(** ** Counting samples *)

Lemma count_app {A} (p : A → bool) l1 l2 :
  count p (l1 ++ l2) = count p l1 + count p l2.
Proof. induction l1 as [|x l1 IH]; simpl; [done|]. rewrite IH. lia. Qed.

Lemma count_insert {A} (p : A → bool) l1 x l2 :
  count p (l1 ++ x :: l2) = (if p x then 1 else 0) + count p (l1 ++ l2).
Proof. rewrite !count_app. simpl. lia. Qed.

Lemma count_all {A} (p : A → bool) l :
  Forall (λ x, p x = true) l → count p l = length l.
Proof. induction 1 as [|x l Hx _ IH]; simpl; [done|]. by rewrite Hx, IH. Qed.

Lemma count_none {A} (p : A → bool) l :
  Forall (λ x, p x = false) l → count p l = 0.
Proof. induction 1 as [|x l Hx _ IH]; simpl; [done|]. by rewrite Hx, IH. Qed.

Lemma count_le_length {A} (p : A → bool) l : count p l ≤ length l.
Proof. induction l as [|x l IH]; simpl; [done|]. destruct (p x); lia. Qed.

Lemma Qle_bool_false x y : Qle_bool x y = false ↔ (y < x)%Q.
Proof.
  rewrite <- not_true_iff_false, Qle_bool_iff.
  split; [apply Qnot_le_lt | apply Qlt_not_le].
Qed.

(** The difference of two cumulative counts is the count of the bin. *)
Lemma count_between (lo hi : Q) (closed : bool) a :
  (lo <= hi)%Q →
  (Z.of_nat (count (λ x, if closed then Qle_bool x hi else Qltb x hi) a)
   - Z.of_nat (count (λ x, Qltb x lo) a))%Z
  = Z.of_nat (count (in_bin lo hi closed) a).
Proof.
  intros Hle. induction a as [|x a IH]; simpl; [done|].
  assert (Hx : (Z.of_nat (if (if closed then Qle_bool x hi else Qltb x hi)
                          then 1 else 0)
                - Z.of_nat (if Qltb x lo then 1 else 0))%Z
               = Z.of_nat (if in_bin lo hi closed x then 1 else 0)).
  { unfold in_bin.
    destruct (Qltb x lo) eqn:Hlo.
    - apply Qltb_true in Hlo.
      rewrite (proj2 (Qle_bool_false lo x)) by done. simpl.
      assert (Hle' : (x <= hi)%Q) by lra.
      assert (Hlt' : (x < hi)%Q) by lra.
      destruct closed.
      + by rewrite (proj2 (Qle_bool_iff x hi) Hle').
      + by rewrite (proj2 (Qltb_true x hi) Hlt').
    - apply Qltb_false in Hlo.
      rewrite (proj2 (Qle_bool_iff lo x)) by done. simpl.
      by destruct (if closed then _ else _). }
  lia.
Qed.

(** ** The histogram counts the samples of each bin *)

Lemma search_sorted_inclusive_lookup a v i e :
  v !! i = Some e →
  np.search_sorted_inclusive a v !! i
  = Some (Z.of_nat (count (λ x, if bool_decide (S i = length v)
                                then Qle_bool x e else Qltb x e) a)).
Proof.
  intros He. pose proof (lookup_lt_Some _ _ _ He) as Hi.
  unfold np.search_sorted_inclusive, np.all_but_last, np.last_slice.
  case_bool_decide as Hlast.
  - rewrite lookup_app_r by (rewrite length_fmap, length_take; lia).
    rewrite length_fmap, length_take, list_lookup_fmap, lookup_drop.
    replace (length v - 1 + (i - (length v - 1) `min` length v)) with i by lia.
    by rewrite He.
  - rewrite lookup_app_l by (rewrite length_fmap, length_take; lia).
    rewrite list_lookup_fmap, lookup_take_lt by lia. by rewrite He.
Qed.

Lemma diff_lookup c i a b :
  c !! i = Some a → c !! S i = Some b → np.diff c !! i = Some (b - a)%Z.
Proof.
  intros Ha Hb. unfold np.diff.
  by rewrite lookup_zip_with, lookup_tail, Hb, Ha.
Qed.

Lemma histogram_counts a edges :
  np.nondecreasing edges = true →
  ∃ occ, np.histogram a edges = Ok occ ∧
    length occ = length edges - 1 ∧
    ∀ i lo hi, edges !! i = Some lo → edges !! S i = Some hi →
      occ !! i = Some (Z.of_nat
        (count (in_bin lo hi (bool_decide (S (S i) = length edges))) a)).
Proof.
  intros Hmono. unfold np.histogram. rewrite Hmono. eexists.
  split; [done|]. split.
  { apply (histogram_length a). unfold np.histogram. by rewrite Hmono. }
  intros i lo hi Hlo Hhi.
  erewrite diff_lookup;
    [|by apply search_sorted_inclusive_lookup..].
  rewrite (bool_decide_false (S i = length edges))
    by (apply lookup_lt_Some in Hhi; lia).
  f_equal. apply (count_between lo hi).
  by eapply (nondecreasing_le edges i (S i)); [|lia|..].
Qed.

(** ** Digitized samples and the range check *)

Lemma digitize_right_increasing x bins :
  np.nondecreasing bins = true →
  np.digitize_right x bins
  = Ok ((λ v, Z.of_nat (np.searchsorted_left bins v)) <$> x).
Proof.
  intros Hmono. unfold np.digitize_right, np.monotonicity. by rewrite Hmono.
Qed.

Lemma compute_ratemap_range_violation extern bst bins ids x :
  np.nondecreasing bins = true →
  x ∈ (asarray extern (bin_centers bst)).2 →
  (n_bins_of bins ≤ Z.of_nat (np.searchsorted_left bins x))%Z →
  _compute_ratemap None extern bst bins ids
  = Raise (ValueError "decoded values outside of [extmin, extmax]").
Proof.
  intros Hmono Hx Hidx. unfold _compute_ratemap. simpl.
  unfold _trans_func. rewrite digitize_right_increasing by done. simpl.
  rewrite decide_True; [done|].
  assert (Hin : Z.of_nat (np.searchsorted_left bins x)
                ∈ filter (λ i, n_bins_of bins ≤ i)%Z
                    ((λ v, Z.of_nat (np.searchsorted_left bins v))
                       <$> (asarray extern (bin_centers bst)).2)).
  { apply list_elem_of_filter. split; [done|].
    apply list_elem_of_fmap. by exists x. }
  destruct (filter _ _); [by apply elem_of_nil in Hin|]. simpl. lia.
Qed.

Lemma searchsorted_left_last lo hi n :
  (lo < hi)%Q → 1 ≤ n →
  np.searchsorted_left (np.linspace lo hi (n + 1)) hi = n.
Proof.
  intros Hlt Hn. unfold np.searchsorted_left.
  set (bins := np.linspace lo hi (n + 1)).
  rewrite <- (take_drop n bins), count_app.
  rewrite count_all, count_none.
  - rewrite length_take. unfold bins. rewrite linspace_length. lia.
  - apply Forall_lookup_2. intros i e. rewrite lookup_drop. intros He.
    pose proof (lookup_lt_Some _ _ _ He) as Hi.
    unfold bins in Hi. rewrite linspace_length in Hi.
    replace (n + i) with n in He by lia.
    unfold bins in He. rewrite linspace_last in He by done.
    injection He as <-. apply Qltb_false. apply Qle_refl.
  - apply Forall_lookup_2. intros i e He.
    pose proof (lookup_lt_Some _ _ _ He) as Hi. rewrite length_take in Hi.
    rewrite lookup_take_lt in He by lia.
    apply Qltb_true. apply (linspace_inner_lt_hi lo hi n Hlt Hn i); [lia|done].
Qed.

Lemma searchsorted_left_below bins e0 x :
  np.nondecreasing bins = true → bins !! 0 = Some e0 → (x <= e0)%Q →
  np.searchsorted_left bins x = 0.
Proof.
  intros Hmono He0 Hx. unfold np.searchsorted_left. apply count_none.
  apply Forall_lookup_2. intros i e He. apply Qltb_false.
  eapply Qle_trans; [exact Hx|].
  by eapply (nondecreasing_le bins 0 i); [|lia|..].
Qed.

Lemma histogram_one_more a1 x a2 edges :
  np.nondecreasing edges = true →
  ∃ occ occ',
    np.histogram (a1 ++ x :: a2) edges = Ok occ ∧
    np.histogram (a1 ++ a2) edges = Ok occ' ∧
    length occ = length edges - 1 ∧ length occ' = length edges - 1 ∧
    ∀ i lo hi, edges !! i = Some lo → edges !! S i = Some hi →
      ∃ k, occ' !! i = Some k ∧
        occ !! i = Some
          (k + (if in_bin lo hi (bool_decide (S (S i) = length edges)) x
                then 1 else 0))%Z.
Proof.
  intros Hmono.
  destruct (histogram_counts (a1 ++ x :: a2) edges Hmono)
    as (occ & Hocc & Hlen & Hcount).
  destruct (histogram_counts (a1 ++ a2) edges Hmono)
    as (occ' & Hocc' & Hlen' & Hcount').
  exists occ, occ'. split_and!; [done..|].
  intros i lo hi Hlo Hhi. eexists. split; [by eapply Hcount'|].
  rewrite (Hcount i lo hi Hlo Hhi), count_insert. f_equal.
  destruct (in_bin _ _ _ x); lia.
Qed.

Section range_check.
Variable exp : Q → Q.
Variable bst : BinnedSpikeTrainArray.
Variable extern : AnalogSignalArray.
Variable kw : kwargs.
Variable n : nat.
Variables lo hi : Q.
Hypothesis not_empty : kw_empty kw = false.
Hypothesis default_transform : kw_transform_func kw = None.
Hypothesis n_extern_given : kw_n_extern kw = Some n.
Hypothesis extmin_given : kw_extmin kw = Some lo.
Hypothesis extmax_given : kw_extmax kw = Some hi.
Hypothesis n_pos : 1 ≤ n.
Hypothesis lo_lt_hi : (lo < hi)%Q.

Let bins := np.linspace lo hi (n + 1).
Let ext := (asarray extern (bin_centers bst)).2.

Lemma occupancy_is_histogram :
  _compute_occupancy None extern bst bins = np.histogram ext bins.
Proof. done. Qed.

Lemma n_bins_of_linspace : n_bins_of bins = Z.of_nat n.
Proof. unfold n_bins_of, bins. rewrite linspace_length. lia. Qed.

Lemma init_range_violation x :
  x ∈ ext →
  (n_bins_of bins ≤ Z.of_nat (np.searchsorted_left bins x))%Z →
  __init__ exp bst extern kw
  = Raise (ValueError "decoded values outside of [extmin, extmax]").
Proof.
  intros Hx Hidx. unfold __init__, make_bins, estimate.
  rewrite not_empty, n_extern_given, extmin_given, extmax_given,
    default_transform.
  simpl. fold bins.
  pose proof (linspace_nondecreasing lo hi n lo_lt_hi n_pos) as Hmono.
  destruct (histogram_counts ext bins Hmono) as (occ & Hocc & _).
  rewrite occupancy_is_histogram, Hocc. simpl.
  by rewrite (compute_ratemap_range_violation extern bst bins _ x).
Qed.

Lemma in_bin_out_of_range i e e' x :
  bins !! i = Some e → bins !! S i = Some e' → (x < lo ∨ hi < x)%Q →
  in_bin e e' (bool_decide (S (S i) = length bins)) x = false.
Proof.
  intros He He' Hx. unfold in_bin.
  pose proof (linspace_nondecreasing lo hi n lo_lt_hi n_pos) as Hmono.
  destruct (linspace_first lo hi n lo_lt_hi n_pos) as (e0 & He0 & Heq).
  pose proof (linspace_last lo hi n lo_lt_hi n_pos) as Hlast.
  fold bins in Hmono, He0, Hlast.
  assert (e0 <= e)%Q by (by eapply (nondecreasing_le bins 0 i); [|lia|..]).
  assert (e' <= hi)%Q.
  { eapply (nondecreasing_le bins (S i) n); [done| |done..].
    apply lookup_lt_Some in He'. unfold bins in He'.
    rewrite linspace_length in He'. lia. }
  destruct Hx as [Hx|Hx].
  - assert (Hlt : (x < e)%Q) by lra.
    by rewrite (proj2 (Qle_bool_false e x) Hlt).
  - assert (Hlt : (e' < x)%Q) by lra.
    assert (Hle : (e' <= x)%Q) by lra.
    rewrite (proj2 (Qle_bool_false x e') Hlt), (proj2 (Qltb_false x e') Hle).
    by destruct (Qle_bool e x), (bool_decide _).
Qed.

Lemma in_bin_extmax i e e' :
  bins !! i = Some e → bins !! S i = Some e' →
  in_bin e e' (bool_decide (S (S i) = length bins)) hi
  = bool_decide (i = n - 1).
Proof.
  intros He He'. unfold in_bin.
  assert (Hlen : length bins = n + 1) by apply linspace_length.
  assert (Hi : i < n) by (apply lookup_lt_Some in He'; lia).
  pose proof (linspace_inner_lt_hi lo hi n lo_lt_hi n_pos i e Hi He) as Hlt.
  assert (Hle : (e <= hi)%Q) by lra.
  rewrite (proj2 (Qle_bool_iff e hi) Hle). simpl.
  destruct (decide (i = n - 1)) as [->|Hne].
  - rewrite !bool_decide_true by lia.
    pose proof (linspace_last lo hi n lo_lt_hi n_pos) as Hlast.
    fold bins in Hlast. replace (S (n - 1)) with n in He' by lia.
    rewrite Hlast in He'. injection He' as <-.
    apply Qle_bool_iff, Qle_refl.
  - rewrite !bool_decide_false by lia.
    assert (Hlt' : (e' < hi)%Q).
    { apply (linspace_inner_lt_hi lo hi n lo_lt_hi n_pos (S i) e'); [lia|done]. }
    apply Qltb_false. lra.
Qed.

End range_check.

(** C1: with bin edges [linspace(extmin, extmax, n_extern + 1)],
    [extmin < extmax] and at least one bin,
    (1) every correlate sample whose digitized index is [n_bins] or more
        makes the construction raise the range-violation [ValueError];
    (2) the occupancy histogram drops a sample outside
        [[extmin, extmax]] without failing: it is the histogram of the
        remaining samples;
    (3) a sample equal to [extmax] makes the construction raise that
        error in the ratemap computation, although the occupancy, computed
        before, counts the sample in its last bin. *)
Theorem range_violation_versus_occupancy
    (exp : Q → Q) (bst : BinnedSpikeTrainArray) (extern : AnalogSignalArray)
    (kw : kwargs) (n : nat) (lo hi : Q) :
  kw_empty kw = false →
  kw_transform_func kw = None →
  kw_n_extern kw = Some n →
  kw_extmin kw = Some lo →
  kw_extmax kw = Some hi →
  1 ≤ n →
  (lo < hi)%Q →
  let bins := np.linspace lo hi (n + 1) in
  let ext := _trans_func extern (bin_centers bst) in
  let range_violation :=
    ValueError "decoded values outside of [extmin, extmax]" in
  (∀ x idx, x ∈ ext → np.digitize_right [x] bins = Ok [idx] →
     (n_bins_of bins ≤ idx)%Z →
     _compute_ratemap None extern bst bins (unit_ids bst)
     = Raise range_violation ∧
     __init__ exp bst extern kw = Raise range_violation) ∧
  (∀ l1 x l2, ext = l1 ++ x :: l2 → (x < lo ∨ hi < x)%Q →
     ∃ occ, _compute_occupancy None extern bst bins = Ok occ ∧
            np.histogram (l1 ++ l2) bins = Ok occ) ∧
  (∀ l1 l2, ext = l1 ++ hi :: l2 →
     _compute_ratemap None extern bst bins (unit_ids bst)
     = Raise range_violation ∧
     __init__ exp bst extern kw = Raise range_violation ∧
     ∃ occ occ' k,
       _compute_occupancy None extern bst bins = Ok occ ∧
       np.histogram (l1 ++ l2) bins = Ok occ' ∧
       occ' !! (n - 1) = Some k ∧
       occ = <[n - 1 := (k + 1)%Z]> occ').
Proof.
  intros Hne Htf Hn Hlo Hhi Hpos Hlt bins ext range_violation.
  pose proof (linspace_nondecreasing lo hi n Hlt Hpos) as Hmono.
  fold bins in Hmono.
  assert (Hlen : length bins = n + 1) by apply linspace_length.
  assert (Hraise : ∀ x, x ∈ ext →
            (n_bins_of bins ≤ Z.of_nat (np.searchsorted_left bins x))%Z →
            _compute_ratemap None extern bst bins (unit_ids bst)
            = Raise range_violation ∧
            __init__ exp bst extern kw = Raise range_violation).
  { intros x Hx Hidx. split.
    - by apply (compute_ratemap_range_violation extern bst bins _ x).
    - by apply (init_range_violation exp bst extern kw n lo hi
                  Hne Htf Hn Hlo Hhi Hpos Hlt x). }
  split_and!.
  - intros x idx Hx Hdig Hidx. apply (Hraise x Hx).
    rewrite digitize_right_increasing in Hdig by done.
    by injection Hdig as <-.
  - intros l1 x l2 Hext Hx.
    destruct (histogram_one_more l1 x l2 bins Hmono)
      as (occ & occ' & Hocc & Hocc' & Hl & Hl' & Hcount).
    exists occ. split.
    { unfold _compute_occupancy. simpl. fold ext. by rewrite Hext. }
    rewrite Hocc'. f_equal. apply list_eq. intros i.
    destruct (decide (i < n)) as [Hi|Hi].
    + destruct (lookup_lt_is_Some_2 bins i) as [e He]; [lia|].
      destruct (lookup_lt_is_Some_2 bins (S i)) as [e' He']; [lia|].
      destruct (Hcount i e e' He He') as (k & Hk & Hk').
      rewrite Hk, Hk'.
      pose proof (in_bin_out_of_range n lo hi Hpos Hlt i e e' x He He' Hx)
        as Hout.
      fold bins in Hout. rewrite Hout. f_equal. lia.
    + rewrite !(proj2 (lookup_ge_None _ _)) by lia. done.
  - intros l1 l2 Hext.
    assert (Hin : hi ∈ ext).
    { rewrite Hext. apply elem_of_app. right. apply list_elem_of_here. }
    assert (Hidx : (n_bins_of bins
                    ≤ Z.of_nat (np.searchsorted_left bins hi))%Z).
    { unfold bins at 2. rewrite searchsorted_left_last by done.
      unfold n_bins_of. lia. }
    destruct (Hraise hi Hin Hidx) as [Hrm Hinit]. split_and!; [done..|].
    destruct (histogram_one_more l1 hi l2 bins Hmono)
      as (occ & occ' & Hocc & Hocc' & Hl & Hl' & Hcount).
    destruct (lookup_lt_is_Some_2 occ' (n - 1)) as [k Hk]; [lia|].
    exists occ, occ', k. split_and!; [|done..|].
    { unfold _compute_occupancy. simpl. fold ext. by rewrite Hext. }
    apply list_eq. intros i.
    destruct (decide (i < n)) as [Hi|Hi].
    + destruct (lookup_lt_is_Some_2 bins i) as [e He]; [lia|].
      destruct (lookup_lt_is_Some_2 bins (S i)) as [e' He']; [lia|].
      destruct (Hcount i e e' He He') as (k' & Hk' & Hocc_i).
      rewrite Hocc_i.
      pose proof (in_bin_extmax n lo hi Hpos Hlt i e e' He He') as Hmax.
      fold bins in Hmax. rewrite Hmax.
      destruct (decide (i = n - 1)) as [->|Hnl].
      * rewrite bool_decide_true, list_lookup_insert_eq by lia.
        rewrite Hk in Hk'. by injection Hk' as <-.
      * rewrite bool_decide_false, list_lookup_insert_ne by lia.
        rewrite Hk'. f_equal. lia.
    + rewrite list_lookup_insert_ne by lia.
      rewrite !(proj2 (lookup_ge_None _ _)) by lia. done.
Qed.

(** C1, at a concrete input: four bins on [[0, 1]] and a correlate that
    reaches 1 in the last time bin. *)
Lemma range_violation_versus_occupancy_witness :
  (kw_empty example_kwargs = false ∧
   kw_transform_func example_kwargs = None ∧
   kw_n_extern example_kwargs = Some 4 ∧
   kw_extmin example_kwargs = Some 0%Q ∧
   kw_extmax example_kwargs = Some 1%Q ∧
   1 ≤ 4 ∧ (0 < 1)%Q) ∧
  __init__ exp2 example_bst_at_extmax extern_identity example_kwargs
  = Raise (ValueError "decoded values outside of [extmin, extmax]") ∧
  ∃ occ occ' k,
    _compute_occupancy None extern_identity example_bst_at_extmax
      (np.linspace 0 1 (4 + 1)) = Ok occ ∧
    np.histogram ([1 # 10; 3 # 10; 3 # 10; 6 # 10]%Q ++ []) (np.linspace 0 1 (4 + 1))
    = Ok occ' ∧
    occ' !! (4 - 1) = Some k ∧ occ = <[4 - 1 := (k + 1)%Z]> occ'.
Proof.
  split; [split_and!; [reflexivity..|lia|reflexivity]|].
  destruct (range_violation_versus_occupancy exp2 example_bst_at_extmax
              extern_identity example_kwargs 4 0 1
              eq_refl eq_refl eq_refl eq_refl eq_refl
              (le_S _ _ (le_S _ _ (le_S _ _ (le_n 1)))) eq_refl)
    as (_ & _ & Hmax).
  destruct (Hmax [1 # 10; 3 # 10; 3 # 10; 6 # 10]%Q [] eq_refl)
    as (_ & Hinit & Hocc).
  split; [exact Hinit | exact Hocc].
Defined.

(** ** Accumulation of the spike counts *)

Lemma filter_all {A} (P : A → Prop) `{∀ x, Decision (P x)} (l : list A) :
  Forall P l → filter P l = l.
Proof.
  induction 1 as [|x l Hx _ IH]; [done|].
  by rewrite filter_cons_True, IH.
Qed.

Lemma filter_none {A} (P : A → Prop) `{∀ x, Decision (P x)} (l : list A) :
  Forall (λ x, ¬ P x) l → filter P l = [].
Proof.
  induction 1 as [|x l Hx _ IH]; [done|].
  by rewrite filter_cons_False, IH.
Qed.

Lemma column_Ok bst tt :
  Forall (λ counts : list Q, tt < length counts) (data bst) →
  ∃ col, column bst tt = Ok col ∧
    length col = length (data bst) ∧
    ∀ u counts, data bst !! u = Some counts → col !! u = counts !! tt.
Proof.
  intros Hlen. exists ((λ counts : list Q, default 0%Q (counts !! tt)) <$> data bst).
  split_and!.
  - unfold column. apply map_result_Ok. apply Forall2_fmap_r, Forall_Forall2_diag.
    eapply Forall_impl; [exact Hlen|]. intros counts Hc. simpl in *.
    destruct (lookup_lt_is_Some_2 counts tt Hc) as [v ->]. done.
  - by rewrite length_fmap.
  - intros u counts Hu. rewrite list_lookup_fmap, Hu. simpl.
    pose proof (Forall_lookup_1 _ _ _ _ Hlen Hu) as Hc. simpl in Hc.
    destruct (lookup_lt_is_Some_2 counts tt Hc) as [v ->]. done.
Qed.

Lemma accumulate_last_column bst (n : nat) idx :
  1 ≤ n →
  Forall (λ i, 0 ≤ i < Z.of_nat n)%Z idx →
  ∀ k rm0,
  has_shape (length (data bst)) n rm0 →
  Forall (λ counts : list Q, k + length idx ≤ length counts) (data bst) →
  ∃ rm1,
    for_each (iadd_column bst (Z.of_nat n)) rm0 (zip (seq k (length idx)) idx)
    = Ok rm1 ∧
    has_shape (length (data bst)) n rm1 ∧
    ∀ u counts, data bst !! u = Some counts →
      ∃ row0 row1 v0 v1,
        rm0 !! u = Some row0 ∧ rm1 !! u = Some row1 ∧
        row0 !! (n - 1) = Some v0 ∧ row1 !! (n - 1) = Some v1 ∧
        (v1 == v0 + Qsum (zip_with (λ (i : Z) d, if decide (i = 0%Z) then d else 0%Q)
                                   idx (drop k counts)))%Q.
Proof.
  intros Hn Hidx. induction Hidx as [|i idx Hi Hidx IH]; intros k rm0 Hshape Hlen.
  - exists rm0. split_and!; [done..|]. intros u counts Hu.
    destruct Hshape as [Hrows Hcols].
    destruct (lookup_lt_is_Some_2 rm0 u) as [row0 Hrow0].
    { rewrite Hrows. by eapply lookup_lt_Some. }
    pose proof (Forall_lookup_1 _ _ _ _ Hcols Hrow0) as Hl. simpl in Hl.
    destruct (lookup_lt_is_Some_2 row0 (n - 1)) as [v0 Hv0]; [lia|].
    exists row0, row0, v0, v0. split_and!; [done..|].
    unfold Qsum. simpl. ring.
  - simpl.
    destruct (column_Ok bst k) as (col & Hcol & Hcol_len & Hcol_u).
    { eapply Forall_impl; [exact Hlen|]. intros counts Hc. simpl in *. lia. }
    set (j := if decide (i = 0%Z) then n - 1 else Z.to_nat (i - 1)).
    assert (Hj : py_index (Z.to_nat (Z.of_nat n)) (i - 1) = Ok j).
    { unfold py_index, j. rewrite Nat2Z.id. destruct (decide (i = 0%Z)) as [->|].
      - rewrite decide_False by lia. rewrite decide_True by lia. f_equal. lia.
      - by rewrite decide_True by lia. }
    set (rm0' := zip_with (λ row v, alter (λ x, x + v)%Q j row) rm0 col).
    assert (Hstep : iadd_column bst (Z.of_nat n) rm0 (k, i) = Ok rm0').
    { unfold iadd_column. simpl. rewrite Hj. simpl. rewrite Hcol. simpl.
      destruct Hshape as [Hrows _]. by rewrite decide_True by lia. }
    assert (Hshape' : has_shape (length (data bst)) n rm0')
      by (by eapply iadd_column_shape).
    destruct (IH (S k) rm0' Hshape') as (rm1 & Hloop & Hshape1 & Hsum).
    { eapply Forall_impl; [exact Hlen|]. intros counts Hc. simpl in *. lia. }
    exists rm1. rewrite Hstep. simpl. split_and!; [done..|].
    intros u counts Hu.
    destruct (Hsum u counts Hu)
      as (row0' & row1 & v0' & v1 & Hrow0' & Hrow1 & Hv0' & Hv1 & Heq).
    unfold rm0' in Hrow0'. rewrite lookup_zip_with in Hrow0'.
    destruct (rm0 !! u) as [row0|] eqn:Hrow0; [|done]. simpl in Hrow0'.
    rewrite (Hcol_u u counts Hu) in Hrow0'.
    pose proof (Forall_lookup_1 _ _ _ _ Hlen Hu) as Hc. simpl in Hc.
    destruct (lookup_lt_is_Some_2 counts k) as [d Hd]; [lia|].
    rewrite Hd in Hrow0'. simpl in Hrow0'. injection Hrow0' as <-.
    destruct Hshape as [_ Hcols].
    pose proof (Forall_lookup_1 _ _ _ _ Hcols Hrow0) as Hl. simpl in Hl.
    destruct (lookup_lt_is_Some_2 row0 (n - 1)) as [v0 Hv0]; [lia|].
    exists row0, row1, v0, v1. split_and!; [done..|].
    rewrite (drop_S _ _ _ Hd). simpl. rewrite Qsum_cons, Heq.
    rewrite list_lookup_alter in Hv0'. unfold j in Hv0'.
    destruct (decide (i = 0%Z)) as [->|Hne].
    + rewrite decide_True in Hv0' by done. rewrite Hv0 in Hv0'. simpl in Hv0'.
      injection Hv0' as <-. ring.
    + rewrite decide_False in Hv0' by lia. rewrite Hv0 in Hv0'.
      injection Hv0' as <-. ring.
Qed.

Lemma searchsorted_left_zero_iff bins e0 x :
  np.nondecreasing bins = true → bins !! 0 = Some e0 →
  np.searchsorted_left bins x = 0 ↔ (x <= e0)%Q.
Proof.
  intros Hmono He0. split; [|by apply searchsorted_left_below].
  destruct bins as [|e bins]; [done|]. injection He0 as ->.
  unfold np.searchsorted_left. simpl.
  destruct (Qltb e0 x) eqn:Hlt; [lia|]. intros _. by apply Qltb_false.
Qed.

(** C10: a correlate sample at or below the first bin edge digitizes to
    index 0, which the range check (index at least [n_bins]) lets pass;
    and, when no sample is rejected, the last column of the computed
    ratemap holds, for every unit, the spike counts of exactly those
    samples (divided by the bin duration): index 0 - 1 = -1 addresses
    the last bin. *)
Theorem below_range_samples_fill_last_bin
    (extern : AnalogSignalArray) (bst : BinnedSpikeTrainArray)
    (bins : list Q) (ids : list Z) (e0 : Q) (n : nat) :
  np.nondecreasing bins = true →
  length bins = n + 1 →
  1 ≤ n →
  bins !! 0 = Some e0 →
  let ext := _trans_func extern (bin_centers bst) in
  Forall (λ x, (Z.of_nat (np.searchsorted_left bins x) < n_bins_of bins)%Z) ext →
  length (data bst) = length ids →
  Forall (λ counts : list Q, length counts = length ext) (data bst) →
  (0 < ds bst)%Q →
  (∀ x, (x <= e0)%Q →
     np.digitize_right [x] bins = Ok [0%Z] ∧
     filter (λ i, n_bins_of bins ≤ i)%Z [0%Z] = []) ∧
  ∃ ratemap,
    _compute_ratemap None extern bst bins ids = Ok ratemap ∧
    length ratemap = length ids ∧
    ∀ u counts, data bst !! u = Some counts →
      ∃ row v, ratemap !! u = Some row ∧
        length row = n ∧
        row !! (n - 1) = Some v ∧
        (v == below_range_count e0 ext counts / ds bst)%Q.
Proof.
  intros Hmono Hlen Hn He0 ext Hidx Hdata Hcounts Hds.
  assert (Hnb : n_bins_of bins = Z.of_nat n) by (unfold n_bins_of; lia).
  split.
  { intros x Hx. rewrite digitize_right_increasing by done. simpl.
    rewrite (searchsorted_left_below bins e0 x) by done. split; [done|].
    apply filter_none. repeat constructor. lia. }
  set (idx := (λ v, Z.of_nat (np.searchsorted_left bins v)) <$> ext).
  assert (Hidx' : Forall (λ i, 0 ≤ i < Z.of_nat n)%Z idx).
  { unfold idx. apply Forall_fmap. eapply Forall_impl; [exact Hidx|].
    intros x Hx. simpl in *. lia. }
  destruct (np.zeros (length ids) (n_bins_of bins)) as [rm0|] eqn:Hzeros.
  2:{ unfold np.zeros in Hzeros. by rewrite decide_False in Hzeros by lia. }
  pose proof (zeros_shape _ _ _ Hzeros) as Hshape0.
  rewrite Hnb, Nat2Z.id, <- Hdata in Hshape0.
  destruct (accumulate_last_column bst n idx Hn Hidx' 0 rm0 Hshape0)
    as (rm1 & Hloop & Hshape1 & Hsum).
  { eapply Forall_impl; [exact Hcounts|]. intros counts Hc. simpl in *.
    unfold idx. rewrite length_fmap. lia. }
  exists (np.elementwise (λ x, x / ds bst)%Q rm1). split_and!.
  - unfold _compute_ratemap. simpl. fold ext.
    rewrite digitize_right_increasing by done. simpl. fold idx.
    rewrite (filter_none (λ i, n_bins_of bins ≤ i)%Z idx).
    2:{ eapply Forall_impl; [exact Hidx'|]. intros i Hi. simpl in *. lia. }
    rewrite decide_False by (simpl; lia).
    rewrite (filter_all (λ i, i < n_bins_of bins)%Z idx).
    2:{ eapply Forall_impl; [exact Hidx'|]. intros i Hi. simpl in *. lia. }
    rewrite Hzeros. simpl. unfold enumerate. rewrite Hnb, Hloop. done.
  - destruct Hshape1 as [Hrows _]. unfold np.elementwise.
    rewrite length_fmap. lia.
  - intros u counts Hu.
    destruct (Hsum u counts Hu)
      as (row0 & row1 & v0 & v1 & Hrow0 & Hrow1 & Hv0 & Hv1 & Heq).
    exists ((λ x, x / ds bst)%Q <$> row1), (v1 / ds bst)%Q.
    unfold np.elementwise. rewrite list_lookup_fmap, Hrow1. simpl.
    split_and!; [done| | |].
    + destruct Hshape1 as [_ Hcols]. rewrite length_fmap.
      by eapply (Forall_lookup_1 _ _ _ _ Hcols).
    + by rewrite list_lookup_fmap, Hv1.
    + assert (Hz : v0 = 0%Q).
      { unfold np.zeros in Hzeros. case_decide; [done|].
        injection Hzeros as <-.
        apply lookup_replicate in Hrow0 as [-> _].
        by apply lookup_replicate in Hv0 as [-> _]. }
      subst v0. rewrite Heq, drop_0. unfold below_range_count, idx.
      rewrite zip_with_fmap_l.
      assert (Hsame :
        zip_with (λ x d, if decide (Z.of_nat (np.searchsorted_left bins x) = 0%Z)
                         then d else 0%Q) ext counts
        = zip_with (λ x d, if Qle_bool x e0 then d else 0%Q) ext counts).
      { apply zip_with_ext; [|done..]. intros x d.
        destruct (decide _) as [Hx|Hx].
        - assert (Hx' : np.searchsorted_left bins x = 0) by lia.
          apply (searchsorted_left_zero_iff bins e0 x Hmono He0) in Hx'.
          by rewrite (proj2 (Qle_bool_iff x e0) Hx').
        - destruct (Qle_bool x e0) eqn:Hle; [|done]. exfalso. apply Hx.
          apply Qle_bool_iff in Hle.
          apply (searchsorted_left_zero_iff bins e0 x Hmono He0) in Hle. lia. }
      rewrite Hsame.
      assert (Hnz : ¬ (ds bst == 0)%Q) by lra.
      field. done.
Qed.

(** C10, at a concrete input: the last time bin has the correlate at
    the lower edge 0, and its spike counts 1, 7 and 3 are what the last
    column of the ratemap holds. *)
Lemma below_range_samples_fill_last_bin_witness :
  np.nondecreasing (np.linspace 0 1 5) = true ∧
  length (np.linspace 0 1 5) = 4 + 1 ∧
  1 ≤ 4 ∧
  np.linspace 0 1 5 !! 0 = Some (0 # 4)%Q ∧
  Forall (λ x, (Z.of_nat (np.searchsorted_left (np.linspace 0 1 5) x)
                < n_bins_of (np.linspace 0 1 5))%Z)
         (_trans_func extern_identity (bin_centers example_bst)) ∧
  length (data example_bst) = length (unit_ids example_bst) ∧
  Forall (λ counts : list Q,
            length counts
            = length (_trans_func extern_identity (bin_centers example_bst)))
         (data example_bst) ∧
  (0 < ds example_bst)%Q ∧
  ∃ ratemap,
    _compute_ratemap None extern_identity example_bst (np.linspace 0 1 5)
      (unit_ids example_bst) = Ok ratemap ∧
    ∀ u counts, data example_bst !! u = Some counts →
      ∃ row v, ratemap !! u = Some row ∧ length row = 4 ∧
        row !! (4 - 1) = Some v ∧
        (v == below_range_count (0 # 4)
                (_trans_func extern_identity (bin_centers example_bst)) counts
              / ds example_bst)%Q.
Proof.
  assert (Hidx : Forall (λ x,
            (Z.of_nat (np.searchsorted_left (np.linspace 0 1 5) x)
             < n_bins_of (np.linspace 0 1 5))%Z)
            (_trans_func extern_identity (bin_centers example_bst))).
  { repeat constructor. }
  assert (Hcounts : Forall (λ counts : list Q,
            length counts
            = length (_trans_func extern_identity (bin_centers example_bst)))
            (data example_bst)).
  { by repeat constructor. }
  split; [reflexivity|]. split; [reflexivity|]. split; [lia|].
  split; [reflexivity|]. split; [exact Hidx|]. split; [reflexivity|].
  split; [exact Hcounts|]. split; [reflexivity|].
  destruct (below_range_samples_fill_last_bin extern_identity example_bst
              (np.linspace 0 1 5) (unit_ids example_bst) (0 # 4) 4
              eq_refl eq_refl (le_S _ _ (le_S _ _ (le_S _ _ (le_n 1)))) eq_refl
              Hidx eq_refl Hcounts eq_refl)
    as (_ & ratemap & Hrm & _ & Hrows).
  exists ratemap. split; [exact Hrm | exact Hrows].
Defined.

(** ** Normalization by the peak rate *)

Lemma amax_fold_spec x rest :
  let m := foldl (λ m y, if Qltb m y then y else m) x rest in
  m ∈ x :: rest ∧ ∀ y, y ∈ x :: rest → (y <= m)%Q.
Proof.
  revert x. induction rest as [|z rest IH]; intros x; simpl.
  - split; [apply list_elem_of_here|].
    intros y ->%list_elem_of_singleton. apply Qle_refl.
  - destruct (IH (if Qltb x z then z else x)) as [Hin Hmax]. split.
    + apply elem_of_cons in Hin as [Hin|Hin].
      * rewrite Hin. destruct (Qltb x z); [right; left | left].
      * by do 2 right.
    + intros y Hy.
      assert (Hstep : ((if Qltb x z then z else x) <= foldl
                (λ m y, if Qltb m y then y else m)
                (if Qltb x z then z else x) rest)%Q)
        by (apply Hmax; left).
      apply elem_of_cons in Hy as [->|Hy].
      * eapply Qle_trans; [|exact Hstep].
        destruct (Qltb x z) eqn:Hxz; [|apply Qle_refl].
        apply Qltb_true in Hxz. lra.
      * apply elem_of_cons in Hy as [->|Hy]; [|apply Hmax; by right].
        eapply Qle_trans; [|exact Hstep].
        destruct (Qltb x z) eqn:Hxz; [apply Qle_refl|].
        by apply Qltb_false in Hxz.
Qed.

Lemma amax_Ok row p :
  np.amax row = Ok p → p ∈ row ∧ ∀ y, y ∈ row → (y <= p)%Q.
Proof.
  destruct row as [|x rest]; [done|]. intros [= <-]. apply amax_fold_spec.
Qed.

Lemma amax_nonempty row : row ≠ [] → ∃ p, np.amax row = Ok p.
Proof. destruct row; [done|]. intros _. by eexists. Qed.

Lemma amax_scaled row m :
  np.amax row = Ok m → (0 < m)%Q →
  ∃ q, np.amax ((λ x, x / m)%Q <$> row) = Ok q ∧ (q == 1)%Q.
Proof.
  intros Hm Hpos. destruct (amax_Ok _ _ Hm) as [Hin Hmax].
  destruct (amax_nonempty ((λ x, x / m)%Q <$> row)) as [q Hq].
  { intros Hnil%fmap_nil_inv. subst row. by apply elem_of_nil in Hin. }
  exists q. split; [done|].
  destruct (amax_Ok _ _ Hq) as [Hqin Hqmax].
  apply list_elem_of_fmap in Hqin as (x & -> & Hx).
  assert (Hone : (m / m <= x / m)%Q).
  { apply Hqmax. apply list_elem_of_fmap. by exists m. }
  pose proof (Hmax x Hx) as Hle.
  assert (Hle' : (x / m <= 1)%Q).
  { apply Qle_shift_div_r; [done|]. lra. }
  assert (Hmm : (m / m == 1)%Q) by (field; lra).
  rewrite Hmm in Hone. by apply Qle_antisym.
Qed.

Lemma divide_by_replicate (row : list Q) m :
  zip_with Qdiv row (replicate (length row) m) = (λ x, x / m)%Q <$> row.
Proof.
  induction row as [|x row IH]; [done|]. simpl. by rewrite IH.
Qed.

Lemma map_result_total {A B} (f : A → result B) l :
  Forall (λ x, ∃ y, f x = Ok y) l → ∃ ys, map_result f l = Ok ys.
Proof.
  induction 1 as [|x l [y Hy] _ [ys IH]]; simpl; [by eexists|].
  rewrite Hy, IH. by eexists.
Qed.

(** ** Reordering units *)

Lemma swap_items_Ok {A} (l : list A) frm to l' :
  swap_items l frm to = Ok l' →
  ∃ a b, l !! frm = Some a ∧ l !! to = Some b ∧
         l' = <[to := a]> (<[frm := b]> l).
Proof.
  unfold swap_items.
  destruct (l !! to) as [b|]; [|done].
  destruct (l !! frm) as [a|]; [|done].
  intros [= <-]. by exists a, b.
Qed.

Lemma swap_items_total {A} (l : list A) frm to :
  frm < length l → to < length l → ∃ l', swap_items l frm to = Ok l'.
Proof.
  intros [a Ha]%lookup_lt_is_Some_2 [b Hb]%lookup_lt_is_Some_2.
  unfold swap_items. rewrite Ha, Hb. by eexists.
Qed.

Lemma swap_items_length {A} (l : list A) frm to l' :
  swap_items l frm to = Ok l' → length l' = length l.
Proof.
  intros (a & b & _ & _ & ->)%swap_items_Ok. by rewrite !length_insert.
Qed.

Lemma swap_items_lookup {A} (l : list A) frm to l' i :
  swap_items l frm to = Ok l' →
  l' !! i = if decide (i = to) then l !! frm
            else if decide (i = frm) then l !! to
            else l !! i.
Proof.
  intros (a & b & Ha & Hb & ->)%swap_items_Ok.
  pose proof (lookup_lt_Some _ _ _ Ha). pose proof (lookup_lt_Some _ _ _ Hb).
  destruct (decide (i = to)) as [->|Hto].
  { by rewrite list_lookup_insert_eq by (by rewrite length_insert). }
  rewrite list_lookup_insert_ne by done.
  destruct (decide (i = frm)) as [->|Hfrm].
  { by rewrite list_lookup_insert_eq. }
  by rewrite list_lookup_insert_ne.
Qed.

(** Two sequences swapped at the same positions stay related
    position by position. *)
Lemma swap_items_Forall2 {A B} (R : A → B → Prop) l k frm to l' k' :
  Forall2 R l k →
  swap_items l frm to = Ok l' → swap_items k frm to = Ok k' →
  Forall2 R l' k'.
Proof.
  intros HR Hl Hk. apply Forall2_same_length_lookup.
  apply Forall2_same_length_lookup in HR as [Hlen HR]. split.
  - by rewrite (swap_items_length _ _ _ _ Hl), (swap_items_length _ _ _ _ Hk).
  - intros i x y.
    rewrite (swap_items_lookup _ _ _ _ i Hl), (swap_items_lookup _ _ _ _ i Hk).
    repeat case_decide; apply HR.
Qed.

Lemma swap_items_elem_of {A} (l : list A) frm to l' x :
  swap_items l frm to = Ok l' → x ∈ l → x ∈ l'.
Proof.
  intros Hl (i & Hi)%list_elem_of_lookup_1.
  destruct (swap_items_Ok _ _ _ _ Hl) as (a & b & Ha & Hb & _).
  destruct (decide (i = frm)) as [->|Hfrm].
  - apply (list_elem_of_lookup_2 _ to).
    rewrite (swap_items_lookup _ _ _ _ to Hl), decide_True by done. done.
  - destruct (decide (i = to)) as [->|Hto].
    + apply (list_elem_of_lookup_2 _ frm).
      rewrite (swap_items_lookup _ _ _ _ frm Hl).
      case_decide; [by subst|]. by rewrite decide_True.
    + apply (list_elem_of_lookup_2 _ i).
      rewrite (swap_items_lookup _ _ _ _ i Hl).
      by rewrite !decide_False.
Qed.

Lemma picked_take_positions {A} (l : list A) order out :
  picked l order out ↔ take_positions l (Z.to_nat <$> order) = Ok out.
Proof.
  unfold picked. rewrite take_positions_Ok. symmetry. apply Forall2_fmap_l.
Qed.

Lemma reorder_step_invariant self neworder k ni st :
  NoDup neworder →
  neworder !! k = Some ni →
  reorder_invariant self neworder k st →
  ∃ st', contents_step st (k, ni) = Ok st' ∧
         reorder_invariant self neworder (S k) st'.
Proof.
  intros Hnd Hni [Hmem Hpre Hlen Hrm Hids Hlab].
  pose proof (lookup_lt_Some _ _ _ Hni) as Hk.
  assert (Hin : ni ∈ rs_oldorder st).
  { apply Hmem. by eapply list_elem_of_lookup_2. }
  destruct (list_index (rs_oldorder st) ni) as [frm|e] eqn:Hidx.
  2:{ exfalso. revert Hin. apply list_index_Raise. by exists e. }
  pose proof (proj1 (list_index_Ok _ _ _) Hidx) as [Hfrm _].
  pose proof (lookup_lt_Some _ _ _ Hfrm) as Hfrm_lt.
  assert (Hge : k ≤ frm).
  { destruct (decide (k ≤ frm)) as [|Hlt]; [done|]. exfalso.
    assert (Hfrm' : neworder !! frm = Some ni).
    { rewrite <- (lookup_take_lt neworder k frm) by lia.
      rewrite <- Hpre. by rewrite lookup_take_lt by lia. }
    pose proof (NoDup_lookup _ _ _ _ Hnd Hni Hfrm'). lia. }
  pose proof (Forall2_length _ _ _ Hrm) as Hl1.
  pose proof (Forall2_length _ _ _ Hids) as Hl2.
  pose proof (Forall2_length _ _ _ Hlab) as Hl3.
  destruct (swap_items_total (rs_ratemap st) frm k) as [rm' Hrm']; [lia..|].
  destruct (swap_items_total (rs_unit_ids st) frm k) as [ids' Hids']; [lia..|].
  destruct (swap_items_total (rs_unit_labels st) frm k) as [lab' Hlab'];
    [lia..|].
  destruct (swap_items_total (rs_oldorder st) frm k) as [old' Hold']; [lia..|].
  eexists. split.
  { unfold contents_step. simpl.
    rewrite Hidx. simpl. rewrite Hrm'. simpl. rewrite Hids'. simpl.
    rewrite Hlab'. simpl. rewrite Hold'. simpl. done. }
  split; simpl.
  - intros x Hx. eapply swap_items_elem_of; [done|]. by apply Hmem.
  - apply list_eq. intros i.
    destruct (decide (i < S k)) as [Hi|Hi].
    + rewrite !lookup_take_lt by lia.
      rewrite (swap_items_lookup _ _ _ _ i Hold').
      destruct (decide (i = k)) as [->|Hik]; [by rewrite Hfrm|].
      rewrite decide_False by lia.
      rewrite <- (lookup_take_lt (rs_oldorder st) k i) by lia.
      rewrite Hpre. by rewrite lookup_take_lt by lia.
    + rewrite !lookup_take_ge by lia. done.
  - by rewrite (swap_items_length _ _ _ _ Hold').
  - by eapply swap_items_Forall2.
  - by eapply swap_items_Forall2.
  - by eapply swap_items_Forall2.
Qed.

Lemma reorder_loop_invariant self neworder :
  NoDup neworder →
  ∀ rest k st,
    drop k neworder = rest →
    reorder_invariant self neworder k st →
    ∃ st', for_each contents_step st (zip (seq k (length rest)) rest) = Ok st' ∧
           reorder_invariant self neworder (length neworder) st'.
Proof.
  intros Hnd rest. induction rest as [|ni rest IH]; intros k st Hdrop Hinv.
  - exists st. split; [done|].
    assert (Hk : length neworder ≤ k).
    { apply (f_equal length) in Hdrop. rewrite length_drop in Hdrop.
      simpl in Hdrop. lia. }
    destruct Hinv as [Hmem Hpre Hlen Hrm Hids Hlab]. split; try done.
    rewrite !take_ge in Hpre by lia. by rewrite !take_ge by lia.
  - assert (Hni : neworder !! k = Some ni).
    { rewrite <- (Nat.add_0_r k), <- lookup_drop, Hdrop. done. }
    destruct (reorder_step_invariant self neworder k ni st Hnd Hni Hinv)
      as (st1 & Hstep & Hinv1).
    destruct (IH (S k) st1) as (st' & Hloop & Hinv'); [|done|].
    { by rewrite (drop_S _ _ _ Hni) in Hdrop; injection Hdrop. }
    exists st'. simpl. rewrite Hstep. simpl. done.
Qed.

Lemma picked_identity {A} (l : list A) :
  picked l (Z.of_nat <$> seq 0 (length l)) l.
Proof.
  apply Forall2_same_length_lookup. split.
  - by rewrite length_fmap, length_seq.
  - intros i o x. rewrite list_lookup_fmap. intros Ho Hx.
    rewrite lookup_seq_lt in Ho by (by eapply lookup_lt_Some).
    injection Ho as <-. by rewrite Nat2Z.id.
Qed.

Lemma picked_inverse {A} (l l1 l2 : list A) (p q : list Z) :
  picked l p l1 → picked l1 q l2 →
  picked p q (Z.of_nat <$> seq 0 (length l)) →
  l2 = l.
Proof.
  intros Hp Hq Hpq.
  assert (Hlen : length l2 = length l).
  { rewrite <- (Forall2_length _ _ _ Hq), (Forall2_length _ _ _ Hpq).
    by rewrite length_fmap, length_seq. }
  apply list_eq. intros i.
  destruct (decide (i < length l)) as [Hi|Hi].
  - destruct (lookup_lt_is_Some_2 q i) as [qi Hqi].
    { rewrite (Forall2_length _ _ _ Hq). lia. }
    destruct (Forall2_lookup_l _ _ _ _ _ Hq Hqi) as (x2 & Hx2 & Hx1).
    destruct (Forall2_lookup_l _ _ _ _ _ Hpq Hqi) as (y & Hy & Hpy).
    rewrite list_lookup_fmap, lookup_seq_lt in Hy by done.
    injection Hy as <-.
    destruct (Forall2_lookup_l _ _ _ _ _ Hp Hpy) as (x1 & Hx1' & Hx0).
    rewrite Nat2Z.id in Hx0. congruence.
  - rewrite !(proj2 (lookup_ge_None _ _)) by lia. done.
Qed.


(** ** The store *)

Lemma fresh_lookup (h : gmap addr cell) : h !! fresh (dom h) = None.
Proof. apply not_elem_of_dom, is_fresh. Qed.

Lemma view_Some h o c :
  view h o = Some c ↔
  ∃ d, h !! o = Some (Instance d) ∧
       h !! at_ratemap d = Some (NdArray (_ratemap c)) ∧
       h !! at_unit_ids d = Some (IntList (_unit_ids c)) ∧
       h !! at_unit_labels d = Some (StrList (_unit_labels c)) ∧
       _bins c = at_bins d ∧ _occupancy c = at_occupancy d ∧
       _unit_tags c = at_unit_tags d ∧ _label c = at_label d.
Proof.
  unfold view. split.
  - destruct (h !! o) as [[| | |d]|] eqn:E0; try done.
    destruct (h !! at_ratemap d) as [[rm| | |]|] eqn:E1; try done.
    destruct (h !! at_unit_ids d) as [[|ids| |]|] eqn:E2; try done.
    destruct (h !! at_unit_labels d) as [[| |labels|]|] eqn:E3; try done.
    intros [= <-]. exists d. simpl. by rewrite E1, E2, E3.
  - intros (d & -> & -> & -> & -> & ? & ? & ? & ?).
    destruct c; simpl in *. by subst.
Qed.

(** A store that only grew, or changed at addresses that were free,
    shows every object as before. *)
Lemma view_weaken h h' o c :
  h ⊆ h' → view h o = Some c → view h' o = Some c.
Proof.
  intros Hsub (d & Ho & Hrm & Hids & Hlab & Hrest)%view_Some.
  apply view_Some. exists d.
  split_and!; try (by eapply lookup_weaken). all: apply Hrest.
Qed.

Lemma instance_run h o d :
  h !! o = Some (Instance d) → py.instance o h = (Ok d, h).
Proof. intros H. unfold py.instance. by rewrite H. Qed.

Lemma ndarray_run h r a :
  h !! r = Some (NdArray a) → py.ndarray r h = (Ok a, h).
Proof. intros H. unfold py.ndarray. by rewrite H. Qed.

Lemma int_list_run h r l :
  h !! r = Some (IntList l) → py.int_list r h = (Ok l, h).
Proof. intros H. unfold py.int_list. by rewrite H. Qed.

Lemma str_list_run h r l :
  h !! r = Some (StrList l) → py.str_list r h = (Ok l, h).
Proof. intros H. unfold py.str_list. by rewrite H. Qed.

Lemma bind_run {A B} (m : py.M A) (f : A → py.M B) h a h' :
  m h = (Ok a, h') → (m ≫= f) h = f a h'.
Proof. intros H. unfold mbind, py.M_bind. by rewrite H. Qed.

Lemma bind_raise {A B} (m : py.M A) (f : A → py.M B) h e h' :
  m h = (Raise e, h') → (m ≫= f) h = (Raise e, h').
Proof. intros H. unfold mbind, py.M_bind. by rewrite H. Qed.

Lemma ratemap_at_run h o c :
  view h o = Some c → ratemap_at o h = (Ok (_ratemap c), h).
Proof.
  intros (d & Ho & Hrm & _)%view_Some. unfold ratemap_at.
  rewrite (bind_run _ _ _ _ _ (instance_run _ _ _ Ho)).
  by apply ndarray_run.
Qed.

Lemma unit_ids_at_run h o c :
  view h o = Some c → unit_ids_at o h = (Ok (_unit_ids c), h).
Proof.
  intros (d & Ho & _ & Hids & _)%view_Some. unfold unit_ids_at.
  rewrite (bind_run _ _ _ _ _ (instance_run _ _ _ Ho)).
  by apply int_list_run.
Qed.

Lemma n_units_at_run h o c :
  view h o = Some c → n_units_at o h = (Ok (n_units c), h).
Proof.
  intros (d & Ho & _ & Hids & _)%view_Some. unfold n_units_at.
  rewrite (bind_run _ _ _ _ _ (instance_run _ _ _ Ho)).
  by rewrite (bind_run _ _ _ _ _ (int_list_run _ _ _ Hids)).
Qed.

Lemma n_bins_at_run h o c :
  view h o = Some c → n_bins_at o h = (Ok (n_bins c), h).
Proof.
  intros (d & Ho & _ & _ & _ & Hb & _)%view_Some. unfold n_bins_at, n_bins.
  rewrite (bind_run _ _ _ _ _ (instance_run _ _ _ Ho)). by rewrite Hb.
Qed.

(** [copy.copy]: a new object that stands for the same curve; nothing
    else changes. *)
Lemma copy_run h o c :
  view h o = Some c →
  ∃ out h', py.copy o h = (Ok out, h') ∧ h !! out = None ∧
            h ⊆ h' ∧ view h' out = Some c.
Proof.
  intros Hview.
  pose proof Hview as (d & Ho & Hrm & Hids & Hlab & Hb & Hocc & Ht & Hl)%view_Some.
  exists (fresh (dom h)), (<[fresh (dom h) := Instance d]> h).
  pose proof (fresh_lookup h) as Hfresh.
  assert (Hsub : h ⊆ <[fresh (dom h) := Instance d]> h)
    by (by apply insert_subseteq).
  split_and!; [|done..|].
  - unfold py.copy. by rewrite (bind_run _ _ _ _ _ (instance_run _ _ _ Ho)).
  - apply view_Some. exists d. rewrite lookup_insert_eq.
    split_and!; try done; by eapply lookup_weaken.
Qed.

(** [copy.deepcopy]: a new object with the same value whose array and
    lists are new as well. *)
Lemma deepcopy_run h o c :
  view h o = Some c →
  ∃ out h' d, py.deepcopy o h = (Ok out, h') ∧ h ⊆ h' ∧
    view h' out = Some c ∧
    h' !! out = Some (Instance d) ∧
    h !! out = None ∧ h !! at_ratemap d = None ∧
    h !! at_unit_ids d = None ∧ h !! at_unit_labels d = None.
Proof.
  intros (d & Ho & Hrm & Hids & Hlab & Hb & Hocc & Ht & Hl)%view_Some.
  set (r1 := fresh (dom h)).
  set (h1 := <[r1 := NdArray (_ratemap c)]> h).
  set (r2 := fresh (dom h1)).
  set (h2 := <[r2 := IntList (_unit_ids c)]> h1).
  set (r3 := fresh (dom h2)).
  set (h3 := <[r3 := StrList (_unit_labels c)]> h2).
  set (out := fresh (dom h3)).
  set (d' := {| at_bins := at_bins d; at_ratemap := r1;
                at_occupancy := at_occupancy d; at_unit_ids := r2;
                at_unit_labels := r3; at_unit_tags := at_unit_tags d;
                at_label := at_label d |}).
  pose proof (fresh_lookup h) as F1. fold r1 in F1.
  pose proof (fresh_lookup h1) as F2. fold r2 in F2.
  pose proof (fresh_lookup h2) as F3. fold r3 in F3.
  pose proof (fresh_lookup h3) as F4. fold out in F4.
  assert (S1 : h ⊆ h1) by (by apply insert_subseteq).
  assert (S2 : h1 ⊆ h2) by (by apply insert_subseteq).
  assert (S3 : h2 ⊆ h3) by (by apply insert_subseteq).
  assert (S4 : h3 ⊆ <[out := Instance d']> h3) by (by apply insert_subseteq).
  assert (N : ∀ (m m' : gmap addr cell) a, m ⊆ m' → m' !! a = None → m !! a = None).
  { intros m m' a Hsub Hn. destruct (m !! a) eqn:E; [|done].
    by rewrite (lookup_weaken _ _ _ _ E Hsub) in Hn. }
  exists out, (<[out := Instance d']> h3), d'. split_and!.
  - unfold py.deepcopy.
    rewrite (bind_run _ _ _ _ _ (instance_run _ _ _ Ho)).
    rewrite (bind_run _ _ _ _ _ (ndarray_run _ _ _ Hrm)).
    rewrite (bind_run _ _ _ _ _ (int_list_run _ _ _ Hids)).
    rewrite (bind_run _ _ _ _ _ (str_list_run _ _ _ Hlab)).
    done.
  - by repeat (etrans; [eassumption|]).
  - apply view_Some. exists d'. rewrite lookup_insert_eq. simpl.
    split_and!; try done.
    + eapply lookup_weaken; [|exact S4]. eapply lookup_weaken; [|exact S3].
      eapply lookup_weaken; [|exact S2]. apply lookup_insert_eq.
    + eapply lookup_weaken; [|exact S4]. eapply lookup_weaken; [|exact S3].
      apply lookup_insert_eq.
    + eapply lookup_weaken; [|exact S4]. apply lookup_insert_eq.
  - apply lookup_insert_eq.
  - eauto.
  - done.
  - simpl. eauto.
  - simpl. eauto.
Qed.

(** [obj._ratemap = a]: the object stands for the same curve with the
    new ratemap; objects other than [obj] are as before. *)
Lemma set_ratemap_run h o c a :
  view h o = Some c →
  ∃ h', py.set_ratemap o a h = (Ok (), h') ∧
        view h' o = Some (set_ratemap c a) ∧
        (∀ a' x, a' ≠ o → h !! a' = Some x → h' !! a' = Some x) ∧
        ∀ o' c', o' ≠ o → view h o' = Some c' → view h' o' = Some c'.
Proof.
  intros (d & Ho & Hrm & Hids & Hlab & Hb & Hocc & Ht & Hl)%view_Some.
  set (r := fresh (dom h)).
  pose proof (fresh_lookup h) as Hf. fold r in Hf.
  set (d' := {| at_bins := at_bins d; at_ratemap := r;
                at_occupancy := at_occupancy d;
                at_unit_ids := at_unit_ids d;
                at_unit_labels := at_unit_labels d;
                at_unit_tags := at_unit_tags d; at_label := at_label d |}).
  assert (Hne : ∀ a' x, h !! a' = Some x → a' ≠ r) by (intros a' x Ha ->; congruence).
  assert (Hkeep : ∀ a' x, h !! a' = Some x → a' ≠ o →
            <[o := Instance d']> (<[r := NdArray a]> h) !! a' = Some x).
  { intros a' x Ha Hao. rewrite lookup_insert_ne by done.
    rewrite lookup_insert_ne; [done|]. intros E. rewrite E in Hf. congruence. }
  assert (Hcell : ∀ a' x, h !! a' = Some x → (∀ e, x ≠ Instance e) → a' ≠ o).
  { intros a' x Ha Hx E. rewrite E in Ha. rewrite Ho in Ha.
    injection Ha as <-. by eapply Hx. }
  exists (<[o := Instance d']> (<[r := NdArray a]> h)). split_and!.
  - unfold py.set_ratemap.
    by rewrite (bind_run _ _ _ _ _ (instance_run _ _ _ Ho)).
  - apply view_Some. exists d'. rewrite lookup_insert_eq. simpl.
    assert (Hro : r ≠ o) by (intros E; rewrite E in Hf; congruence).
    split_and!; try done.
    + rewrite lookup_insert_ne by done. apply lookup_insert_eq.
    + apply Hkeep; [done|]. by eapply Hcell.
    + apply Hkeep; [done|]. by eapply Hcell.
  - intros a' x Hne' Ha. by apply Hkeep.
  - intros o' c' Hne' (e & Ho' & Hrm' & Hids' & Hlab' & Hrest)%view_Some.
    apply view_Some. exists e.
    split_and!; [| | | |apply Hrest..].
    + by apply Hkeep.
    + apply Hkeep; [done|]. by eapply Hcell.
    + apply Hkeep; [done|]. by eapply Hcell.
    + apply Hkeep; [done|]. by eapply Hcell.
Qed.

(** ** Arithmetic operators *)

(** C9 as stated does not hold: adding two curves raises
    [NotImplementedError], and that is no [TypeError]. *)
Lemma add_two_curves_is_not_a_type_error :
  (__add__ example_object (Reference example_object) example_store).1
  = Raise NotImplementedError ∧
  ∀ msg, (__add__ example_object (Reference example_object) example_store).1
         ≠ Raise (TypeError msg).
Proof. split; [by vm_compute | intros msg; by vm_compute]. Qed.

(** C9 (amended): adding a curve to a curve signals the
    not-implemented condition; adding a number returns a new object
    that stands for the original curve with the number added to every
    entry of its ratemap, and every object of the store, the original
    among them, stands for the same curve as before. *)
Theorem add_number_or_curve
    (h : gmap addr cell) (self : addr) (c : TuningCurve1D) :
  view h self = Some c →
  (∀ o c', view h o = Some c' →
     ∃ h', __add__ self (Reference o) h = (Raise NotImplementedError, h') ∧
           h ⊆ h') ∧
  (∀ x : Q, ∃ out h',
      __add__ self (Number x) h = (Ok out, h') ∧
      h !! out = None ∧
      view h' out
      = Some (set_ratemap c (np.elementwise (λ r, r + x)%Q (_ratemap c))) ∧
      view h' self = Some c ∧
      h ⊆ h').
Proof.
  intros Hself.
  destruct (copy_run h self c Hself) as (out & h1 & Hcopy & Hnew & Hsub & Hout).
  split.
  - intros o c' (d & Ho & _)%view_Some. exists h1. split; [|done].
    unfold __add__. rewrite (bind_run _ _ _ _ _ Hcopy).
    unfold is_curve, mbind, py.M_bind.
    by rewrite (lookup_weaken _ _ _ _ Ho Hsub).
  - intros x.
    destruct (set_ratemap_run h1 out c
                (np.elementwise (λ r, r + x)%Q (_ratemap c)) Hout)
      as (h2 & Hset & Hout2 & Hcells & Hothers).
    assert (Hsub2 : h ⊆ h2).
    { apply map_subseteq_spec. intros a y Ha. apply Hcells.
      - intros ->. congruence.
      - by eapply lookup_weaken. }
    exists out, h2. split_and!; [|done..| |done].
    + unfold __add__. rewrite (bind_run _ _ _ _ _ Hcopy).
      rewrite (bind_run _ _ _ _ _ (ratemap_at_run _ _ _ Hout)).
      by rewrite (bind_run _ _ _ _ _ Hset).
    + by eapply view_weaken.
Qed.

(** C9, at a concrete input: the store that holds the example curve. *)
Lemma add_number_or_curve_witness :
  view example_store example_object = Some example_curve ∧
  ∃ out h',
    __add__ example_object (Number 1) example_store = (Ok out, h') ∧
    view h' out
    = Some (set_ratemap example_curve
              (np.elementwise (λ r, r + 1)%Q (_ratemap example_curve))) ∧
    view h' example_object = Some example_curve.
Proof.
  assert (Hview : view example_store example_object = Some example_curve)
    by (by vm_compute).
  split; [exact Hview|].
  destruct (add_number_or_curve example_store example_object example_curve
              Hview) as [_ Hnum].
  destruct (Hnum 1%Q) as (out & h' & Hadd & _ & Hout & Hself & _).
  exists out, h'. split_and!; [exact Hadd | exact Hout | exact Hself].
Defined.

Lemma normalized_rows (n width : nat) (rm : list (list Q)) :
  has_shape n width rm →
  Forall (λ row, ∃ p, np.amax row = Ok p ∧ (0 < p)%Q) rm →
  ∃ maxes rm',
    map_result np.amax rm = Ok maxes ∧
    np.true_divide rm (replicate width <$> maxes) = Ok rm' ∧
    length rm' = n ∧
    ∀ u row', rm' !! u = Some row' →
      length row' = width ∧ ∃ q, np.amax row' = Ok q ∧ (q == 1)%Q.
Proof.
  intros [Hrows Hcols] Hpeaks.
  destruct (map_result_total np.amax rm) as [maxes Hmaxes].
  { eapply Forall_impl; [exact Hpeaks|]. intros row (p & Hp & _). eauto. }
  exists maxes. pose proof Hmaxes as Hm2. apply map_result_Ok in Hm2.
  pose proof (Forall2_length _ _ _ Hm2) as Hlen.
  eexists. split; [done|]. split.
  { apply true_divide_Ok. apply list_eq. intros u. rewrite !list_lookup_fmap.
    destruct (rm !! u) as [row|] eqn:Hrow.
    - destruct (Forall2_lookup_l _ _ _ _ _ Hm2 Hrow) as (m & Hm & _).
      rewrite Hm. simpl. rewrite length_replicate. f_equal.
      by eapply (Forall_lookup_1 _ _ _ _ Hcols).
    - apply lookup_ge_None in Hrow.
      rewrite (proj2 (lookup_ge_None maxes u)) by lia. done. }
  split.
  { rewrite length_zip_with, length_fmap. lia. }
  intros u row'. rewrite lookup_zip_with, list_lookup_fmap. intros Hu.
  destruct (rm !! u) as [row|] eqn:Hrow; [|done]. simpl in Hu.
  destruct (Forall2_lookup_l _ _ _ _ _ Hm2 Hrow) as (m & Hm & Hmax).
  rewrite Hm in Hu. simpl in Hu. injection Hu as <-.
  pose proof (Forall_lookup_1 _ _ _ _ Hcols Hrow) as Hl. simpl in Hl.
  rewrite <- Hl, divide_by_replicate. split.
  - by rewrite length_fmap.
  - destruct (Forall_lookup_1 _ _ _ _ Hpeaks Hrow) as (p & Hp & Hpos).
    rewrite Hmax in Hp. injection Hp as ->. by apply amax_scaled.
Qed.

Lemma normalized_single_row (width : nat) (rm : list (list Q)) :
  has_shape 1 width rm →
  Forall (λ row, ∃ p, np.amax row = Ok p ∧ (0 < p)%Q) rm →
  ∃ m rm',
    np.amax (concat rm) = Ok m ∧
    np.true_divide rm ((λ _, replicate width m) <$> rm) = Ok rm' ∧
    length rm' = 1 ∧
    ∀ u row', rm' !! u = Some row' →
      length row' = width ∧ ∃ q, np.amax row' = Ok q ∧ (q == 1)%Q.
Proof.
  intros [Hrows Hcols] Hpeaks.
  destruct rm as [|row [|row2 rest]]; simpl in Hrows; [lia| |lia].
  apply (proj1 (Forall_singleton _ _)) in Hpeaks as (p & Hp & Hpos).
  apply (proj1 (Forall_singleton _ _)) in Hcols. simpl in Hcols.
  exists p. simpl. rewrite app_nil_r.
  rewrite true_divide_Ok by (simpl; by rewrite length_replicate, Hcols).
  eexists. split; [done|]. split; [done|]. split; [done|].
  intros [|u] row'; simpl; [|done]. intros [= <-].
  rewrite <- Hcols, divide_by_replicate. split.
  - by rewrite length_fmap.
  - by apply amax_scaled.
Qed.

(** What [normalize] assigns to [out._ratemap], given the curve that
    both [self] and [out] stand for. *)
Lemma normalize_assignment c :
  1 ≤ n_units c →
  has_shape (n_units c) (Z.to_nat (n_bins c)) (_ratemap c) →
  Forall (λ row, ∃ p, np.amax row = Ok p ∧ (0 < p)%Q) (_ratemap c) →
  ∃ rm',
    length rm' = n_units c ∧
    (∀ u row', rm' !! u = Some row' →
       length row' = Z.to_nat (n_bins c) ∧
       ∃ q, np.amax row' = Ok q ∧ (q == 1)%Q) ∧
    ∀ h self out (B : Type) (k : unit → py.M B),
      view h self = Some c → view h out = Some c →
      (n_units ← n_units_at self;
       (if decide (1 < n_units)
        then
          out_ratemap ← ratemap_at out;
          per_unit_max ← py.lift (map_result np.amax out_ratemap);
          self_ratemap ← ratemap_at self;
          width ← n_bins_at out;
          ratemap ← py.lift (np.true_divide self_ratemap
                               (replicate (Z.to_nat width) <$> per_unit_max));
          py.set_ratemap out ratemap
        else
          out_ratemap ← ratemap_at out;
          per_unit_max ← py.lift (np.amax (concat out_ratemap));
          self_ratemap ← ratemap_at self;
          width ← n_bins_at out;
          ratemap ← py.lift (np.true_divide self_ratemap
                               ((λ _, replicate (Z.to_nat width) per_unit_max)
                                  <$> self_ratemap));
          py.set_ratemap out ratemap) ≫= k) h
      = (py.set_ratemap out rm' ≫= k) h.
Proof.
  intros Hunits Hshape Hpeaks.
  destruct (decide (1 < n_units c)) as [Hmany|Hone].
  - destruct (normalized_rows _ _ _ Hshape Hpeaks)
      as (maxes & rm' & Hmax & Hdiv & Hlen & Hrows).
    exists rm'. split_and!; [done..|]. intros h self out B k Hself Hout.
    rewrite (bind_run _ _ _ _ _ (n_units_at_run _ _ _ Hself)).
    rewrite decide_True by done.
    unfold mbind at 1. unfold py.M_bind at 1.
    rewrite (bind_run _ _ _ _ _ (ratemap_at_run _ _ _ Hout)).
    rewrite (bind_run (py.lift _) _ h maxes h) by (by unfold py.lift; rewrite Hmax).
    rewrite (bind_run _ _ _ _ _ (ratemap_at_run _ _ _ Hself)).
    rewrite (bind_run _ _ _ _ _ (n_bins_at_run _ _ _ Hout)).
    rewrite (bind_run (py.lift _) _ h rm' h) by (by unfold py.lift; rewrite Hdiv).
    done.
  - assert (Hn : n_units c = 1) by lia. rewrite Hn in Hshape.
    destruct (normalized_single_row _ _ Hshape Hpeaks)
      as (m & rm' & Hmax & Hdiv & Hlen & Hrows).
    exists rm'. split_and!; [lia|done|]. intros h self out B k Hself Hout.
    rewrite (bind_run _ _ _ _ _ (n_units_at_run _ _ _ Hself)).
    rewrite decide_False by done.
    unfold mbind at 1. unfold py.M_bind at 1.
    rewrite (bind_run _ _ _ _ _ (ratemap_at_run _ _ _ Hout)).
    rewrite (bind_run (py.lift _) _ h m h) by (by unfold py.lift; rewrite Hmax).
    rewrite (bind_run _ _ _ _ _ (ratemap_at_run _ _ _ Hself)).
    rewrite (bind_run _ _ _ _ _ (n_bins_at_run _ _ _ Hout)).
    rewrite (bind_run (py.lift _) _ h rm' h) by (by unfold py.lift; rewrite Hdiv).
    done.
Qed.

(** C6: on a curve with at least one unit whose rows all have a
    positive peak, [normalize()] returns an object in whose ratemap the
    maximum of every row is exactly 1, the other attributes being those
    of the original.  With [inplace=False] the returned object is a new
    one and the original, like every other cell of the store, is left
    as it was; with [inplace=True] the returned object is the original
    itself, with the normalised ratemap. *)
Theorem normalize_rows_peak_at_one
    (h : gmap addr cell) (self : addr) (c : TuningCurve1D) :
  view h self = Some c →
  1 ≤ n_units c →
  has_shape (n_units c) (Z.to_nat (n_bins c)) (_ratemap c) →
  Forall (λ row, ∃ p, np.amax row = Ok p ∧ (0 < p)%Q) (_ratemap c) →
  ∃ rm',
    length rm' = n_units c ∧
    (∀ u row', rm' !! u = Some row' →
       length row' = Z.to_nat (n_bins c) ∧
       ∃ q, np.amax row' = Ok q ∧ (q == 1)%Q) ∧
    (∃ out h',
       normalize self false h = (Ok out, h') ∧
       h !! out = None ∧
       view h' out = Some (set_ratemap c rm') ∧
       view h' self = Some c ∧
       h ⊆ h') ∧
    (∃ h',
       normalize self true h = (Ok self, h') ∧
       view h' self = Some (set_ratemap c rm') ∧
       ∀ a x, a ≠ self → h !! a = Some x → h' !! a = Some x).
Proof.
  intros Hself Hunits Hshape Hpeaks.
  destruct (deepcopy_run _ _ _ Hself)
    as (out & h1 & d & Hcopy & Hsub & Hout & Hd & Hfresh & _).
  pose proof (view_weaken _ _ _ _ Hsub Hself) as Hself1.
  destruct (normalize_assignment _ Hunits Hshape Hpeaks)
    as (rm' & Hlen & Hrows & Hrun).
  exists rm'. split_and!; [done..| |].
  - destruct (set_ratemap_run _ _ _ rm' Hout) as (h2 & Hset & Hview & Hcells & Hviews).
    exists out, h2. unfold normalize.
    rewrite (bind_run _ _ _ _ _ Hcopy), (Hrun _ _ _ _ _ Hself1 Hout),
      (bind_run _ _ _ _ _ Hset).
    assert (Hne : self ≠ out).
    { intros ->. apply view_Some in Hself as (d' & Hd' & _). congruence. }
    split_and!; [done..|by apply Hviews|].
    apply map_subseteq_spec. intros a x Ha. apply Hcells.
    + intros ->. congruence.
    + by eapply lookup_weaken.
  - destruct (set_ratemap_run _ _ _ rm' Hself) as (h2 & Hset & Hview & Hcells & _).
    exists h2. unfold normalize.
    rewrite (bind_run (mret self) _ h self h) by done.
    rewrite (Hrun _ _ _ _ _ Hself Hself), (bind_run _ _ _ _ _ Hset).
    done.
Qed.

(** C6, at a concrete input: three units with peaks 4, 2 and 5. *)
Lemma normalize_rows_peak_at_one_witness :
  view example_store example_object = Some example_curve ∧
  1 ≤ n_units example_curve ∧
  has_shape (n_units example_curve) (Z.to_nat (n_bins example_curve))
            (_ratemap example_curve) ∧
  Forall (λ row, ∃ p, np.amax row = Ok p ∧ (0 < p)%Q) (_ratemap example_curve) ∧
  ∃ rm' out h',
    normalize example_object false example_store = (Ok out, h') ∧
    view h' out = Some (set_ratemap example_curve rm') ∧
    view h' example_object = Some example_curve ∧
    ∀ u row', rm' !! u = Some row' →
      length row' = Z.to_nat (n_bins example_curve) ∧
      ∃ q, np.amax row' = Ok q ∧ (q == 1)%Q.
Proof.
  assert (Hview : view example_store example_object = Some example_curve)
    by (by vm_compute).
  assert (Hunits : 1 ≤ n_units example_curve) by (vm_compute; lia).
  assert (Hshape : has_shape (n_units example_curve)
                     (Z.to_nat (n_bins example_curve)) (_ratemap example_curve)).
  { split; [reflexivity|]. by repeat constructor. }
  assert (Hpeaks : Forall (λ row, ∃ p, np.amax row = Ok p ∧ (0 < p)%Q)
                          (_ratemap example_curve)).
  { repeat constructor; eexists; (split; [reflexivity|reflexivity]). }
  split; [exact Hview|]. split; [exact Hunits|].
  split; [exact Hshape|]. split; [exact Hpeaks|].
  destruct (normalize_rows_peak_at_one example_store example_object
              example_curve Hview Hunits Hshape Hpeaks)
    as (rm' & _ & Hrows & (out & h' & Hrun & _ & Hout & Hself & _) & _).
  exists rm', out, h'.
  split_and!; [exact Hrun | exact Hout | exact Hself | exact Hrows].
Defined.

(** A curve without units has no peak to divide by: [normalize] raises. *)
Lemma normalize_without_units_raises h self c inplace :
  view h self = Some c → _unit_ids c = [] → _ratemap c = [] →
  ∃ h', normalize self inplace h
        = (Raise (ValueError "zero-size array to reduction operation maximum"),
           h').
Proof.
  intros Hself Hids Hrm.
  assert (Hbody : ∀ h1 out, view h1 self = Some c → view h1 out = Some c →
    ∃ h', (n_units ← n_units_at self;
       (if decide (1 < n_units)
        then
          out_ratemap ← ratemap_at out;
          per_unit_max ← py.lift (map_result np.amax out_ratemap);
          self_ratemap ← ratemap_at self;
          width ← n_bins_at out;
          ratemap ← py.lift (np.true_divide self_ratemap
                               (replicate (Z.to_nat width) <$> per_unit_max));
          py.set_ratemap out ratemap
        else
          out_ratemap ← ratemap_at out;
          per_unit_max ← py.lift (np.amax (concat out_ratemap));
          self_ratemap ← ratemap_at self;
          width ← n_bins_at out;
          ratemap ← py.lift (np.true_divide self_ratemap
                               ((λ _, replicate (Z.to_nat width) per_unit_max)
                                  <$> self_ratemap));
          py.set_ratemap out ratemap);; mret out) h1
      = (Raise (ValueError "zero-size array to reduction operation maximum"),
         h')).
  { intros h1 out H1 H2. exists h1.
    rewrite (bind_run _ _ _ _ _ (n_units_at_run _ _ _ H1)).
    unfold n_units. rewrite Hids. simpl length.
    rewrite decide_False by lia.
    unfold mbind at 1. unfold py.M_bind at 1.
    rewrite (bind_run _ _ _ _ _ (ratemap_at_run _ _ _ H2)).
    rewrite Hrm. done. }
  unfold normalize. destruct inplace.
  - rewrite (bind_run (mret self) _ h self h) by done. by apply Hbody.
  - destruct (deepcopy_run _ _ _ Hself)
      as (out & h1 & d & Hcopy & Hsub & Hout & _).
    rewrite (bind_run _ _ _ _ _ Hcopy). apply Hbody; [|done].
    by eapply view_weaken.
Qed.

(** *** The reordering loop on the store *)

Lemma with_contents_of c old : with_contents c (contents_of c old) = c.
Proof. by destruct c. Qed.

(** One iteration on the store does to the cells of [out] what
    [contents_step] does to their contents, and touches no other cell. *)
Lemma reorder_step_run h out d c old oi ni st' :
  h !! out = Some (Instance d) →
  view h out = Some c →
  contents_step (contents_of c old) (oi, ni) = Ok st' →
  ∃ h', reorder_step out old (oi, ni) h = (Ok (rs_oldorder st'), h') ∧
        h' !! out = Some (Instance d) ∧
        view h' out = Some (with_contents c st') ∧
        ∀ a, outside d a → h' !! a = h !! a.
Proof.
  intros Hd Hview Hstep.
  apply view_Some in Hview
    as (d' & Hd' & Hrm & Hids & Hlab & Hb & Ho & Ht & Hl).
  assert (d' = d) as -> by congruence.
  unfold contents_step in Hstep. simpl in Hstep.
  destruct (list_index old ni) as [frm|] eqn:Hfrm; [|done]. simpl in Hstep.
  destruct (swap_items (_ratemap c) frm oi) as [rm'|] eqn:Hrm'; [|done].
  simpl in Hstep.
  destruct (swap_items (_unit_ids c) frm oi) as [ids'|] eqn:Hids'; [|done].
  simpl in Hstep.
  destruct (swap_items (_unit_labels c) frm oi) as [lab'|] eqn:Hlab'; [|done].
  simpl in Hstep.
  destruct (swap_items old frm oi) as [old'|] eqn:Hold'; [|done].
  simpl in Hstep. injection Hstep as <-. simpl.
  assert (Hne1 : out ≠ at_ratemap d) by (intros E; rewrite <- E in Hrm; congruence).
  assert (Hne2 : out ≠ at_unit_ids d) by (intros E; rewrite <- E in Hids; congruence).
  assert (Hne3 : out ≠ at_unit_labels d) by (intros E; rewrite <- E in Hlab; congruence).
  assert (Hne4 : at_ratemap d ≠ at_unit_ids d) by (intros E; rewrite E in Hrm; congruence).
  assert (Hne5 : at_ratemap d ≠ at_unit_labels d) by (intros E; rewrite E in Hrm; congruence).
  assert (Hne6 : at_unit_ids d ≠ at_unit_labels d) by (intros E; rewrite E in Hids; congruence).
  set (h1 := <[at_ratemap d := NdArray rm']> h).
  set (h2 := <[at_unit_ids d := IntList ids']> h1).
  set (h3 := <[at_unit_labels d := StrList lab']> h2).
  exists h3. split_and!.
  - unfold reorder_step. simpl.
    rewrite (bind_run (py.lift _) _ h frm h) by (by unfold py.lift; rewrite Hfrm).
    rewrite (bind_run _ _ _ _ _ (instance_run _ _ _ Hd)).
    assert (Hs1 : swap_rows (at_ratemap d) frm oi h = (Ok (), h1)).
    { unfold swap_rows.
      rewrite (bind_run _ _ _ _ _ (ndarray_run _ _ _ Hrm)).
      rewrite (bind_run (py.lift _) _ h rm' h) by (by unfold py.lift; rewrite Hrm').
      done. }
    rewrite (bind_run _ _ _ _ _ Hs1).
    assert (Hd1 : h1 !! out = Some (Instance d)).
    { unfold h1. by rewrite lookup_insert_ne. }
    rewrite (bind_run _ _ _ _ _ (instance_run _ _ _ Hd1)).
    assert (Hs2 : swap_int_items (at_unit_ids d) frm oi h1 = (Ok (), h2)).
    { unfold swap_int_items.
      assert (Hids1 : h1 !! at_unit_ids d = Some (IntList (_unit_ids c))).
      { unfold h1. by rewrite lookup_insert_ne. }
      rewrite (bind_run _ _ _ _ _ (int_list_run _ _ _ Hids1)).
      rewrite (bind_run (py.lift _) _ h1 ids' h1) by (by unfold py.lift; rewrite Hids').
      done. }
    rewrite (bind_run _ _ _ _ _ Hs2).
    assert (Hd2 : h2 !! out = Some (Instance d)).
    { unfold h2. by rewrite lookup_insert_ne. }
    rewrite (bind_run _ _ _ _ _ (instance_run _ _ _ Hd2)).
    assert (Hs3 : swap_str_items (at_unit_labels d) frm oi h2 = (Ok (), h3)).
    { unfold swap_str_items.
      assert (Hlab2 : h2 !! at_unit_labels d = Some (StrList (_unit_labels c))).
      { unfold h2, h1. by rewrite !lookup_insert_ne. }
      rewrite (bind_run _ _ _ _ _ (str_list_run _ _ _ Hlab2)).
      rewrite (bind_run (py.lift _) _ h2 lab' h2) by (by unfold py.lift; rewrite Hlab').
      done. }
    rewrite (bind_run _ _ _ _ _ Hs3).
    unfold py.lift. by rewrite Hold'.
  - unfold h3, h2, h1. by rewrite !lookup_insert_ne.
  - apply view_Some. exists d. simpl. unfold h3, h2, h1. split_and!; try done.
    + by rewrite !lookup_insert_ne.
    + rewrite !lookup_insert_ne by done. by rewrite lookup_insert_eq.
    + rewrite lookup_insert_ne by done. by rewrite lookup_insert_eq.
    + by rewrite lookup_insert_eq.
  - intros a (Ha1 & Ha2 & Ha3). unfold h3, h2, h1.
    by rewrite !lookup_insert_ne.
Qed.

Lemma contents_of_with_contents c st :
  contents_of (with_contents c st) (rs_oldorder st) = st.
Proof. by destruct st. Qed.

Lemma with_contents_twice c st st' :
  with_contents (with_contents c st) st' = with_contents c st'.
Proof. done. Qed.

Lemma reorder_for_each_run out d items :
  ∀ h c old st',
    h !! out = Some (Instance d) →
    view h out = Some c →
    for_each contents_step (contents_of c old) items = Ok st' →
    ∃ h', py.for_each (reorder_step out) old items h
          = (Ok (rs_oldorder st'), h') ∧
          h' !! out = Some (Instance d) ∧
          view h' out = Some (with_contents c st') ∧
          ∀ a, outside d a → h' !! a = h !! a.
Proof.
  induction items as [|[oi ni] items IH]; intros h c old st' Hd Hview Hloop.
  - simpl in Hloop. injection Hloop as <-. exists h.
    by rewrite with_contents_of.
  - simpl in Hloop.
    destruct (contents_step (contents_of c old) (oi, ni)) as [st1|] eqn:Hstep;
      [|done].
    simpl in Hloop.
    destruct (reorder_step_run _ _ _ _ _ _ _ _ Hd Hview Hstep)
      as (h1 & Hrun1 & Hd1 & Hview1 & Hframe1).
    rewrite <- (contents_of_with_contents c st1) in Hloop.
    destruct (IH _ _ _ _ Hd1 Hview1 Hloop) as (h' & Hrun & Hd' & Hview' & Hframe).
    exists h'. split_and!; [|done|done|].
    + simpl. by rewrite (bind_run _ _ _ _ _ Hrun1).
    + intros a Ha. by rewrite Hframe, Hframe1.
Qed.

(** The loop on the contents of a curve, for a permutation of the unit
    positions: it ends, with rows, ids and labels read in the new
    order. *)
Lemma reorder_contents (c : TuningCurve1D) (neworder : list Z) :
  length (_unit_labels c) = n_units c →
  length (_ratemap c) = n_units c →
  neworder ≡ₚ Z.of_nat <$> seq 0 (n_units c) →
  ∃ st',
    for_each contents_step
      (contents_of c (Z.of_nat <$> seq 0 (length neworder)))
      (enumerate neworder) = Ok st' ∧
    picked (_ratemap c) neworder (rs_ratemap st') ∧
    picked (_unit_ids c) neworder (rs_unit_ids st') ∧
    picked (_unit_labels c) neworder (rs_unit_labels st').
Proof.
  intros Hlab Hrm Hperm. unfold n_units in *.
  assert (Hn : length neworder = length (_unit_ids c)).
  { by rewrite Hperm, length_fmap, length_seq. }
  assert (Hnd : NoDup neworder).
  { rewrite Hperm. apply (NoDup_fmap_2 _), NoDup_seq. }
  set (st0 := contents_of c (Z.of_nat <$> seq 0 (length neworder))).
  assert (Hinv0 : reorder_invariant c neworder 0 st0).
  { split; simpl.
    - intros x Hx. by rewrite Hn, <- Hperm.
    - done.
    - by rewrite length_fmap, length_seq.
    - rewrite Hn, <- Hrm. apply picked_identity.
    - rewrite Hn. apply picked_identity.
    - rewrite Hn, <- Hlab. apply picked_identity. }
  destruct (reorder_loop_invariant c neworder Hnd neworder 0 st0)
    as (st' & Hloop & [Hmem Hpre Hlen Hrm' Hids' Hlab']); [done..|].
  rewrite !take_ge in Hpre by lia. rewrite Hpre in *.
  exists st'. done.
Qed.

(** The loop on an object: its cells end with the contents that
    [reorder_contents] describes. *)
Lemma reorder_loop_run h out d c neworder st' :
  h !! out = Some (Instance d) →
  view h out = Some c →
  for_each contents_step
    (contents_of c (Z.of_nat <$> seq 0 (length neworder)))
    (enumerate neworder) = Ok st' →
  ∃ h', reorder_loop out neworder h = (Ok (), h') ∧
        h' !! out = Some (Instance d) ∧
        view h' out = Some (with_contents c st') ∧
        ∀ a, outside d a → h' !! a = h !! a.
Proof.
  intros Hd Hview Hloop.
  destruct (reorder_for_each_run _ _ _ _ _ _ _ Hd Hview Hloop)
    as (h' & Hrun & Hd' & Hview' & Hframe).
  exists h'. split_and!; [|done..].
  unfold reorder_loop. by rewrite (bind_run _ _ _ _ _ Hrun).
Qed.

(** The loop run on a deep copy of [self]: [self], like every cell
    that was there before, is left as it was. *)
Lemma reorder_into_copy h self c neworder st' :
  view h self = Some c →
  for_each contents_step
    (contents_of c (Z.of_nat <$> seq 0 (length neworder)))
    (enumerate neworder) = Ok st' →
  ∃ out h1 h2,
    py.deepcopy self h = (Ok out, h1) ∧
    view h1 self = Some c ∧
    reorder_loop out neworder h1 = (Ok (), h2) ∧
    h !! out = None ∧
    view h2 out = Some (with_contents c st') ∧
    view h2 self = Some c ∧
    h ⊆ h2.
Proof.
  intros Hself Hloop.
  destruct (deepcopy_run _ _ _ Hself)
    as (out & h1 & d & Hcopy & Hsub & Hout & Hd & Hfresh & Hf1 & Hf2 & Hf3).
  destruct (reorder_loop_run _ _ _ _ _ _ Hd Hout Hloop)
    as (h2 & Hrun & Hd2 & Hview2 & Hframe).
  assert (Hsub2 : h ⊆ h2).
  { apply map_subseteq_spec. intros a x Ha. rewrite Hframe.
    - by eapply lookup_weaken.
    - split_and!; intros ->; congruence. }
  exists out, h1, h2. split_and!; try done; by eapply view_weaken.
Qed.

(** The loop run on [self] itself. *)
Lemma reorder_in_place h self c neworder st' :
  view h self = Some c →
  for_each contents_step
    (contents_of c (Z.of_nat <$> seq 0 (length neworder)))
    (enumerate neworder) = Ok st' →
  ∃ h', reorder_loop self neworder h = (Ok (), h') ∧
        view h' self = Some (with_contents c st').
Proof.
  intros Hself Hloop.
  pose proof Hself as Hcells. apply view_Some in Hcells as (d & Hd & _).
  destruct (reorder_loop_run _ _ _ _ _ _ Hd Hself Hloop)
    as (h' & Hrun & _ & Hview & _).
  by exists h'.
Qed.

(** C7: reordering by a permutation of the unit positions gives the
    unit ids, the unit labels and the ratemap rows of the original, all
    three read in the order given by the permutation, every other
    attribute being kept.  With [inplace=False] that is a new object,
    the original and every other cell of the store staying as they
    were, and reordering the new object by the inverse permutation
    gives an object that stands for the original curve; with
    [inplace=True] the object itself is reordered, and reordering it
    again by the inverse permutation restores it.  Reordering by ids to
    the permuted id list is the same reordering. *)
Theorem reorder_lockstep_and_round_trip
    (argsort : list nat → list nat) (h : gmap addr cell) (self : addr)
    (c : TuningCurve1D) (neworder inverse : list Z) :
  view h self = Some c →
  length (_unit_labels c) = n_units c →
  length (_ratemap c) = n_units c →
  neworder ≡ₚ Z.of_nat <$> seq 0 (n_units c) →
  inverse ≡ₚ Z.of_nat <$> seq 0 (n_units c) →
  take_positions neworder (Z.to_nat <$> inverse)
  = Ok (Z.of_nat <$> seq 0 (n_units c)) →
  ∃ c',
    take_positions (_unit_ids c) (Z.to_nat <$> neworder)
    = Ok (_unit_ids c') ∧
    take_positions (_unit_labels c) (Z.to_nat <$> neworder)
    = Ok (_unit_labels c') ∧
    take_positions (_ratemap c) (Z.to_nat <$> neworder)
    = Ok (_ratemap c') ∧
    _bins c' = _bins c ∧ _occupancy c' = _occupancy c ∧
    _unit_tags c' = _unit_tags c ∧ _label c' = _label c ∧
    (∃ out h1,
       _reorder_units_by_idx argsort self (Some neworder) false h
       = (Ok out, h1) ∧
       h !! out = None ∧ view h1 out = Some c' ∧ view h1 self = Some c ∧
       h ⊆ h1 ∧
       ∃ back h2,
         _reorder_units_by_idx argsort out (Some inverse) false h1
         = (Ok back, h2) ∧
         view h2 back = Some c ∧ view h2 out = Some c' ∧ h1 ⊆ h2) ∧
    (∃ h1,
       _reorder_units_by_idx argsort self (Some neworder) true h
       = (Ok self, h1) ∧
       view h1 self = Some c' ∧
       ∃ h2,
         _reorder_units_by_idx argsort self (Some inverse) true h1
         = (Ok self, h2) ∧
         view h2 self = Some c) ∧
    (NoDup (_unit_ids c) →
     ∃ out h1,
       reorder_units_by_ids argsort self (Some (_unit_ids c')) false h
       = (Ok out, h1) ∧
       h !! out = None ∧ view h1 out = Some c' ∧ view h1 self = Some c ∧
       h ⊆ h1).
Proof.
  intros Hself Hlab Hrm Hperm Hinv Hcomp.
  destruct (reorder_contents c neworder Hlab Hrm Hperm)
    as (st1 & Hloop1 & Hrm1 & Hids1 & Hlab1).
  set (c' := with_contents c st1).
  assert (Hn : n_units c' = n_units c).
  { unfold n_units. simpl. rewrite <- (Forall2_length _ _ _ Hids1).
    by rewrite Hperm, length_fmap, length_seq. }
  destruct (reorder_contents c' inverse)
    as (st2 & Hloop2 & Hrm2 & Hids2 & Hlab2).
  { rewrite Hn, <- Hlab. simpl. rewrite <- (Forall2_length _ _ _ Hlab1).
    by rewrite Hperm, length_fmap, length_seq, Hlab. }
  { rewrite Hn, <- Hrm. simpl. rewrite <- (Forall2_length _ _ _ Hrm1).
    by rewrite Hperm, length_fmap, length_seq, Hrm. }
  { by rewrite Hn. }
  apply picked_take_positions in Hcomp.
  assert (Hback : with_contents c' st2 = c).
  { destruct c as [b rm o ids lab t l]. unfold with_contents, c'. simpl in *.
    unfold n_units in *. simpl in *. f_equal.
    - eapply picked_inverse; [exact Hrm1|exact Hrm2|]. by rewrite Hrm.
    - eapply picked_inverse; [exact Hids1|exact Hids2|done].
    - eapply picked_inverse; [exact Hlab1|exact Hlab2|]. by rewrite Hlab. }
  exists c'. split_and!; try done.
  - by apply picked_take_positions.
  - by apply picked_take_positions.
  - by apply picked_take_positions.
  - destruct (reorder_into_copy _ _ _ _ _ Hself Hloop1)
      as (out & h1 & h2 & Hcopy & _ & Hrun & Hfresh & Hout & Hself2 & Hsub).
    exists out, h2. split_and!; try done.
    { unfold _reorder_units_by_idx.
      rewrite (bind_run (mret neworder) _ h neworder h) by done.
      rewrite (bind_run _ _ _ _ _ Hcopy), (bind_run _ _ _ _ _ Hrun). done. }
    destruct (reorder_into_copy _ _ _ _ _ Hout Hloop2)
      as (back & h3 & h4 & Hcopy' & _ & Hrun' & _ & Hback' & Hout4 & Hsub').
    exists back, h4. split_and!; try done.
    + unfold _reorder_units_by_idx.
      rewrite (bind_run (mret inverse) _ h2 inverse h2) by done.
      rewrite (bind_run _ _ _ _ _ Hcopy'), (bind_run _ _ _ _ _ Hrun'). done.
    + by rewrite <- Hback.
  - destruct (reorder_in_place _ _ _ _ _ Hself Hloop1) as (h1 & Hrun & Hview).
    exists h1. split_and!; try done.
    { unfold _reorder_units_by_idx.
      rewrite (bind_run (mret neworder) _ h neworder h) by done.
      rewrite (bind_run (mret self) _ h self h) by done.
      rewrite (bind_run _ _ _ _ _ Hrun). done. }
    destruct (reorder_in_place _ _ _ _ _ Hview Hloop2) as (h2 & Hrun' & Hview').
    exists h2. split.
    + unfold _reorder_units_by_idx.
      rewrite (bind_run (mret inverse) _ h1 inverse h1) by done.
      rewrite (bind_run (mret self) _ h1 self h1) by done.
      rewrite (bind_run _ _ _ _ _ Hrun'). done.
    + by rewrite <- Hback.
  - intros Hnd.
    destruct (reorder_into_copy _ _ _ _ _ Hself Hloop1)
      as (out & h1 & h2 & Hcopy & Hself1 & Hrun & Hfresh & Hout & Hself2 & Hsub).
    exists out, h2. split_and!; try done.
    assert (Hpos : map_result (λ x, i ← list_index (_unit_ids c) x;
                                    Ok (Z.of_nat i)) (_unit_ids c')
                   = Ok neworder).
    { apply map_result_Ok, Forall2_same_length_lookup.
      apply Forall2_same_length_lookup in Hids1 as [Hl1 Hids1]. split; [done|].
      intros i x o Hx Ho'. specialize (Hids1 i o x Ho' Hx).
      rewrite (list_index_NoDup _ _ _ Hnd Hids1). simpl. f_equal.
      assert (o ∈ Z.of_nat <$> seq 0 (n_units c)) as Hin.
      { rewrite <- Hperm. by eapply list_elem_of_lookup_2. }
      apply list_elem_of_fmap in Hin as (j & -> & _). lia. }
    unfold reorder_units_by_ids.
    rewrite (bind_run (mret (_unit_ids c')) _ h (_unit_ids c') h) by done.
    rewrite (bind_run _ _ _ _ _ Hcopy).
    rewrite (bind_run _ _ _ _ _ (unit_ids_at_run _ _ _ Hself1)).
    rewrite (bind_run (py.lift _) _ h1 neworder h1)
      by (by unfold py.lift; rewrite Hpos).
    rewrite (bind_run _ _ _ _ _ Hrun). done.
Qed.

(** C7, at a concrete input: three units, the cyclic order 2, 0, 1 and
    its inverse 1, 2, 0. *)
Lemma reorder_lockstep_and_round_trip_witness :
  view example_store example_object = Some example_curve ∧
  length (_unit_labels example_curve) = n_units example_curve ∧
  length (_ratemap example_curve) = n_units example_curve ∧
  [2; 0; 1]%Z ≡ₚ Z.of_nat <$> seq 0 (n_units example_curve) ∧
  [1; 2; 0]%Z ≡ₚ Z.of_nat <$> seq 0 (n_units example_curve) ∧
  take_positions [2; 0; 1]%Z (Z.to_nat <$> [1; 2; 0]%Z)
  = Ok (Z.of_nat <$> seq 0 (n_units example_curve)) ∧
  ∃ c' out h1 back h2,
    _unit_ids c' = [30; 10; 20]%Z ∧
    _reorder_units_by_idx (λ l, l) example_object (Some [2; 0; 1]%Z) false
      example_store = (Ok out, h1) ∧
    view h1 out = Some c' ∧
    view h1 example_object = Some example_curve ∧
    _reorder_units_by_idx (λ l, l) out (Some [1; 2; 0]%Z) false h1
    = (Ok back, h2) ∧
    view h2 back = Some example_curve.
Proof.
  assert (Hview : view example_store example_object = Some example_curve)
    by (by vm_compute).
  assert (Hp : [2; 0; 1]%Z ≡ₚ Z.of_nat <$> seq 0 (n_units example_curve)).
  { apply (Permutation_cons_append [0; 1]%Z 2%Z). }
  assert (Hq : [1; 2; 0]%Z ≡ₚ Z.of_nat <$> seq 0 (n_units example_curve)).
  { symmetry. apply (Permutation_cons_append [1; 2]%Z 0%Z). }
  split; [exact Hview|]. split; [reflexivity|]. split; [reflexivity|].
  split; [exact Hp|]. split; [exact Hq|]. split; [reflexivity|].
  destruct (reorder_lockstep_and_round_trip (λ l, l) example_store
              example_object example_curve [2; 0; 1]%Z [1; 2; 0]%Z
              Hview eq_refl eq_refl Hp Hq eq_refl)
    as (c' & Hids & _ & _ & _ & _ & _ & _ &
        (out & h1 & Hrun & _ & Hout & Hself & _ &
         back & h2 & Hrun' & Hback & _) & _).
  exists c', out, h1, back, h2.
  split_and!; [|exact Hrun|exact Hout|exact Hself|exact Hrun'|exact Hback].
  vm_compute in Hids. by injection Hids.
Defined.

(** * Further properties of the code *)

(** ** Construction: what the keyword arguments allow *)

(** X1: a construction that is given a [transform_func] never uses it:
    [self.trans_func] is bound only when no transform is passed, so
    with the bin edges otherwise well specified the first step of the
    pipeline raises [AttributeError], for the plain and for the
    directional curve alike. *)
Theorem transform_func_is_never_used
    (exp : Q → Q) (bst bst_l2r bst_r2l : BinnedSpikeTrainArray)
    (extern : AnalogSignalArray) (kw : kwargs) (dk : directional_kwargs)
    (f : AnalogSignalArray → list Q → list Q) (n : nat) (lo hi : Q) :
  kw_empty kw = false →
  kw_n_extern kw = Some n →
  kw_extmin kw = Some lo →
  kw_extmax kw = Some hi →
  kw_transform_func kw = Some f →
  dkw dk = kw →
  __init__ exp bst extern kw
  = Raise (AttributeError "object has no attribute 'trans_func'") ∧
  Directional__init__ exp bst_l2r bst_r2l bst extern dk
  = Raise (AttributeError "object has no attribute 'trans_func'").
Proof.
  intros Hempty Hn Hlo Hhi Hf Hdk. split.
  - unfold __init__. rewrite Hempty, Hn, Hlo, Hhi, Hf. done.
  - unfold Directional__init__, directional_pass.
    rewrite Hdk, Hempty, Hn, Hlo, Hhi, Hf. done.
Qed.

(** X1, at a concrete input: four bins on [[0, 1]] and a transform
    that doubles the correlate. *)
Lemma transform_func_is_never_used_witness :
  __init__ exp2 example_bst_combined extern_identity example_kwargs_transform
  = Raise (AttributeError "object has no attribute 'trans_func'") ∧
  Directional__init__ exp2 example_bst_l2r example_bst_r2l example_bst_combined
    extern_identity
    {| dkw := example_kwargs_transform; kw_min_peakfiringrate := None;
       kw_max_avgfiringrate := None; kw_unimodal := false |}
  = Raise (AttributeError "object has no attribute 'trans_func'").
Proof.
  exact (transform_func_is_never_used exp2 example_bst_combined example_bst_l2r
           example_bst_r2l extern_identity example_kwargs_transform
           {| dkw := example_kwargs_transform; kw_min_peakfiringrate := None;
              kw_max_avgfiringrate := None; kw_unimodal := false |}
           example_transform 4 0%Q 1%Q eq_refl eq_refl eq_refl eq_refl eq_refl
           eq_refl).
Defined.

(** X2: only bin edges given as [(n_extern, extmin, extmax)] are
    implemented: a construction that leaves one of the three out raises
    [NotImplementedError], whatever the spike trains and the other
    arguments are. *)
Theorem missing_bin_arguments_not_implemented
    (exp : Q → Q) (bst bst_l2r bst_r2l : BinnedSpikeTrainArray)
    (extern : AnalogSignalArray) (kw : kwargs) (dk : directional_kwargs) :
  kw_empty kw = false →
  kw_n_extern kw = None ∨ kw_extmin kw = None ∨ kw_extmax kw = None →
  dkw dk = kw →
  __init__ exp bst extern kw = Raise NotImplementedError ∧
  Directional__init__ exp bst_l2r bst_r2l bst extern dk
  = Raise NotImplementedError.
Proof.
  intros Hempty Hmissing Hdk.
  assert (Hbins : make_bins (kw_n_extern kw) (kw_extmin kw) (kw_extmax kw)
                  = Raise NotImplementedError).
  { unfold make_bins.
    destruct (kw_n_extern kw), (kw_extmin kw), (kw_extmax kw);
      try done; by destruct Hmissing as [?|[?|?]]. }
  split.
  - unfold __init__. by rewrite Hempty, Hbins.
  - unfold Directional__init__. by rewrite Hdk, Hempty, Hbins.
Qed.

(** X2, at a concrete input: no [extmax]. *)
Lemma missing_bin_arguments_not_implemented_witness :
  __init__ exp2 example_bst_combined extern_identity example_kwargs_no_extmax
  = Raise NotImplementedError ∧
  Directional__init__ exp2 example_bst_l2r example_bst_r2l example_bst_combined
    extern_identity
    {| dkw := example_kwargs_no_extmax; kw_min_peakfiringrate := None;
       kw_max_avgfiringrate := None; kw_unimodal := false |}
  = Raise NotImplementedError.
Proof.
  exact (missing_bin_arguments_not_implemented exp2 example_bst_combined
           example_bst_l2r example_bst_r2l extern_identity
           example_kwargs_no_extmax
           {| dkw := example_kwargs_no_extmax; kw_min_peakfiringrate := None;
              kw_max_avgfiringrate := None; kw_unimodal := false |}
           eq_refl (or_intror (or_intror eq_refl)) eq_refl).
Defined.

(** ** The directional curve: unit membership *)

Lemma restrict_units_unimodal ids width min_peak max_avg ratemap :
  ∃ e, restrict_units ids width min_peak max_avg true ratemap = Raise e.
Proof.
  unfold restrict_units.
  destruct (max_axis1 width ratemap) as [peaks|e]; simpl; [|by eexists].
  destruct (index_array ids
              (squeeze_tolist
                 (np.argwhere ((λ p, Qgtb p min_peak) <$> peaks))))
    as [above|e]; simpl; [|by eexists].
  destruct (py_set above) as [keep|e]; simpl; [|by eexists].
  destruct (index_array ids
              (squeeze_tolist
                 (np.argwhere ((λ m, Qltb m max_avg) <$> mean_axis1 ratemap))))
    as [below|e]; simpl; [|by eexists].
  destruct (py_set below) as [keep'|e]; simpl; by eexists.
Qed.

(** X3: the restriction to unimodal cells is not implemented: with
    [unimodal=True] a directional construction never returns a curve,
    whatever the spike trains are; [restrict_units] itself then never
    returns a set of units. *)
Theorem unimodal_construction_never_returns
    (exp : Q → Q) (bst_l2r bst_r2l bst_combined : BinnedSpikeTrainArray)
    (extern : AnalogSignalArray) (kw : directional_kwargs) :
  kw_empty (dkw kw) = false →
  kw_unimodal kw = true →
  (∃ e, Directional__init__ exp bst_l2r bst_r2l bst_combined extern kw
        = Raise e) ∧
  ∀ ids width min_peak max_avg ratemap,
    ∃ e, restrict_units ids width min_peak max_avg true ratemap = Raise e.
Proof.
  intros Hempty Huni. split; [|intros; apply restrict_units_unimodal].
  unfold Directional__init__. rewrite Hempty, Huni.
  destruct (make_bins _ _ _) as [bins|e]; simpl; [|by eexists].
  destruct (directional_pass _ _ _ _ _ bst_l2r) as [[o1 r1]|e]; simpl;
    [|by eexists].
  destruct (directional_pass _ _ _ _ _ bst_r2l) as [[o2 r2]|e]; simpl;
    [|by eexists].
  destruct (directional_pass _ _ _ _ _ bst_combined) as [[o3 r3]|e]; simpl;
    [|by eexists].
  destruct (restrict_units_unimodal (unit_ids bst_combined) (n_bins_of bins)
              (default (3 # 2)%Q (kw_min_peakfiringrate kw))
              (default 10%Q (kw_max_avgfiringrate kw)) r1) as [e He].
  rewrite He. by eexists.
Qed.

(** X3, at a concrete input: the three example spike trains, for which
    the construction without [unimodal] returns a curve. *)
Lemma unimodal_construction_never_returns_witness :
  Directional__init__ exp2 example_bst_l2r example_bst_r2l example_bst_combined
    extern_identity example_kwargs_unimodal
  = Raise NotImplementedError.
Proof.
  destruct (unimodal_construction_never_returns exp2 example_bst_l2r
              example_bst_r2l example_bst_combined extern_identity
              example_kwargs_unimodal eq_refl eq_refl) as [[e He] _].
  rewrite He. vm_compute in He. by injection He as <-.
Defined.

Lemma restrict_units_subset ids width min_peak max_avg unimodal ratemap S id :
  restrict_units ids width min_peak max_avg unimodal ratemap = Ok S →
  id ∈ S → id ∈ ids.
Proof.
  intros HS Hid.
  apply (restrict_units_Ok _ _ _ _ _ _ _ HS) in Hid
    as [(i & row & Hi & _) _].
  by eapply list_elem_of_lookup_2.
Qed.

(** X4: after a directional construction, [unit_ids_l2r] and
    [unit_ids_r2l] hold no id twice, have no id in common, and hold
    unit ids of the combined spike train only; the curve's own unit
    ids, labels and tags are those of the combined spike train. *)
Theorem directional_unit_lists_disjoint
    (exp : Q → Q) (bst_l2r bst_r2l bst_combined : BinnedSpikeTrainArray)
    (extern : AnalogSignalArray) (kw : directional_kwargs)
    (c : DirectionalTuningCurve1D) :
  Directional__init__ exp bst_l2r bst_r2l bst_combined extern kw
  = Ok (Directional c) →
  NoDup (_unit_ids_l2r c) ∧ NoDup (_unit_ids_r2l c) ∧
  (∀ id, id ∈ _unit_ids_l2r c → id ∉ _unit_ids_r2l c) ∧
  (∀ id, id ∈ _unit_ids_l2r c ∨ id ∈ _unit_ids_r2l c →
         id ∈ unit_ids bst_combined) ∧
  _unit_ids (base c) = unit_ids bst_combined ∧
  _unit_labels (base c) = unit_labels bst_combined ∧
  _unit_tags (base c) = unit_tags bst_combined.
Proof.
  unfold Directional__init__.
  destruct (kw_empty (dkw kw)); [done|].
  intros (bins & Hbins & H)%bind_Ok.
  apply bind_Ok in H as ([occ_l rm_l] & Hl & H).
  apply bind_Ok in H as ([occ_r rm_r] & Hr & H).
  apply bind_Ok in H as ([occ_c rm_c] & Hc & H).
  apply bind_Ok in H as (Sl & HSl & H).
  apply bind_Ok in H as (Sr & HSr & H).
  apply bind_Ok in H as (rm1 & Hrm1 & H).
  apply bind_Ok in H as (rm2 & Hrm2 & H).
  injection H as <-. cbn [base _bins _occupancy _ratemap _unit_ids
    _unit_labels _unit_tags _unit_ids_l2r _unit_ids_r2l].
  split_and!; try done.
  - apply NoDup_elements.
  - apply NoDup_elements.
  - intros id. rewrite !elem_of_elements, !elem_of_difference,
      !elem_of_list_to_set, !elem_of_elements, !elem_of_intersection. tauto.
  - intros id. rewrite !elem_of_elements, !elem_of_difference.
    intros [[Hin _]|[Hin _]].
    + eapply restrict_units_subset; [exact HSl|exact Hin].
    + eapply restrict_units_subset; [exact HSr|exact Hin].
Qed.

(** X4, at a concrete input: the three example spike trains. *)
Lemma directional_unit_lists_disjoint_witness :
  ∃ c,
    Directional__init__ exp2 example_bst_l2r example_bst_r2l
      example_bst_combined extern_identity example_directional_kwargs
    = Ok (Directional c) ∧
    NoDup (_unit_ids_l2r c) ∧ NoDup (_unit_ids_r2l c) ∧
    ∀ id, id ∈ _unit_ids_l2r c → id ∉ _unit_ids_r2l c.
Proof.
  eexists. split; [vm_compute; reflexivity|].
  match goal with |- NoDup (_unit_ids_l2r ?c) ∧ _ =>
    destruct (directional_unit_lists_disjoint exp2 example_bst_l2r
                example_bst_r2l example_bst_combined extern_identity
                example_directional_kwargs c) as (H1 & H2 & H3 & _)
  end.
  { vm_compute. reflexivity. }
  split_and!; [exact H1 | exact H2 | exact H3].
Defined.

(** ** Occupancy and ratemap: what is counted *)

Lemma Zsum_diff x c :
  Zsum (np.diff (x :: c)) = (default x (last c) - x)%Z.
Proof.
  revert x. induction c as [|y c IH]; intros x; [simpl; lia|].
  change (np.diff (x :: y :: c)) with ((y - x)%Z :: np.diff (y :: c)).
  simpl Zsum. fold (Zsum (np.diff (y :: c))). rewrite IH.
  destruct c as [|z c]; simpl; [lia|].
  destruct (last (z :: c)) eqn:Hl; simpl; [lia|].
  by apply last_None in Hl.
Qed.

Lemma last_lookup_length {A} (l : list A) : last l = l !! (length l - 1).
Proof.
  induction l as [|x [|y l] IH]; [done..|].
  change (last (x :: y :: l)) with (last (y :: l)). rewrite IH.
  simpl. by rewrite Nat.sub_0_r.
Qed.

(** X5: for non-decreasing bin edges (at least two), the occupancy
    counts add up to the number of correlate samples that lie between
    the first and the last edge, both included: a sample outside the
    edges is counted in no bin, a sample inside in exactly one. *)
Theorem occupancy_counts_samples_within_edges
    (extern : AnalogSignalArray) (bst : BinnedSpikeTrainArray)
    (bins : list Q) (lo hi : Q) :
  np.nondecreasing bins = true →
  2 ≤ length bins →
  first_edge bins = Ok lo →
  last_edge bins = Ok hi →
  ∃ occupancy,
    _compute_occupancy None extern bst bins = Ok occupancy ∧
    length occupancy = length bins - 1 ∧
    Zsum occupancy
    = Z.of_nat (count_within lo hi (_trans_func extern (bin_centers bst))).
Proof.
  intros Hmono Hlen Hlo Hhi.
  set (ext := _trans_func extern (bin_centers bst)).
  exists (np.diff (np.search_sorted_inclusive ext bins)).
  assert (Hocc : _compute_occupancy None extern bst bins
                 = Ok (np.diff (np.search_sorted_inclusive ext bins))).
  { unfold _compute_occupancy. simpl. unfold np.histogram.
    by rewrite Hmono. }
  split; [exact Hocc|].
  split; [by apply (histogram_length ext)|].
  assert (Hlo' : bins !! 0 = Some lo).
  { destruct bins; simpl in *; [done|]. by injection Hlo as ->. }
  assert (Hhi' : bins !! (length bins - 1) = Some hi).
  { unfold last_edge in Hhi. rewrite last_lookup_length in Hhi.
    destruct (bins !! (length bins - 1)); [|done]. by injection Hhi as ->. }
  pose proof (search_sorted_inclusive_lookup ext bins 0 lo Hlo') as H0.
  pose proof (search_sorted_inclusive_lookup ext bins _ hi Hhi') as Hn.
  rewrite bool_decide_false in H0 by lia.
  rewrite bool_decide_true in Hn by lia.
  destruct (np.search_sorted_inclusive ext bins) as [|c0 c] eqn:Hc; [done|].
  assert (Hclen : length (c0 :: c) = length bins).
  { rewrite <- Hc. unfold np.search_sorted_inclusive, np.all_but_last,
      np.last_slice.
    rewrite length_app, !length_fmap, length_take, length_drop. lia. }
  rewrite Zsum_diff. simpl in H0. injection H0 as ->.
  assert (Hlast : last c = Some (Z.of_nat (count (λ x, Qle_bool x hi) ext))).
  { rewrite last_lookup_length.
    replace (length bins - 1) with (S (length c - 1)) in Hn
      by (simpl in Hclen; lia).
    exact Hn. }
  rewrite Hlast. simpl.
  assert (Hle : (lo <= hi)%Q).
  { eapply (nondecreasing_le bins 0 (length bins - 1)); [done|lia|done..]. }
  pose proof (count_between lo hi true ext Hle) as Hb. simpl in Hb.
  rewrite Hb. unfold count_within, in_bin. done.
Qed.

(** X5, at a concrete input: of the five samples 1/10, 3/10, 3/10,
    6/10 and 0, all lie within [[0, 1]]. *)
Lemma occupancy_counts_samples_within_edges_witness :
  np.nondecreasing (np.linspace 0 1 5) = true ∧
  2 ≤ length (np.linspace 0 1 5) ∧
  ∃ lo hi occupancy,
    first_edge (np.linspace 0 1 5) = Ok lo ∧
    last_edge (np.linspace 0 1 5) = Ok hi ∧
    _compute_occupancy None extern_identity example_bst (np.linspace 0 1 5)
    = Ok occupancy ∧
    Zsum occupancy = 5%Z.
Proof.
  assert (Hmono : np.nondecreasing (np.linspace 0 1 5) = true) by reflexivity.
  assert (Hlen : 2 ≤ length (np.linspace 0 1 5)) by (vm_compute; lia).
  split; [exact Hmono|]. split; [exact Hlen|].
  eexists _, _.
  destruct (occupancy_counts_samples_within_edges extern_identity example_bst
              (np.linspace 0 1 5) _ _ Hmono Hlen eq_refl eq_refl)
    as (occ & Hocc & _ & Hsum).
  exists occ. split_and!; [reflexivity|reflexivity|exact Hocc|].
  rewrite Hsum. by vm_compute.
Defined.

Lemma searchsorted_left_lt_iff bins (n : nat) e x :
  np.nondecreasing bins = true → length bins = n + 1 → 1 ≤ n →
  bins !! (n - 1) = Some e →
  np.searchsorted_left bins x < n ↔ (x <= e)%Q.
Proof.
  intros Hmono Hlen Hn He. unfold np.searchsorted_left.
  rewrite <- (take_drop (n - 1) bins), count_app.
  pose proof (count_le_length (λ b, Qltb b x) (take (n - 1) bins)) as Hle.
  rewrite length_take in Hle.
  split.
  - intros Hlt. destruct (Qlt_le_dec e x) as [Hex|]; [|done]. exfalso.
    rewrite (count_all _ (take (n - 1) bins)) in Hlt.
    2:{ apply Forall_lookup_2. intros i b Hb. apply Qltb_true.
        pose proof (lookup_lt_Some _ _ _ Hb) as Hi. rewrite length_take in Hi.
        rewrite lookup_take_lt in Hb by lia.
        pose proof (nondecreasing_le bins i (n - 1) b e Hmono) as Hbe.
        assert (b <= e)%Q by (apply Hbe; [lia|done..]). lra. }
    rewrite length_take in Hlt.
    rewrite (drop_S _ _ _ He) in Hlt. simpl in Hlt.
    rewrite (proj2 (Qltb_true e x) Hex) in Hlt. lia.
  - intros Hxe.
    rewrite (count_none _ (drop (n - 1) bins)); [lia|].
    apply Forall_lookup_2. intros i b Hb. apply Qltb_false.
    rewrite lookup_drop in Hb.
    pose proof (nondecreasing_le bins (n - 1) (n - 1 + i) e b Hmono) as Hbe.
    assert (e <= b)%Q by (apply Hbe; [lia|done..]). lra.
Qed.

(** X6: with non-decreasing bin edges, the range check of
    [_compute_ratemap] rejects every correlate sample beyond the last
    interior edge [bins[n_bins - 1]], that is, every sample inside the
    last bin and not only those beyond [bins[-1]]: one such sample makes
    the ratemap computation and the construction raise, so a ratemap is
    only ever computed from samples at or below that edge. *)
Theorem samples_in_last_bin_are_rejected
    (extern : AnalogSignalArray) (bst : BinnedSpikeTrainArray)
    (bins : list Q) (ids : list Z) (n : nat) (e : Q) :
  np.nondecreasing bins = true →
  length bins = n + 1 →
  1 ≤ n →
  bins !! (n - 1) = Some e →
  let ext := _trans_func extern (bin_centers bst) in
  (Exists (λ x, e < x)%Q ext →
   _compute_ratemap None extern bst bins ids
   = Raise (ValueError "decoded values outside of [extmin, extmax]")) ∧
  (∀ ratemap, _compute_ratemap None extern bst bins ids = Ok ratemap →
              Forall (λ x, x <= e)%Q ext).
Proof.
  intros Hmono Hlen Hn He ext.
  assert (Hnb : n_bins_of bins = Z.of_nat n) by (unfold n_bins_of; lia).
  assert (Hreject : ∀ x, x ∈ ext → (e < x)%Q →
    _compute_ratemap None extern bst bins ids
    = Raise (ValueError "decoded values outside of [extmin, extmax]")).
  { intros x Hx Hex.
    apply (compute_ratemap_range_violation extern bst bins ids x Hmono Hx).
    rewrite Hnb.
    pose proof (searchsorted_left_lt_iff bins n e x Hmono Hlen Hn He) as Hiff.
    destruct (decide (np.searchsorted_left bins x < n)) as [Hlt|]; [|lia].
    apply Hiff in Hlt. lra. }
  split.
  - intros (x & Hx & Hex)%Exists_exists. by apply (Hreject x).
  - intros ratemap Hrm. apply Forall_forall. intros x Hx.
    destruct (Qlt_le_dec e x) as [Hex|]; [|done].
    rewrite (Hreject x Hx Hex) in Hrm. done.
Qed.

(** X6, at a concrete input: four bins on [[0, 1]] and a sample at
    9/10, inside the last bin. *)
Lemma samples_in_last_bin_are_rejected_witness :
  np.nondecreasing (np.linspace 0 1 5) = true ∧
  length (np.linspace 0 1 5) = 4 + 1 ∧
  1 ≤ 4 ∧
  np.linspace 0 1 5 !! (4 - 1) = Some (3 # 4)%Q ∧
  Exists (λ x, 3 # 4 < x)%Q
         (_trans_func extern_identity (bin_centers example_bst_last_bin)) ∧
  _compute_ratemap None extern_identity example_bst_last_bin
    (np.linspace 0 1 5) (unit_ids example_bst_last_bin)
  = Raise (ValueError "decoded values outside of [extmin, extmax]").
Proof.
  assert (Hex : Exists (λ x, 3 # 4 < x)%Q
            (_trans_func extern_identity (bin_centers example_bst_last_bin))).
  { apply Exists_exists. exists (9 # 10)%Q. split; [|reflexivity].
    simpl. apply list_elem_of_lookup. by exists 4. }
  split; [reflexivity|]. split; [reflexivity|]. split; [lia|].
  split; [reflexivity|]. split; [exact Hex|].
  apply (samples_in_last_bin_are_rejected extern_identity example_bst_last_bin
           (np.linspace 0 1 5) (unit_ids example_bst_last_bin) 4 (3 # 4)%Q
           eq_refl eq_refl (le_S _ _ (le_S _ _ (le_S _ _ (le_n 1)))) eq_refl).
  exact Hex.
Defined.

Lemma Qsum_alter_add (row : list Q) j v :
  j < length row → (Qsum (alter (λ x, x + v)%Q j row) == Qsum row + v)%Q.
Proof.
  revert j. induction row as [|x row IH]; intros j Hj; [simpl in Hj; lia|].
  destruct j as [|j]; simpl.
  - rewrite !Qsum_cons. ring.
  - change (Qsum (x :: alter (λ x0, x0 + v)%Q j row)
            == Qsum (x :: row) + v)%Q.
    rewrite !Qsum_cons, IH by (simpl in Hj; lia). ring.
Qed.

Lemma Qsum_fmap_div (l : list Q) (d : Q) :
  (Qsum ((λ x, x / d)%Q <$> l) == Qsum l / d)%Q.
Proof.
  induction l as [|x l IH].
  - unfold Qsum. simpl. unfold Qdiv. ring.
  - rewrite fmap_cons, !Qsum_cons, IH. unfold Qdiv. ring.
Qed.

(** The accumulation loop adds to every row, whatever the columns
    are, the spike counts of the time bins it visits. *)
Lemma accumulate_row_sums bst (n : nat) idx :
  1 ≤ n →
  Forall (λ i, 0 ≤ i < Z.of_nat n)%Z idx →
  ∀ k rm0,
  has_shape (length (data bst)) n rm0 →
  Forall (λ counts : list Q, k + length idx ≤ length counts) (data bst) →
  ∃ rm1,
    for_each (iadd_column bst (Z.of_nat n)) rm0 (zip (seq k (length idx)) idx)
    = Ok rm1 ∧
    has_shape (length (data bst)) n rm1 ∧
    ∀ u counts, data bst !! u = Some counts →
      ∃ row0 row1,
        rm0 !! u = Some row0 ∧ rm1 !! u = Some row1 ∧
        (Qsum row1 == Qsum row0 + Qsum (take (length idx) (drop k counts)))%Q.
Proof.
  intros Hn Hidx. induction Hidx as [|i idx Hi Hidx IH]; intros k rm0 Hshape Hlen.
  - exists rm0. split_and!; [done..|]. intros u counts Hu.
    destruct Hshape as [Hrows Hcols].
    destruct (lookup_lt_is_Some_2 rm0 u) as [row0 Hrow0].
    { rewrite Hrows. by eapply lookup_lt_Some. }
    exists row0, row0. split_and!; [done..|].
    unfold Qsum at 3. simpl. ring.
  - simpl.
    destruct (column_Ok bst k) as (col & Hcol & Hcol_len & Hcol_u).
    { eapply Forall_impl; [exact Hlen|]. intros counts Hc. simpl in *. lia. }
    set (j := if decide (i = 0%Z) then n - 1 else Z.to_nat (i - 1)).
    assert (Hjn : j < n) by (unfold j; case_decide; lia).
    assert (Hj : py_index (Z.to_nat (Z.of_nat n)) (i - 1) = Ok j).
    { unfold py_index, j. rewrite Nat2Z.id. destruct (decide (i = 0%Z)) as [->|].
      - rewrite decide_False by lia. rewrite decide_True by lia. f_equal. lia.
      - by rewrite decide_True by lia. }
    set (rm0' := zip_with (λ row v, alter (λ x, x + v)%Q j row) rm0 col).
    assert (Hstep : iadd_column bst (Z.of_nat n) rm0 (k, i) = Ok rm0').
    { unfold iadd_column. simpl. rewrite Hj. simpl. rewrite Hcol. simpl.
      destruct Hshape as [Hrows _]. by rewrite decide_True by lia. }
    assert (Hshape' : has_shape (length (data bst)) n rm0')
      by (by eapply iadd_column_shape).
    destruct (IH (S k) rm0' Hshape') as (rm1 & Hloop & Hshape1 & Hsum).
    { eapply Forall_impl; [exact Hlen|]. intros counts Hc. simpl in *. lia. }
    exists rm1. rewrite Hstep. simpl. split_and!; [done..|].
    intros u counts Hu.
    destruct (Hsum u counts Hu) as (row0' & row1 & Hrow0' & Hrow1 & Heq).
    unfold rm0' in Hrow0'. rewrite lookup_zip_with in Hrow0'.
    destruct (rm0 !! u) as [row0|] eqn:Hrow0; [|done]. simpl in Hrow0'.
    rewrite (Hcol_u u counts Hu) in Hrow0'.
    pose proof (Forall_lookup_1 _ _ _ _ Hlen Hu) as Hc. simpl in Hc.
    destruct (lookup_lt_is_Some_2 counts k) as [d Hd]; [lia|].
    rewrite Hd in Hrow0'. simpl in Hrow0'. injection Hrow0' as <-.
    destruct Hshape as [_ Hcols].
    pose proof (Forall_lookup_1 _ _ _ _ Hcols Hrow0) as Hl. simpl in Hl.
    exists row0, row1. split_and!; [done..|].
    rewrite (drop_S _ _ _ Hd). simpl. rewrite Qsum_cons, Heq.
    rewrite Qsum_alter_add by lia. ring.
Qed.

(** The ratemap computation returns on samples that pass the range
    check. *)
Lemma compute_ratemap_returns
    (extern : AnalogSignalArray) (bst : BinnedSpikeTrainArray)
    (bins : list Q) (ids : list Z) (n : nat) (e : Q) :
  np.nondecreasing bins = true →
  length bins = n + 1 →
  1 ≤ n →
  bins !! (n - 1) = Some e →
  Forall (λ x, x <= e)%Q (_trans_func extern (bin_centers bst)) →
  length (data bst) = length ids →
  Forall (λ counts : list Q,
            length counts = length (_trans_func extern (bin_centers bst)))
         (data bst) →
  ∃ ratemap,
    _compute_ratemap None extern bst bins ids = Ok ratemap ∧
    has_shape (length ids) n ratemap.
Proof.
  intros Hmono Hlen Hn He Hext Hdata Hcounts.
  set (ext := _trans_func extern (bin_centers bst)) in *.
  assert (Hnb : n_bins_of bins = Z.of_nat n) by (unfold n_bins_of; lia).
  set (idx := (λ v, Z.of_nat (np.searchsorted_left bins v)) <$> ext).
  assert (Hidx : Forall (λ i, 0 ≤ i < Z.of_nat n)%Z idx).
  { unfold idx. apply Forall_fmap. eapply Forall_impl; [exact Hext|].
    intros x Hx. simpl in *.
    apply (searchsorted_left_lt_iff bins n e x Hmono Hlen Hn He) in Hx. lia. }
  destruct (np.zeros (length ids) (n_bins_of bins)) as [rm0|] eqn:Hzeros.
  2:{ unfold np.zeros in Hzeros. by rewrite decide_False in Hzeros by lia. }
  pose proof (zeros_shape _ _ _ Hzeros) as Hshape0.
  rewrite Hnb, Nat2Z.id, <- Hdata in Hshape0.
  destruct (accumulate_row_sums bst n idx Hn Hidx 0 rm0 Hshape0)
    as (rm1 & Hloop & Hshape1 & _).
  { eapply Forall_impl; [exact Hcounts|]. intros counts Hc. simpl in *.
    unfold idx. rewrite length_fmap. lia. }
  exists (np.elementwise (λ x, x / ds bst)%Q rm1). split.
  - unfold _compute_ratemap. simpl. fold ext.
    rewrite digitize_right_increasing by done. simpl. fold idx.
    rewrite (filter_none (λ i, n_bins_of bins ≤ i)%Z idx).
    2:{ eapply Forall_impl; [exact Hidx|]. intros i Hi. simpl in *. lia. }
    rewrite decide_False by (simpl; lia).
    rewrite (filter_all (λ i, i < n_bins_of bins)%Z idx).
    2:{ eapply Forall_impl; [exact Hidx|]. intros i Hi. simpl in *. lia. }
    rewrite Hzeros. simpl. unfold enumerate. rewrite Hnb, Hloop. done.
  - rewrite <- Hdata. by apply elementwise_shape.
Qed.

(** X7: when every correlate sample passes the range check (it is at
    or below the last interior edge) and the spike-count matrix has one
    row per unit and one column per sample, [_compute_ratemap] returns,
    and no spike is lost or counted twice: the entries of a unit's row
    add up to the unit's total spike count divided by the bin duration
    (also for the samples below the first edge, which land in the last
    column). *)
Theorem ratemap_conserves_spike_counts
    (extern : AnalogSignalArray) (bst : BinnedSpikeTrainArray)
    (bins : list Q) (ids : list Z) (n : nat) (e : Q) :
  np.nondecreasing bins = true →
  length bins = n + 1 →
  1 ≤ n →
  bins !! (n - 1) = Some e →
  let ext := _trans_func extern (bin_centers bst) in
  Forall (λ x, x <= e)%Q ext →
  length (data bst) = length ids →
  Forall (λ counts : list Q, length counts = length ext) (data bst) →
  ¬ (ds bst == 0)%Q →
  ∃ ratemap,
    _compute_ratemap None extern bst bins ids = Ok ratemap ∧
    has_shape (length ids) n ratemap ∧
    ∀ u counts, data bst !! u = Some counts →
      ∃ row, ratemap !! u = Some row ∧
             (Qsum row == Qsum counts / ds bst)%Q.
Proof.
  intros Hmono Hlen Hn He ext Hext Hdata Hcounts Hds.
  assert (Hnb : n_bins_of bins = Z.of_nat n) by (unfold n_bins_of; lia).
  set (idx := (λ v, Z.of_nat (np.searchsorted_left bins v)) <$> ext).
  assert (Hidx : Forall (λ i, 0 ≤ i < Z.of_nat n)%Z idx).
  { unfold idx. apply Forall_fmap. eapply Forall_impl; [exact Hext|].
    intros x Hx. simpl in *.
    apply (searchsorted_left_lt_iff bins n e x Hmono Hlen Hn He) in Hx. lia. }
  destruct (np.zeros (length ids) (n_bins_of bins)) as [rm0|] eqn:Hzeros.
  2:{ unfold np.zeros in Hzeros. by rewrite decide_False in Hzeros by lia. }
  pose proof (zeros_shape _ _ _ Hzeros) as Hshape0.
  rewrite Hnb, Nat2Z.id, <- Hdata in Hshape0.
  destruct (accumulate_row_sums bst n idx Hn Hidx 0 rm0 Hshape0)
    as (rm1 & Hloop & Hshape1 & Hsum).
  { eapply Forall_impl; [exact Hcounts|]. intros counts Hc. simpl in *.
    unfold idx. rewrite length_fmap. lia. }
  exists (np.elementwise (λ x, x / ds bst)%Q rm1). split_and!.
  - unfold _compute_ratemap. simpl. fold ext.
    rewrite digitize_right_increasing by done. simpl. fold idx.
    rewrite (filter_none (λ i, n_bins_of bins ≤ i)%Z idx).
    2:{ eapply Forall_impl; [exact Hidx|]. intros i Hi. simpl in *. lia. }
    rewrite decide_False by (simpl; lia).
    rewrite (filter_all (λ i, i < n_bins_of bins)%Z idx).
    2:{ eapply Forall_impl; [exact Hidx|]. intros i Hi. simpl in *. lia. }
    rewrite Hzeros. simpl. unfold enumerate. rewrite Hnb, Hloop. done.
  - rewrite <- Hdata. by apply elementwise_shape.
  - intros u counts Hu.
    destruct (Hsum u counts Hu) as (row0 & row1 & Hrow0 & Hrow1 & Heq).
    exists ((λ x, x / ds bst)%Q <$> row1).
    unfold np.elementwise. rewrite list_lookup_fmap, Hrow1. simpl.
    split; [done|].
    assert (Hz : (Qsum row0 == 0)%Q).
    { unfold np.zeros in Hzeros. case_decide; [done|].
      injection Hzeros as <-.
      apply lookup_replicate in Hrow0 as [-> _].
      generalize (Z.to_nat (n_bins_of bins)). intros m.
      induction m as [|m IH]; [done|].
      change (replicate (S m) 0%Q) with (0%Q :: replicate m 0%Q).
      rewrite Qsum_cons, IH. ring. }
    rewrite Qsum_fmap_div, Heq, Hz, drop_0.
    pose proof (Forall_lookup_1 _ _ _ _ Hcounts Hu) as Hc. simpl in Hc.
    unfold idx. rewrite length_fmap, <- Hc, firstn_all. unfold Qdiv. ring.
Qed.

(** X7, at a concrete input: three units over five time bins, the last
    sample at the first edge; the rows add up to 11, 15 and 3 spikes. *)
Lemma ratemap_conserves_spike_counts_witness :
  np.nondecreasing (np.linspace 0 1 5) = true ∧
  length (np.linspace 0 1 5) = 4 + 1 ∧
  1 ≤ 4 ∧
  np.linspace 0 1 5 !! (4 - 1) = Some (3 # 4)%Q ∧
  Forall (λ x, x <= 3 # 4)%Q
         (_trans_func extern_identity (bin_centers example_bst)) ∧
  length (data example_bst) = length (unit_ids example_bst) ∧
  Forall (λ counts : list Q,
            length counts
            = length (_trans_func extern_identity (bin_centers example_bst)))
         (data example_bst) ∧
  ¬ (ds example_bst == 0)%Q ∧
  ∃ ratemap,
    _compute_ratemap None extern_identity example_bst (np.linspace 0 1 5)
      (unit_ids example_bst) = Ok ratemap ∧
    ∀ u counts, data example_bst !! u = Some counts →
      ∃ row, ratemap !! u = Some row ∧
             (Qsum row == Qsum counts / ds example_bst)%Q.
Proof.
  assert (Hext : Forall (λ x, x <= 3 # 4)%Q
            (_trans_func extern_identity (bin_centers example_bst))).
  { repeat constructor; by vm_compute. }
  assert (Hcounts : Forall (λ counts : list Q,
            length counts
            = length (_trans_func extern_identity (bin_centers example_bst)))
            (data example_bst)).
  { by repeat constructor. }
  assert (Hds : ¬ (ds example_bst == 0)%Q) by (by vm_compute).
  split; [reflexivity|]. split; [reflexivity|]. split; [lia|].
  split; [reflexivity|]. split; [exact Hext|]. split; [reflexivity|].
  split; [exact Hcounts|]. split; [exact Hds|].
  destruct (ratemap_conserves_spike_counts extern_identity example_bst
              (np.linspace 0 1 5) (unit_ids example_bst) 4 (3 # 4)%Q
              eq_refl eq_refl (le_S _ _ (le_S _ _ (le_S _ _ (le_n 1))))
              eq_refl Hext eq_refl Hcounts Hds)
    as (ratemap & Hrm & _ & Hsum).
  exists ratemap. split; [exact Hrm | exact Hsum].
Defined.

(** ** Subsets of units *)




(** ** Subscripting *)


Lemma py_index_invalid n j :
  (j < - Z.of_nat n ∨ Z.of_nat n ≤ j)%Z →
  py_index n j = Raise (IndexError "index out of bounds").
Proof.
  intros Hj. unfold py_index. by rewrite !decide_False by lia.
Qed.


Lemma fancy_index_invalid {A} (a : list A) idx :
  Exists (λ j, j < - Z.of_nat (length a) ∨ Z.of_nat (length a) ≤ j)%Z idx →
  ∃ e, fancy_index a idx = Raise e.
Proof.
  intros Hidx. induction Hidx as [j idx Hj|j idx Hidx IH].
  - unfold fancy_index. simpl. rewrite (py_index_invalid _ _ Hj). by eexists.
  - unfold fancy_index in *. simpl.
    destruct (py_index (length a) j) as [i|e]; simpl; [|by eexists].
    destruct (a !! i); simpl; [|by eexists].
    destruct IH as [e ->]. by eexists.
Qed.



(** X10: an index out of range is reported as a [TypeError], like any
    other failure of the indexing, never as an [IndexError]; and a
    curve without ratemap rows returns itself for every subscript, in
    range or not. *)
Theorem getitem_out_of_range_is_a_type_error
    (self : TuningCurve1D) (sub : subscript) (idx : list Z) :
  sub = SubList idx ∨ sub = SubTuple idx ∨ (∃ i, idx = [i] ∧ sub = SubInt i) →
  (_ratemap self = [] → __getitem__ self sub = Ok self) ∧
  (_ratemap self ≠ [] →
   Exists (λ j, j < - Z.of_nat (length (_ratemap self))
                ∨ Z.of_nat (length (_ratemap self)) ≤ j)%Z idx →
   __getitem__ self sub = Raise (TypeError "unsupported subsctipting type")).
Proof.
  intros Hsub. split.
  - intros Hrm. unfold __getitem__, isempty. rewrite Hrm. done.
  - intros Hrm Hidx. unfold __getitem__, isempty.
    rewrite bool_decide_false.
    2:{ intros H0. by apply length_zero_iff_nil in H0. }
    destruct (fancy_index_invalid _ _ Hidx) as [e He].
    destruct Hsub as [->|[->|(i & -> & ->)]]; rewrite He; done.
Qed.

(** X10, at a concrete input: [tc[3]] on three units. *)
Lemma getitem_out_of_range_is_a_type_error_witness :
  _ratemap example_curve ≠ [] ∧
  Exists (λ j, j < - Z.of_nat (length (_ratemap example_curve))
               ∨ Z.of_nat (length (_ratemap example_curve)) ≤ j)%Z [3]%Z ∧
  __getitem__ example_curve (SubInt 3)
  = Raise (TypeError "unsupported subsctipting type").
Proof.
  assert (Hrm : _ratemap example_curve ≠ []) by done.
  assert (Hidx : Exists (λ j, j < - Z.of_nat (length (_ratemap example_curve))
               ∨ Z.of_nat (length (_ratemap example_curve)) ≤ j)%Z [3]%Z).
  { constructor. right. by vm_compute. }
  split; [exact Hrm|]. split; [exact Hidx|].
  exact (proj2 (getitem_out_of_range_is_a_type_error example_curve (SubInt 3)
                  [3]%Z
                  (or_intror (or_intror (ex_intro _ 3%Z (conj eq_refl eq_refl)))))
               Hrm Hidx).
Defined.

(** ** Shallow copies: what the arithmetic operators share *)

(** A shallow copy whose ratemap attribute is rebound, the pattern of
    the arithmetic operators: the new object has an array of its own
    and the attribute table of [self] otherwise, so it refers to the
    very unit id list and unit label list of [self]. *)
Lemma shallow_copy_with_ratemap (F : list (list Q) → list (list Q))
    h self d c :
  h !! self = Some (Instance d) →
  view h self = Some c →
  ∃ out r h',
    (out ← py.copy self;
     rm ← ratemap_at out;
     py.set_ratemap out (F rm);;
     mret out) h = (Ok out, h') ∧
    h !! out = None ∧ h !! r = None ∧ out ≠ r ∧
    h' !! out
    = Some (Instance {| at_bins := at_bins d; at_ratemap := r;
                        at_occupancy := at_occupancy d;
                        at_unit_ids := at_unit_ids d;
                        at_unit_labels := at_unit_labels d;
                        at_unit_tags := at_unit_tags d;
                        at_label := at_label d |}) ∧
    h' !! r = Some (NdArray (F (_ratemap c))) ∧
    (∀ a, a ≠ out → a ≠ r → h' !! a = h !! a) ∧
    view h' out = Some (set_ratemap c (F (_ratemap c))) ∧
    view h' self = Some c ∧
    h ⊆ h'.
Proof.
  intros Hd Hview.
  pose proof Hview as (d0 & Hd0 & Hrm & Hids & Hlab & Hb & Hocc & Ht & Hl)%view_Some.
  assert (d0 = d) as -> by congruence.
  set (out := fresh (dom h)).
  set (h1 := <[out := Instance d]> h).
  set (r := fresh (dom h1)).
  set (d' := {| at_bins := at_bins d; at_ratemap := r;
                at_occupancy := at_occupancy d;
                at_unit_ids := at_unit_ids d;
                at_unit_labels := at_unit_labels d;
                at_unit_tags := at_unit_tags d; at_label := at_label d |}).
  set (h2 := <[out := Instance d']> (<[r := NdArray (F (_ratemap c))]> h1)).
  pose proof (fresh_lookup h) as F1. fold out in F1.
  pose proof (fresh_lookup h1) as F2. fold r in F2.
  assert (Hne : out ≠ r).
  { intros E. rewrite <- E in F2. unfold h1 in F2.
    by rewrite lookup_insert_eq in F2. }
  assert (Hr : h !! r = None).
  { unfold h1 in F2. by rewrite lookup_insert_ne in F2. }
  assert (Hframe : ∀ a, a ≠ out → a ≠ r → h2 !! a = h !! a).
  { intros a Ha1 Ha2. unfold h2, h1. by rewrite !lookup_insert_ne. }
  assert (Hold : ∀ a x, h !! a = Some x → h2 !! a = Some x).
  { intros a x Ha. rewrite Hframe; [done|intros ->; congruence..]. }
  assert (Hout1 : h1 !! out = Some (Instance d)) by apply lookup_insert_eq.
  assert (Hview1 : view h1 out = Some c).
  { apply view_Some. exists d. unfold h1.
    split_and!; try done; rewrite lookup_insert_ne; try done;
      intros E; rewrite E in F1; congruence. }
  exists out, r, h2. split_and!; try done.
  - assert (Hcopy : py.copy self h = (Ok out, h1)).
    { unfold py.copy. by rewrite (bind_run _ _ _ _ _ (instance_run _ _ _ Hd)). }
    rewrite (bind_run _ _ _ _ _ Hcopy).
    rewrite (bind_run _ _ _ _ _ (ratemap_at_run _ _ _ Hview1)).
    assert (Hset : py.set_ratemap out (F (_ratemap c)) h1 = (Ok (), h2)).
    { unfold py.set_ratemap.
      by rewrite (bind_run _ _ _ _ _ (instance_run _ _ _ Hout1)). }
    by rewrite (bind_run _ _ _ _ _ Hset).
  - apply lookup_insert_eq.
  - unfold h2. rewrite lookup_insert_ne by done. apply lookup_insert_eq.
  - apply view_Some. exists d'. simpl. split_and!; try done.
    + apply lookup_insert_eq.
    + unfold h2. rewrite lookup_insert_ne by done. apply lookup_insert_eq.
    + by apply Hold.
    + by apply Hold.
  - apply view_Some. exists d. split_and!; try done; by apply Hold.
  - apply map_subseteq_spec. intros a x Ha. by apply Hold.
Qed.

Lemma reorder_shallow_copy_in_place
    (F : list (list Q) → list (list Q))
    (argsort : list nat → list nat) (h : gmap addr cell) (self : addr)
    (c : TuningCurve1D) (neworder : list Z) :
  (∀ a, length (F a) = length a) →
  view h self = Some c →
  length (_unit_labels c) = n_units c →
  length (_ratemap c) = n_units c →
  neworder ≡ₚ Z.of_nat <$> seq 0 (n_units c) →
  ∃ out h1 h2 c',
    (out ← py.copy self;
     rm ← ratemap_at out;
     py.set_ratemap out (F rm);;
     mret out) h = (Ok out, h1) ∧
    out ≠ self ∧
    view h1 self = Some c ∧
    _reorder_units_by_idx argsort out (Some neworder) true h1
    = (Ok out, h2) ∧
    view h2 self = Some c' ∧
    take_positions (_unit_ids c) (Z.to_nat <$> neworder)
    = Ok (_unit_ids c') ∧
    take_positions (_unit_labels c) (Z.to_nat <$> neworder)
    = Ok (_unit_labels c') ∧
    _ratemap c' = _ratemap c ∧
    _bins c' = _bins c ∧ _occupancy c' = _occupancy c ∧
    _unit_tags c' = _unit_tags c ∧ _label c' = _label c.
Proof.
  intros HF Hself Hlab Hrm Hperm.
  pose proof Hself as (d & Hd & Hcrm & Hcids & Hclab & Hb & Hocc & Ht & Hl)%view_Some.
  destruct (shallow_copy_with_ratemap F h self d c Hd Hself)
    as (out & r & h1 & Hadd & Hfresh & Hr & Hne & Hout & Hrcell & Hframe
        & Hview_out & Hview_self & Hsub).
  set (rm' := F (_ratemap c)) in *.
  set (d' := {| at_bins := at_bins d; at_ratemap := r;
                at_occupancy := at_occupancy d;
                at_unit_ids := at_unit_ids d;
                at_unit_labels := at_unit_labels d;
                at_unit_tags := at_unit_tags d; at_label := at_label d |}) in *.
  destruct (reorder_contents (set_ratemap c rm') neworder)
    as (st' & Hloop & _ & Hids' & Hlab').
  { done. }
  { unfold n_units, rm' in *. simpl. by rewrite HF. }
  { done. }
  destruct (reorder_loop_run _ _ _ _ _ _ Hout Hview_out Hloop)
    as (h2 & Hrun & Hout2 & Hview2 & Hframe2).
  pose proof Hview2 as (d2 & Hd2 & _ & Hids2 & Hlab2 & _)%view_Some.
  assert (d2 = d') as -> by congruence. simpl in Hids2, Hlab2.
  assert (Hself_ne : out ≠ self) by (intros ->; congruence).
  assert (Hkeep : ∀ a y, h !! a = Some y →
            a ≠ at_unit_ids d → a ≠ at_unit_labels d →
            h2 !! a = Some y).
  { intros a y Ha H1 H2. rewrite Hframe2.
    - rewrite Hframe; [done|intros ->; congruence..].
    - unfold outside. simpl. split_and!; [intros ->; congruence|done..]. }
  exists out, h1, h2,
    {| _bins := _bins c; _ratemap := _ratemap c; _occupancy := _occupancy c;
       _unit_ids := rs_unit_ids st'; _unit_labels := rs_unit_labels st';
       _unit_tags := _unit_tags c; _label := _label c |}.
  simpl. split_and!; try done.
  - unfold _reorder_units_by_idx.
    rewrite (bind_run (mret neworder) _ h1 neworder h1) by done.
    rewrite (bind_run (mret out) _ h1 out h1) by done.
    by rewrite (bind_run _ _ _ _ _ Hrun).
  - apply view_Some. exists d. simpl. split_and!; try done.
    + apply Hkeep; [done|intros E; rewrite E in Hd; congruence..].
    + apply Hkeep; [done|intros E; rewrite E in Hcrm; congruence..].
  - by apply picked_take_positions.
  - by apply picked_take_positions.
Qed.

(** X11: the result of [tc + x], [tc - x], [tc * x] or [x * tc] for a
    number [x] is a shallow copy: it has a ratemap of its own but
    refers to the unit id list and the unit label list of [tc].  So
    reordering the result in place also reorders the unit ids and unit
    labels of the original curve, whose ratemap rows stay where they
    were: after it, row [i] of the original is paired with the id and
    the label that were at position [neworder[i]]. *)
Theorem in_place_reordering_reaches_the_operand
    (argsort : list nat → list nat) (h : gmap addr cell) (self : addr)
    (c : TuningCurve1D) (x : Q) (neworder : list Z)
    (op : addr → Q → py.M addr) :
  op ∈ [(λ tc other, __add__ tc (Number other)); __sub__; __mul__; __rmul__] →
  view h self = Some c →
  length (_unit_labels c) = n_units c →
  length (_ratemap c) = n_units c →
  neworder ≡ₚ Z.of_nat <$> seq 0 (n_units c) →
  ∃ out h1 h2 c',
    op self x h = (Ok out, h1) ∧
    out ≠ self ∧
    view h1 self = Some c ∧
    _reorder_units_by_idx argsort out (Some neworder) true h1
    = (Ok out, h2) ∧
    view h2 self = Some c' ∧
    take_positions (_unit_ids c) (Z.to_nat <$> neworder)
    = Ok (_unit_ids c') ∧
    take_positions (_unit_labels c) (Z.to_nat <$> neworder)
    = Ok (_unit_labels c') ∧
    _ratemap c' = _ratemap c ∧
    _bins c' = _bins c ∧ _occupancy c' = _occupancy c ∧
    _unit_tags c' = _unit_tags c ∧ _label c' = _label c.
Proof.
  intros Hop Hself Hlab Hrm Hperm.
  assert (HF : ∀ f : Q → Q, ∀ a, length (np.elementwise f a) = length a).
  { intros f a. unfold np.elementwise. by rewrite length_fmap. }
  repeat (apply elem_of_cons in Hop as [->|Hop]).
  - exact (reorder_shallow_copy_in_place (np.elementwise (λ r, r + x)%Q)
             argsort h self c neworder (HF _) Hself Hlab Hrm Hperm).
  - exact (reorder_shallow_copy_in_place (np.elementwise (λ r, r - x)%Q)
             argsort h self c neworder (HF _) Hself Hlab Hrm Hperm).
  - exact (reorder_shallow_copy_in_place (np.elementwise (λ r, r * x)%Q)
             argsort h self c neworder (HF _) Hself Hlab Hrm Hperm).
  - exact (reorder_shallow_copy_in_place (np.elementwise (λ r, r * x)%Q)
             argsort h self c neworder (HF _) Hself Hlab Hrm Hperm).
  - by apply elem_of_nil in Hop.
Qed.

(** X11, at a concrete input: after [(tc + 1)] is reordered in place
    to the order 2, 0, 1, the example curve has the unit ids 30, 10, 20
    over its unchanged ratemap. *)
Lemma in_place_reordering_reaches_the_operand_witness :
  view example_store example_object = Some example_curve ∧
  length (_unit_labels example_curve) = n_units example_curve ∧
  length (_ratemap example_curve) = n_units example_curve ∧
  [2; 0; 1]%Z ≡ₚ Z.of_nat <$> seq 0 (n_units example_curve) ∧
  ∃ out h1 h2 c',
    __add__ example_object (Number 1) example_store = (Ok out, h1) ∧
    _reorder_units_by_idx (λ l, l) out (Some [2; 0; 1]%Z) true h1
    = (Ok out, h2) ∧
    view h2 example_object = Some c' ∧
    _unit_ids c' = [30; 10; 20]%Z ∧
    _ratemap c' = _ratemap example_curve.
Proof.
  assert (Hview : view example_store example_object = Some example_curve)
    by (by vm_compute).
  assert (Hp : [2; 0; 1]%Z ≡ₚ Z.of_nat <$> seq 0 (n_units example_curve)).
  { apply (Permutation_cons_append [0; 1]%Z 2%Z). }
  split; [exact Hview|]. split; [reflexivity|]. split; [reflexivity|].
  split; [exact Hp|].
  destruct (in_place_reordering_reaches_the_operand (λ l, l)
              example_store example_object example_curve 1%Q [2; 0; 1]%Z
              (λ tc other, __add__ tc (Number other))
              (list_elem_of_here _ _) Hview eq_refl eq_refl Hp)
    as (out & h1 & h2 & c' & Hadd & _ & _ & Hrun & Hc' & Hids & _ & Hrm & _).
  exists out, h1, h2, c'.
  split_and!; [exact Hadd|exact Hrun|exact Hc'| |exact Hrm].
  vm_compute in Hids. by injection Hids.
Defined.

(** ** Reordering by peak position *)





(** ** Smoothing *)

Section gaussian_filter_upper_bound.
Variable exp : Q → Q.
Hypothesis exp_pos : ∀ x, (0 < exp x)%Q.
Variable m : Q.







End gaussian_filter_upper_bound.

(** The filter returns whenever its kernel radius is not negative. *)
Lemma gaussian_weights_total (exp : Q → Q) sigma truncate :
  (0 <= sigma)%Q → (0 <= truncate)%Q →
  ∃ w, ndimage.gaussian_weights exp sigma truncate = Ok w ∧ w ≠ [].
Proof.
  intros Hs Ht. unfold ndimage.gaussian_weights.
  assert (Hlw : (0 ≤ py_int (truncate * sigma + (1 # 2)))%Z).
  { unfold py_int.
    assert (H0 : (0 <= truncate * sigma + (1 # 2))%Q) by nra.
    rewrite (proj2 (Qle_bool_iff _ _) H0).
    change 0%Z with (Qfloor 0). by apply Qfloor_resp_le. }
  rewrite decide_False by lia. eexists. split; [done|].
  intros Hnil. apply (f_equal length) in Hnil.
  rewrite length_reverse in Hnil. unfold ndimage._gaussian_kernel1d in Hnil.
  rewrite !length_fmap, length_seq in Hnil. simpl in Hnil. lia.
Qed.

Lemma correlate1d_total {A} (zero : A) add scale weights (input : list A) :
  weights ≠ [] →
  ∃ out, ndimage.correlate1d zero add scale weights input = Ok out.
Proof.
  intros Hw. unfold ndimage.correlate1d. destruct weights; [done|].
  by eexists.
Qed.

Lemma gaussian_filter_total (exp : Q → Q) n_cols input sigma0 sigma1 truncate :
  (0 <= sigma0)%Q → (0 <= sigma1)%Q → (0 <= truncate)%Q →
  ∃ out, ndimage.gaussian_filter exp n_cols input sigma0 sigma1 truncate
         = Ok out.
Proof.
  intros H0 H1 Ht. unfold ndimage.gaussian_filter.
  assert (∃ pass0,
    (if Qltb (1 # 1000000000000000) sigma0
     then ndimage.gaussian_filter1d_axis0 exp n_cols input sigma0 truncate
     else Ok input) = Ok pass0) as [pass0 ->].
  { destruct (Qltb _ sigma0); [|by eexists].
    unfold ndimage.gaussian_filter1d_axis0.
    destruct (gaussian_weights_total exp sigma0 truncate H0 Ht)
      as (w & -> & Hw). simpl.
    by apply correlate1d_total. }
  simpl. destruct (Qltb _ sigma1); [|by eexists].
  unfold ndimage.gaussian_filter1d_axis1.
  destruct (gaussian_weights_total exp sigma1 truncate H1 Ht)
    as (w & -> & Hw). simpl.
  apply map_result_total. apply Forall_true. intros row.
  by apply correlate1d_total.
Qed.

Lemma smooth_ratemap_total (exp : Q → Q) bins ids ratemap sigma bw lo hi :
  first_edge bins = Ok lo → last_edge bins = Ok hi →
  (lo < hi)%Q → (1 ≤ n_bins_of bins)%Z →
  (0 <= default (1 # 10) sigma)%Q → (0 <= default 4 bw)%Q →
  ∃ out, smooth_ratemap exp bins ids ratemap sigma bw = Ok out.
Proof.
  intros Hlo Hhi Hlt Hn Hs Hbw. unfold smooth_ratemap.
  rewrite Hhi, Hlo. simpl.
  assert (Hne : Qeq_bool (hi - lo) 0 = false).
  { destruct (Qeq_bool (hi - lo) 0) eqn:E; [|done].
    apply Qeq_bool_iff in E. lra. }
  rewrite Hne, andb_false_r. simpl.
  assert (Hds : (0 < (hi - lo) / ZtoQ (n_bins_of bins))%Q).
  { apply Qlt_shift_div_l; [|lra]. unfold ZtoQ.
    change 0%Q with (inject_Z 0). rewrite <- Zlt_Qlt. lia. }
  assert (Hsig : (0 <= default (1 # 10) sigma / ((hi - lo) / ZtoQ (n_bins_of bins)))%Q).
  { apply Qle_shift_div_l; [done|]. lra. }
  case_decide; apply gaussian_filter_total; (done || lra).
Qed.



(** ** Construction: when it returns *)

Lemma has_shape_lengths rows cols a :
  has_shape rows cols a → length <$> a = replicate rows cols.
Proof.
  intros [<- Hcols]. induction Hcols as [|row a Hrow Hcols IH]; [done|].
  rewrite fmap_cons. simpl. by rewrite Hrow, IH.
Qed.

Lemma normalize_by_occupancy_returns ids occupancy ratemap (n : nat) :
  has_shape (length ids) n ratemap →
  length occupancy = n →
  ∃ out, _normalize_firing_rate_by_occupancy ids occupancy ratemap = Ok out ∧
         has_shape (length ids) n out.
Proof.
  intros Hshape Hocc. unfold _normalize_firing_rate_by_occupancy.
  eexists. split.
  - apply true_divide_Ok. rewrite (has_shape_lengths _ _ _ Hshape).
    rewrite !fmap_replicate. simpl. by rewrite !length_fmap, Hocc.
  - eapply true_divide_shape; [exact Hshape|]. apply true_divide_Ok.
    rewrite (has_shape_lengths _ _ _ Hshape).
    rewrite !fmap_replicate. simpl. by rewrite !length_fmap, Hocc.
Qed.

(** X14: a construction with [n_extern >= 1] bins on
    [[extmin, extmax]], [extmin < extmax], no transform, a spike-count
    matrix with one row per unit and one column per correlate sample, a
    bin duration other than zero and a [bw] that is not negative
    returns a curve as soon as every correlate sample is at or below
    the last interior bin edge.  The curve has the bin edges
    [linspace(extmin, extmax, n_extern + 1)], the unit ids, labels and
    tags of the spike train, the given label, an occupancy with one
    entry per bin and a ratemap of [n_units] rows and [n_extern]
    columns. *)
Theorem construction_returns
    (exp : Q → Q) (bst : BinnedSpikeTrainArray) (extern : AnalogSignalArray)
    (kw : kwargs) (n : nat) (lo hi e : Q) :
  (∀ x, 0 < exp x)%Q →
  kw_empty kw = false →
  kw_transform_func kw = None →
  kw_n_extern kw = Some n →
  kw_extmin kw = Some lo →
  kw_extmax kw = Some hi →
  1 ≤ n →
  (lo < hi)%Q →
  np.linspace lo hi (n + 1) !! (n - 1) = Some e →
  let ext := _trans_func extern (bin_centers bst) in
  Forall (λ x, x <= e)%Q ext →
  length (data bst) = length (unit_ids bst) →
  Forall (λ counts : list Q, length counts = length ext) (data bst) →
  ¬ (ds bst == 0)%Q →
  (0 <= default 4 (kw_bw kw))%Q →
  ∃ c,
    __init__ exp bst extern kw = Ok (Curve c) ∧
    _bins c = np.linspace lo hi (n + 1) ∧
    _unit_ids c = unit_ids bst ∧
    _unit_labels c = unit_labels bst ∧
    _unit_tags c = unit_tags bst ∧
    _label c = kw_label kw ∧
    length (_occupancy c) = n ∧
    has_shape (n_units c) n (_ratemap c).
Proof.
  intros Hexp Hempty Htf Hn Hlo Hhi Hn1 Hlt He ext Hext Hdata Hcounts Hds Hbw.
  set (bins := np.linspace lo hi (n + 1)) in *.
  pose proof (linspace_nondecreasing lo hi n Hlt Hn1) as Hmono. fold bins in Hmono.
  assert (Hlen : length bins = n + 1) by apply linspace_length.
  assert (Hnb : n_bins_of bins = Z.of_nat n) by (unfold n_bins_of; lia).
  destruct (histogram_counts ext bins Hmono) as (occ & Hocc & Hocc_len & _).
  destruct (compute_ratemap_returns extern bst bins (unit_ids bst) n e
              Hmono Hlen Hn1 He Hext Hdata Hcounts)
    as (rm0 & Hrm0 & Hshape0).
  destruct (normalize_by_occupancy_returns (unit_ids bst) occ rm0 n Hshape0)
    as (rm1 & Hrm1 & Hshape1); [lia|].
  pose proof (enforce_minbgrate_shape (default (1 # 100)%Q (kw_minbgrate kw))
                _ _ _ Hshape1) as Hshape2.
  set (rm2 := enforce_minbgrate (default (1 # 100)%Q (kw_minbgrate kw)) rm1) in *.
  assert (∃ rm3,
    match kw_sigma kw with
    | Some s =>
        if Qltb 0 s
        then smooth_ratemap exp bins (unit_ids bst) rm2 (kw_sigma kw) (kw_bw kw)
        else Ok rm2
    | None => Ok rm2
    end = Ok rm3 ∧ has_shape (length (unit_ids bst)) n rm3) as (rm3 & Hrm3 & Hshape3).
  { destruct (kw_sigma kw) as [s|] eqn:Hs; [|by exists rm2].
    destruct (Qltb 0 s) eqn:Hpos; [|by exists rm2].
    apply Qltb_true in Hpos.
    destruct (linspace_first lo hi n Hlt Hn1) as (e0 & He0 & He0lo).
    fold bins in He0.
    assert (Hfirst : first_edge bins = Ok e0).
    { destruct bins; simpl in *; [done|]. by injection He0 as ->. }
    assert (Hlast : last_edge bins = Ok hi).
    { unfold last_edge. rewrite last_lookup_length, Hlen.
      replace (n + 1 - 1) with n by lia.
      pose proof (linspace_last lo hi n Hlt Hn1) as Hl. fold bins in Hl.
      by rewrite Hl. }
    destruct (smooth_ratemap_total exp bins (unit_ids bst) rm2 (Some s)
                (kw_bw kw) e0 hi Hfirst Hlast) as [rm3 Hrm3];
      [lra|lia|simpl; lra|done|].
    exists rm3. split; [done|].
    pose proof (enforce_minbgrate_all_ge
                  (default (1 # 100)%Q (kw_minbgrate kw)) rm1) as Hge.
    fold rm2 in Hge.
    destruct (smooth_ratemap_bound exp Hexp
                (default (1 # 100)%Q (kw_minbgrate kw)) bins (unit_ids bst) rm2 (Some s)
                (kw_bw kw) rm3) as [Hsh _]; [|done|done|].
    + by rewrite Hnb, Nat2Z.id.
    + by rewrite Hnb, Nat2Z.id in Hsh. }
  exists {| _bins := bins; _ratemap := rm3; _occupancy := occ;
            _unit_ids := unit_ids bst; _unit_labels := unit_labels bst;
            _unit_tags := unit_tags bst; _label := kw_label kw |}.
  split_and!; try done; [|simpl; lia].
  unfold __init__, make_bins, estimate.
  rewrite Hempty, Hn, Hlo, Hhi, Htf. simpl. fold bins.
  change (_compute_occupancy None extern bst bins) with (np.histogram ext bins).
  rewrite Hocc. simpl. rewrite Hrm0. simpl. rewrite Hrm1. simpl.
  fold rm2. rewrite Hrm3. done.
Qed.

(** X14, at a concrete input: the example spike train on four bins,
    with smoothing. *)
Lemma construction_returns_witness :
  np.linspace 0 1 (4 + 1) !! (4 - 1) = Some (3 # 4)%Q ∧
  Forall (λ x, x <= 3 # 4)%Q
         (_trans_func extern_identity (bin_centers example_bst)) ∧
  length (data example_bst) = length (unit_ids example_bst) ∧
  Forall (λ counts : list Q,
            length counts
            = length (_trans_func extern_identity (bin_centers example_bst)))
         (data example_bst) ∧
  ¬ (ds example_bst == 0)%Q ∧
  (0 <= default 4 (kw_bw example_kwargs_smooth))%Q ∧
  ∃ c,
    __init__ exp2 example_bst extern_identity example_kwargs_smooth
    = Ok (Curve c) ∧
    _unit_ids c = [1; 2; 3]%Z ∧
    has_shape 3 4 (_ratemap c).
Proof.
  assert (Hext : Forall (λ x, x <= 3 # 4)%Q
            (_trans_func extern_identity (bin_centers example_bst))).
  { repeat constructor; by vm_compute. }
  assert (Hcounts : Forall (λ counts : list Q,
            length counts
            = length (_trans_func extern_identity (bin_centers example_bst)))
            (data example_bst)).
  { by repeat constructor. }
  assert (Hds : ¬ (ds example_bst == 0)%Q) by (by vm_compute).
  assert (Hbw : (0 <= default 4 (kw_bw example_kwargs_smooth))%Q)
    by (by vm_compute).
  split; [reflexivity|]. split; [exact Hext|]. split; [reflexivity|].
  split; [exact Hcounts|]. split; [exact Hds|]. split; [exact Hbw|].
  destruct (construction_returns exp2 example_bst extern_identity
              example_kwargs_smooth 4 0 1 (3 # 4) exp2_pos
              eq_refl eq_refl eq_refl eq_refl eq_refl
              (le_S _ _ (le_S _ _ (le_S _ _ (le_n 1)))) eq_refl eq_refl
              Hext eq_refl Hcounts Hds Hbw)
    as (c & Hc & _ & Hids & _ & _ & _ & _ & Hshape).
  exists c. split; [exact Hc|]. split; [exact Hids|].
  unfold n_units in Hshape. rewrite Hids in Hshape. exact Hshape.
Defined.

(** ** Bin centers *)

(** X15: for the bin edges of a constructed curve,
    [linspace(extmin, extmax, n + 1)] with [extmin < extmax] and at
    least one bin, the [bin_centers] property returns one center per
    bin, and each center is the midpoint of its bin: strictly between
    the two edges and at the same distance from both. *)
Theorem bin_centers_are_bin_midpoints
    (c : TuningCurve1D) (lo hi : Q) (n : nat) :
  _bins c = np.linspace lo hi (n + 1) →
  (lo < hi)%Q →
  1 ≤ n →
  ∃ centers,
    TuningCurve1D_bin_centers c = Ok centers ∧
    Z.of_nat (length centers) = n_bins c ∧
    ∀ i e e', _bins c !! i = Some e → _bins c !! S i = Some e' →
      ∃ x, centers !! i = Some x ∧
           (e < x)%Q ∧ (x < e')%Q ∧ (x - e == e' - x)%Q.
Proof.
  intros Hbins Hlt Hn.
  set (step := ((hi - lo) / NtoQ n)%Q).
  assert (Hstep : (0 < step)%Q) by exact (linspace_step_pos lo hi n Hlt Hn).
  assert (Hsteps : (NtoQ n * step == hi - lo)%Q)
    by exact (linspace_n_steps lo hi n Hn).
  assert (Hlook : ∀ i, _bins c !! i =
            if decide (i < n) then Some (NtoQ i * step + lo)%Q
            else if decide (i = n) then Some hi else None).
  { intros i. rewrite Hbins. exact (linspace_lookup lo hi n Hn i). }
  clearbody step.
  assert (Hlen : length (_bins c) = n + 1) by (rewrite Hbins; apply linspace_length).
  assert (Hedge : ∀ i e, _bins c !! i = Some e → (e == NtoQ i * step + lo)%Q).
  { intros i e. rewrite Hlook. case_decide; [by intros [= <-]|].
    case_decide; [|done]. intros [= <-]. subst i. lra. }
  destruct (_bins c) as [|b0 [|b1 rest]] eqn:Hb; simpl in Hlen; [lia..|].
  pose proof (Hedge 0 b0 eq_refl) as H0.
  pose proof (Hedge 1 b1 eq_refl) as H1.
  assert (Hwidth : (b1 - b0 == step)%Q).
  { rewrite H0, H1. unfold NtoQ. simpl. ring. }
  exists (np.all_but_last ((λ b, b + (b1 - b0) / 2)%Q <$> (b0 :: b1 :: rest))).
  split_and!.
  - unfold TuningCurve1D_bin_centers. by rewrite Hb.
  - unfold np.all_but_last, n_bins, n_bins_of. rewrite Hb.
    rewrite length_take, length_fmap. simpl. lia.
  - intros i e e' He He'.
    pose proof (lookup_lt_Some _ _ _ He') as Hi.
    assert (Hh : (0 < step / 2)%Q) by (apply Qlt_shift_div_l; lra).
    assert (Hhh : (step / 2 + step / 2 == step)%Q) by field.
    exists (e + (b1 - b0) / 2)%Q. split_and!.
    + unfold np.all_but_last. rewrite length_fmap.
      rewrite lookup_take_lt by (simpl in *; lia).
      by rewrite list_lookup_fmap, He.
    + rewrite Hwidth. revert Hh Hhh. generalize (step / 2)%Q. intros; lra.
    + rewrite (Hedge _ _ He), (Hedge _ _ He'), Hwidth, NtoQ_S.
      revert Hh Hhh. generalize (step / 2)%Q. intros; lra.
    + rewrite (Hedge _ _ He), (Hedge _ _ He'), Hwidth, NtoQ_S.
      revert Hh Hhh. generalize (step / 2)%Q. intros; lra.
Qed.

(** X15, at a concrete input: four bins on [[0, 1]]. *)
Lemma bin_centers_are_bin_midpoints_witness :
  _bins example_curve = np.linspace 0 1 (4 + 1) ∧
  ∃ centers,
    TuningCurve1D_bin_centers example_curve = Ok centers ∧
    Z.of_nat (length centers) = n_bins example_curve ∧
    ∀ i e e', _bins example_curve !! i = Some e →
              _bins example_curve !! S i = Some e' →
      ∃ x, centers !! i = Some x ∧ (e < x)%Q ∧ (x < e')%Q.
Proof.
  split; [reflexivity|].
  destruct (bin_centers_are_bin_midpoints example_curve 0 1 4 eq_refl eq_refl
              (le_S _ _ (le_S _ _ (le_S _ _ (le_n 1)))))
    as (centers & Hc & Hlen & Hmid).
  exists centers. split; [exact Hc|]. split; [exact Hlen|].
  intros i e e' He He'.
  destruct (Hmid i e e' He He') as (x & Hx & H1 & H2 & _).
  exists x. split; [exact Hx|]. split; [exact H1 | exact H2].
Defined.

(** ** Setters *)

Lemma size_list_to_set_NoDup (l : list Z) :
  size (list_to_set l : gset Z) ≤ length l ∧
  (size (list_to_set l : gset Z) = length l ↔ NoDup l).
Proof.
  induction l as [|x l [IHle IHeq]].
  - split; [done|]. split; [constructor|done].
  - rewrite list_to_set_cons. destruct (decide (x ∈ l)) as [Hin|Hnin].
    + assert (Hsame : ({[x]} ∪ list_to_set l : gset Z) = list_to_set l).
      { apply set_eq. intros y. rewrite elem_of_union, elem_of_singleton,
          elem_of_list_to_set. split; [intros [->|?]; done|by right]. }
      rewrite Hsame. simpl. split; [lia|]. split; [lia|].
      intros Hnd. by apply NoDup_cons in Hnd as [? _].
    + rewrite size_union, size_singleton.
      2:{ apply disjoint_singleton_l. by rewrite elem_of_list_to_set. }
      simpl. split; [lia|]. rewrite NoDup_cons. split.
      * intros Hs. split; [done|]. apply IHeq. lia.
      * intros [_ Hnd]. apply IHeq in Hnd. lia.
Qed.

(** X16: the [unit_ids] setter stores a list of integers exactly when
    it has [n_units] entries and holds no id twice; a wrong length is
    reported first, then a duplicate, both as [TypeError].  So ids
    assigned through the setter are unique and leave [n_units], and
    every other attribute, as it was. *)
Theorem unit_ids_setter_requires_unique_ids
    (self : TuningCurve1D) (val : list Z) :
  (length val ≠ n_units self →
   set_unit_ids self val
   = Raise (TypeError "unit_ids must be of length n_units")) ∧
  (length val = n_units self → ¬ NoDup val →
   set_unit_ids self val
   = Raise (TypeError "duplicate unit_ids are not allowed")) ∧
  (∀ c, set_unit_ids self val = Ok c ↔
        length val = n_units self ∧ NoDup val ∧
        c = {| _bins := _bins self; _ratemap := _ratemap self;
               _occupancy := _occupancy self; _unit_ids := val;
               _unit_labels := _unit_labels self;
               _unit_tags := _unit_tags self; _label := _label self |}) ∧
  (∀ c, set_unit_ids self val = Ok c →
        n_units c = n_units self ∧ NoDup (_unit_ids c)).
Proof.
  destruct (size_list_to_set_NoDup val) as [Hle Heq].
  assert (Hok : ∀ c, set_unit_ids self val = Ok c ↔
        length val = n_units self ∧ NoDup val ∧
        c = {| _bins := _bins self; _ratemap := _ratemap self;
               _occupancy := _occupancy self; _unit_ids := val;
               _unit_labels := _unit_labels self;
               _unit_tags := _unit_tags self; _label := _label self |}).
  { intros c. unfold set_unit_ids.
    destruct (decide (length val ≠ n_units self)) as [Hlen|Hlen].
    { split; [done|]. by intros [? _]. }
    destruct (decide (size (list_to_set val : gset Z) < length val)) as [Hd|Hd].
    { split; [done|]. intros (_ & Hnd & _). apply Heq in Hnd. lia. }
    split.
    - intros [= <-]. split_and!; [lia| |done]. apply Heq. lia.
    - by intros (_ & _ & ->). }
  split_and!.
  - intros Hlen. unfold set_unit_ids. by rewrite decide_True.
  - intros Hlen Hnd. unfold set_unit_ids.
    rewrite decide_False by lia. rewrite decide_True; [done|].
    destruct (decide (size (list_to_set val : gset Z) = length val)) as [E|E];
      [|lia].
    by apply Heq in E.
  - exact Hok.
  - intros c (Hlen & Hnd & ->)%Hok. done.
Qed.

(** ** Normalizing twice *)

(** What [normalize] assigns, row by row: every row divided by its own
    maximum. *)
Lemma normalize_divides_rows c :
  1 ≤ n_units c →
  has_shape (n_units c) (Z.to_nat (n_bins c)) (_ratemap c) →
  Forall (λ row, ∃ p, np.amax row = Ok p ∧ (0 < p)%Q) (_ratemap c) →
  ∃ rm',
    Forall2 (λ row row', ∃ m, np.amax row = Ok m ∧
                              row' = (λ x, x / m)%Q <$> row)
            (_ratemap c) rm' ∧
    ∀ h self out (B : Type) (k : unit → py.M B),
      view h self = Some c → view h out = Some c →
      (n_units ← n_units_at self;
       (if decide (1 < n_units)
        then
          out_ratemap ← ratemap_at out;
          per_unit_max ← py.lift (map_result np.amax out_ratemap);
          self_ratemap ← ratemap_at self;
          width ← n_bins_at out;
          ratemap ← py.lift (np.true_divide self_ratemap
                               (replicate (Z.to_nat width) <$> per_unit_max));
          py.set_ratemap out ratemap
        else
          out_ratemap ← ratemap_at out;
          per_unit_max ← py.lift (np.amax (concat out_ratemap));
          self_ratemap ← ratemap_at self;
          width ← n_bins_at out;
          ratemap ← py.lift (np.true_divide self_ratemap
                               ((λ _, replicate (Z.to_nat width) per_unit_max)
                                  <$> self_ratemap));
          py.set_ratemap out ratemap) ≫= k) h
      = (py.set_ratemap out rm' ≫= k) h.
Proof.
  intros Hunits Hshape Hpeaks.
  destruct (decide (1 < n_units c)) as [Hmany|Hone].
  - destruct (normalized_rows _ _ _ Hshape Hpeaks)
      as (maxes & rm' & Hmax & Hdiv & Hlen & Hrows).
    exists rm'. split.
    { pose proof Hmax as Hm2. apply map_result_Ok in Hm2.
      destruct Hshape as [_ Hcols].
      unfold np.true_divide in Hdiv. case_decide; [|done].
      injection Hdiv as <-.
      apply Forall2_same_length_lookup. split.
      - rewrite length_zip_with, length_fmap.
        pose proof (Forall2_length _ _ _ Hm2). lia.
      - intros u row row' Hrow.
        rewrite lookup_zip_with, Hrow, list_lookup_fmap. simpl.
        destruct (Forall2_lookup_l _ _ _ _ _ Hm2 Hrow) as (m & Hm & Hamax).
        rewrite Hm. simpl. intros [= <-]. exists m. split; [done|].
        pose proof (Forall_lookup_1 _ _ _ _ Hcols Hrow) as Hl. simpl in Hl.
        by rewrite <- Hl, divide_by_replicate. }
    intros h self out B k Hself Hout.
    rewrite (bind_run _ _ _ _ _ (n_units_at_run _ _ _ Hself)).
    rewrite decide_True by done.
    unfold mbind at 1. unfold py.M_bind at 1.
    rewrite (bind_run _ _ _ _ _ (ratemap_at_run _ _ _ Hout)).
    rewrite (bind_run (py.lift _) _ h maxes h) by (by unfold py.lift; rewrite Hmax).
    rewrite (bind_run _ _ _ _ _ (ratemap_at_run _ _ _ Hself)).
    rewrite (bind_run _ _ _ _ _ (n_bins_at_run _ _ _ Hout)).
    rewrite (bind_run (py.lift _) _ h rm' h) by (by unfold py.lift; rewrite Hdiv).
    done.
  - assert (Hn : n_units c = 1) by lia. rewrite Hn in Hshape.
    destruct (normalized_single_row _ _ Hshape Hpeaks)
      as (m & rm' & Hmax & Hdiv & Hlen & Hrows).
    exists rm'. split.
    { destruct Hshape as [Hrows1 Hcols].
      destruct (_ratemap c) as [|row [|row2 rest]]; simpl in Hrows1; [lia| |lia].
      apply (proj1 (Forall_singleton _ _)) in Hcols. simpl in Hcols.
      simpl in Hmax. rewrite app_nil_r in Hmax.
      unfold np.true_divide in Hdiv. case_decide; [|done].
      injection Hdiv as <-. simpl. constructor; [|constructor].
      exists m. split; [done|]. by rewrite <- Hcols, divide_by_replicate. }
    intros h self out B k Hself Hout.
    rewrite (bind_run _ _ _ _ _ (n_units_at_run _ _ _ Hself)).
    rewrite decide_False by done.
    unfold mbind at 1. unfold py.M_bind at 1.
    rewrite (bind_run _ _ _ _ _ (ratemap_at_run _ _ _ Hout)).
    rewrite (bind_run (py.lift _) _ h m h) by (by unfold py.lift; rewrite Hmax).
    rewrite (bind_run _ _ _ _ _ (ratemap_at_run _ _ _ Hself)).
    rewrite (bind_run _ _ _ _ _ (n_bins_at_run _ _ _ Hout)).
    rewrite (bind_run (py.lift _) _ h rm' h) by (by unfold py.lift; rewrite Hdiv).
    done.
Qed.

Lemma normalize_copy_run h self c rm' :
  view h self = Some c →
  (∀ h self out (B : Type) (k : unit → py.M B),
      view h self = Some c → view h out = Some c →
      (n_units ← n_units_at self;
       (if decide (1 < n_units)
        then
          out_ratemap ← ratemap_at out;
          per_unit_max ← py.lift (map_result np.amax out_ratemap);
          self_ratemap ← ratemap_at self;
          width ← n_bins_at out;
          ratemap ← py.lift (np.true_divide self_ratemap
                               (replicate (Z.to_nat width) <$> per_unit_max));
          py.set_ratemap out ratemap
        else
          out_ratemap ← ratemap_at out;
          per_unit_max ← py.lift (np.amax (concat out_ratemap));
          self_ratemap ← ratemap_at self;
          width ← n_bins_at out;
          ratemap ← py.lift (np.true_divide self_ratemap
                               ((λ _, replicate (Z.to_nat width) per_unit_max)
                                  <$> self_ratemap));
          py.set_ratemap out ratemap) ≫= k) h
      = (py.set_ratemap out rm' ≫= k) h) →
  ∃ out h',
    normalize self false h = (Ok out, h') ∧
    h !! out = None ∧
    view h' out = Some (set_ratemap c rm') ∧
    (∀ o c0, view h o = Some c0 → view h' o = Some c0) ∧
    h ⊆ h'.
Proof.
  intros Hself Hrun.
  destruct (deepcopy_run _ _ _ Hself)
    as (out & h1 & d & Hcopy & Hsub & Hout & Hd & Hfresh & _).
  pose proof (view_weaken _ _ _ _ Hsub Hself) as Hself1.
  destruct (set_ratemap_run _ _ _ rm' Hout)
    as (h2 & Hset & Hview & Hcells & Hviews).
  exists out, h2. unfold normalize.
  rewrite (bind_run _ _ _ _ _ Hcopy), (Hrun _ _ _ _ _ Hself1 Hout),
    (bind_run _ _ _ _ _ Hset).
  assert (Hsub2 : h ⊆ h2).
  { apply map_subseteq_spec. intros a x Ha. apply Hcells.
    + intros ->. congruence.
    + by eapply lookup_weaken. }
  split_and!; [done..| |done].
  intros o c0 Ho. by eapply view_weaken.
Qed.

(** X17: normalizing a normalized curve changes nothing: when every
    row of the ratemap has a positive peak, the curve returned by
    [normalize()] has rows with positive peaks again, and normalizing
    it once more returns a curve whose ratemap is, entry by entry,
    equal to the one of the first result, the other attributes being
    the same; the original and the first result are left unchanged. *)
Theorem normalize_is_idempotent
    (h : gmap addr cell) (self : addr) (c : TuningCurve1D) :
  view h self = Some c →
  1 ≤ n_units c →
  has_shape (n_units c) (Z.to_nat (n_bins c)) (_ratemap c) →
  Forall (λ row, ∃ p, np.amax row = Ok p ∧ (0 < p)%Q) (_ratemap c) →
  ∃ once h1 twice h2 rm1 rm2,
    normalize self false h = (Ok once, h1) ∧
    normalize once false h1 = (Ok twice, h2) ∧
    view h2 once = Some (set_ratemap c rm1) ∧
    view h2 twice = Some (set_ratemap c rm2) ∧
    view h2 self = Some c ∧
    Forall2 (Forall2 Qeq) rm2 rm1.
Proof.
  intros Hself Hunits Hshape Hpeaks.
  destruct (normalize_divides_rows c Hunits Hshape Hpeaks)
    as (rm1 & Hrows1 & Hrun1).
  destruct (normalize_copy_run h self c rm1 Hself Hrun1)
    as (once & h1 & Hn1 & Hfresh1 & Honce & Hkeep1 & Hsub1).
  set (c1 := set_ratemap c rm1).
  assert (Hpeaks1 : Forall (λ row, ∃ p, np.amax row = Ok p ∧ (p == 1)%Q) rm1).
  { apply Forall_lookup_2. intros u row' Hrow'.
    destruct (Forall2_lookup_r _ _ _ _ _ Hrows1 Hrow')
      as (row & Hrow & m & Hm & ->).
    destruct (Forall_lookup_1 _ _ _ _ Hpeaks Hrow) as (p & Hp & Hpos).
    assert (p = m) as -> by congruence.
    by apply amax_scaled. }
  assert (Hshape1 : has_shape (n_units c1) (Z.to_nat (n_bins c1)) (_ratemap c1)).
  { destruct Hshape as [Hr Hcols]. split; simpl.
    - rewrite <- (Forall2_length _ _ _ Hrows1). exact Hr.
    - apply Forall_lookup_2. intros u row' Hrow'.
      destruct (Forall2_lookup_r _ _ _ _ _ Hrows1 Hrow')
        as (row & Hrow & m & Hm & ->).
      rewrite length_fmap. by eapply (Forall_lookup_1 _ _ _ _ Hcols). }
  destruct (normalize_divides_rows c1) as (rm2 & Hrows2 & Hrun2);
    [done|done| |].
  { simpl. eapply Forall_impl; [exact Hpeaks1|].
    intros row (p & Hp & Hone). exists p. split; [done|].
    rewrite Hone. reflexivity. }
  destruct (normalize_copy_run h1 once c1 rm2 Honce Hrun2)
    as (twice & h2 & Hn2 & Hfresh2 & Htwice & Hkeep2 & Hsub2).
  exists once, h1, twice, h2, rm1, rm2. split_and!; try done.
  - by apply Hkeep2.
  - by apply Hkeep2, Hkeep1.
  - simpl in Hrows2. apply Forall2_same_length_lookup. split.
    { symmetry. by eapply Forall2_length. }
    intros u row2 row1 H2 H1.
    destruct (Forall2_lookup_l _ _ _ _ _ Hrows2 H1)
      as (row2' & H2' & m & Hm & ->).
    rewrite H2 in H2'. injection H2' as ->.
    destruct (Forall_lookup_1 _ _ _ _ Hpeaks1 H1) as (p & Hp & Hone).
    assert (p = m) as -> by congruence.
    apply Forall2_fmap_l, Forall_Forall2_diag, Forall_true.
    intros x. simpl. rewrite Hone. field.
Qed.

(** X17, at a concrete input: the example curve. *)
Lemma normalize_is_idempotent_witness :
  view example_store example_object = Some example_curve ∧
  1 ≤ n_units example_curve ∧
  has_shape (n_units example_curve) (Z.to_nat (n_bins example_curve))
            (_ratemap example_curve) ∧
  Forall (λ row, ∃ p, np.amax row = Ok p ∧ (0 < p)%Q) (_ratemap example_curve) ∧
  ∃ once h1 twice h2 rm1 rm2,
    normalize example_object false example_store = (Ok once, h1) ∧
    normalize once false h1 = (Ok twice, h2) ∧
    view h2 once = Some (set_ratemap example_curve rm1) ∧
    view h2 twice = Some (set_ratemap example_curve rm2) ∧
    Forall2 (Forall2 Qeq) rm2 rm1.
Proof.
  assert (Hview : view example_store example_object = Some example_curve)
    by (by vm_compute).
  assert (Hunits : 1 ≤ n_units example_curve) by (vm_compute; lia).
  assert (Hshape : has_shape (n_units example_curve)
                     (Z.to_nat (n_bins example_curve)) (_ratemap example_curve)).
  { split; [reflexivity|]. by repeat constructor. }
  assert (Hpeaks : Forall (λ row, ∃ p, np.amax row = Ok p ∧ (0 < p)%Q)
                          (_ratemap example_curve)).
  { repeat constructor; eexists; (split; [reflexivity|reflexivity]). }
  split; [exact Hview|]. split; [exact Hunits|].
  split; [exact Hshape|]. split; [exact Hpeaks|].
  destruct (normalize_is_idempotent example_store example_object
              example_curve Hview Hunits Hshape Hpeaks)
    as (once & h1 & twice & h2 & rm1 & rm2 & H1 & H2 & H3 & H4 & _ & H5).
  exists once, h1, twice, h2, rm1, rm2.
  split_and!; [exact H1|exact H2|exact H3|exact H4|exact H5].
Defined.

(** ** Reordering by ids that are not there *)

Lemma map_result_raises {A B} (f : A → result B) (E : exn) l :
  (∀ y e, f y = Raise e → e = E) →
  Exists (λ x, ∃ e, f x = Raise e) l →
  map_result f l = Raise E.
Proof.
  intros Honly Hex. induction Hex as [x l [e He]|x l Hex IH].
  - simpl. rewrite He. simpl. by rewrite (Honly _ _ He).
  - simpl. destruct (f x) as [y|e] eqn:Hx; simpl.
    + by rewrite IH.
    + by rewrite (Honly _ _ Hx).
Qed.

(** X18: [reorder_units_by_ids] with an order that names an id which
    is not a unit id of the curve raises the [ValueError] of
    [list.index] before any unit is moved: every object of the store,
    the curve itself included, stands for the same curve as before,
    with [inplace=True] as with [inplace=False]. *)
Theorem reorder_by_unknown_id_changes_nothing
    (argsort : list nat → list nat) (h : gmap addr cell) (self : addr)
    (c : TuningCurve1D) (neworder : list Z) (inplace : bool) :
  view h self = Some c →
  Exists (λ x, x ∉ _unit_ids c) neworder →
  ∃ h',
    reorder_units_by_ids argsort self (Some neworder) inplace h
    = (Raise (ValueError "x is not in list"), h') ∧
    ∀ o c0, view h o = Some c0 → view h' o = Some c0.
Proof.
  intros Hself Hex.
  assert (Hpos : map_result (λ x, i ← list_index (_unit_ids c) x;
                                  Ok (Z.of_nat i)) neworder
                 = Raise (ValueError "x is not in list")).
  { apply map_result_raises.
    - intros y e. unfold list_index. destruct (list_find _ _) as [[i ?]|];
        simpl; [done|]. by intros [= <-].
    - eapply Exists_impl; [exact Hex|]. intros x Hx. simpl in *.
      apply list_index_Raise in Hx as [e He]. exists e. by rewrite He. }
  assert (Hrest : ∀ h1 out, view h1 self = Some c →
    (ids ← unit_ids_at self;
     neworder ← py.lift (map_result (λ x, i ← list_index ids x;
                                          Ok (Z.of_nat i)) neworder);
     reorder_loop out neworder;; mret out) h1
    = (Raise (ValueError "x is not in list"), h1)).
  { intros h1 out Hself1.
    rewrite (bind_run _ _ _ _ _ (unit_ids_at_run _ _ _ Hself1)).
    apply bind_raise. unfold py.lift. by rewrite Hpos. }
  unfold reorder_units_by_ids.
  rewrite (bind_run (mret neworder) _ h neworder h) by done.
  destruct inplace.
  - exists h. rewrite (bind_run (mret self) _ h self h) by done.
    split; [by apply Hrest|done].
  - destruct (deepcopy_run _ _ _ Hself)
      as (out & h1 & d & Hcopy & Hsub & _).
    exists h1. rewrite (bind_run _ _ _ _ _ Hcopy). split.
    + apply Hrest. by eapply view_weaken.
    + intros o c0 Ho. by eapply view_weaken.
Qed.

(** X18, at a concrete input: the order 30, 7, 10 on the example curve,
    which has no unit 7. *)
Lemma reorder_by_unknown_id_changes_nothing_witness :
  view example_store example_object = Some example_curve ∧
  Exists (λ x, x ∉ _unit_ids example_curve) [30; 7; 10]%Z ∧
  ∃ h',
    reorder_units_by_ids (λ l, l) example_object (Some [30; 7; 10]%Z) true
      example_store
    = (Raise (ValueError "x is not in list"), h') ∧
    view h' example_object = Some example_curve.
Proof.
  assert (Hview : view example_store example_object = Some example_curve)
    by (by vm_compute).
  assert (Hex : Exists (λ x, x ∉ _unit_ids example_curve) [30; 7; 10]%Z).
  { apply Exists_cons_tl, Exists_cons_hd.
    apply (bool_decide_unpack _). by vm_compute. }
  split; [exact Hview|]. split; [exact Hex|].
  destruct (reorder_by_unknown_id_changes_nothing (λ l, l) example_store
              example_object example_curve [30; 7; 10]%Z true Hview Hex)
    as (h' & Hrun & Hkeep).
  exists h'. split; [exact Hrun|]. by apply Hkeep.
Defined.

(** ** Iteration *)

Lemma next_yields self (i : nat) :
  length (_ratemap self) = n_units self →
  length (_unit_labels self) = n_units self →
  i < n_units self →
  ∃ row id label,
    _ratemap self !! i = Some row ∧
    _unit_ids self !! i = Some id ∧
    _unit_labels self !! i = Some label ∧
    __next__ self (Some (Z.of_nat i))
    = (Ok (Yielded {| uc_bins := _bins self; uc_ratemap := row;
                      uc_occupancy := _occupancy self; uc_unit_ids := id;
                      uc_unit_labels := label;
                      uc_unit_tags := _unit_tags self;
                      uc_label := _label self |}),
       Some (Z.of_nat (S i))).
Proof.
  intros Hrm Hlab Hi. unfold n_units in *.
  destruct (lookup_lt_is_Some_2 (_ratemap self) i) as [row Hrow]; [lia|].
  destruct (lookup_lt_is_Some_2 (_unit_ids self) i) as [id Hid]; [lia|].
  destruct (lookup_lt_is_Some_2 (_unit_labels self) i) as [label Hlabel]; [lia|].
  exists row, id, label. split_and!; [done..|].
  unfold __next__, n_units. rewrite decide_False by lia.
  assert (Hpy : ∀ n, i < n → py_index n (Z.of_nat i) = Ok i).
  { intros n Hn. unfold py_index. rewrite decide_True by lia.
    by rewrite Nat2Z.id. }
  rewrite !Hpy by lia. simpl. rewrite Hrow. simpl. rewrite Hid. simpl.
  rewrite Hlabel. simpl. do 2 f_equal. lia.
Qed.

Lemma next_until_stop_from self :
  length (_ratemap self) = n_units self →
  length (_unit_labels self) = n_units self →
  ∀ fuel i, i ≤ n_units self → n_units self - i < fuel →
  ∃ items,
    next_until_stop fuel self (Some (Z.of_nat i))
    = (Ok items, Some (Z.of_nat (n_units self))) ∧
    length items = n_units self - i ∧
    ∀ k item, items !! k = Some item →
      _ratemap self !! (i + k) = Some (uc_ratemap item) ∧
      _unit_ids self !! (i + k) = Some (uc_unit_ids item) ∧
      _unit_labels self !! (i + k) = Some (uc_unit_labels item) ∧
      uc_bins item = _bins self ∧ uc_occupancy item = _occupancy self ∧
      uc_unit_tags item = _unit_tags self ∧ uc_label item = _label self.
Proof.
  intros Hrm Hlab fuel. induction fuel as [|fuel IH]; intros i Hi Hfuel; [lia|].
  destruct (decide (i = n_units self)) as [->|Hne].
  - exists []. split_and!.
    + cbn [next_until_stop]. unfold __next__.
      by rewrite decide_True by lia.
    + simpl. lia.
    + intros k item Hk. done.
  - destruct (next_yields self i Hrm Hlab) as (row & id & label & Hrow & Hid
      & Hlabel & Hnext); [lia|].
    destruct (IH (S i)) as (items & Hloop & Hlen & Hitems); [lia..|].
    eexists (_ :: items). split_and!.
    + cbn [next_until_stop]. rewrite Hnext.
      by rewrite Hloop.
    + simpl. lia.
    + intros [|k] item Hk.
      * injection Hk as <-. simpl. rewrite Nat.add_0_r. done.
      * simpl in Hk. replace (i + S k) with (S i + k) by lia.
        by apply Hitems.
Qed.

(** X19: a loop over a curve with one ratemap row and one label per
    unit yields every unit exactly once, in order: as many items as
    there are units, the [k]-th holding row, unit id and unit label of
    position [k] and the bins, occupancy, tags and label of the curve;
    the loop leaves the index attribute at [n_units], so that a further
    [__next__] stops again, and a later loop starts afresh.  Before any
    [__iter__], [__next__] fails for want of the index attribute. *)
Theorem iteration_yields_every_unit_once
    (self : TuningCurve1D) (_index : option Z) (fuel : nat) :
  length (_ratemap self) = n_units self →
  length (_unit_labels self) = n_units self →
  n_units self < fuel →
  ∃ items,
    for_each_unit fuel self _index
    = (Ok items, Some (Z.of_nat (n_units self))) ∧
    length items = n_units self ∧
    (∀ k item, items !! k = Some item →
       _ratemap self !! k = Some (uc_ratemap item) ∧
       _unit_ids self !! k = Some (uc_unit_ids item) ∧
       _unit_labels self !! k = Some (uc_unit_labels item) ∧
       uc_bins item = _bins self ∧ uc_occupancy item = _occupancy self ∧
       uc_unit_tags item = _unit_tags self ∧ uc_label item = _label self) ∧
    __next__ self (Some (Z.of_nat (n_units self)))
    = (Ok StopIteration, Some (Z.of_nat (n_units self))) ∧
    __next__ self None
    = (Raise (AttributeError "object has no attribute '_index'"), None).
Proof.
  intros Hrm Hlab Hfuel.
  destruct (next_until_stop_from self Hrm Hlab fuel 0) as (items & Hloop
    & Hlen & Hitems); [lia..|].
  exists items. split_and!; [done|lia| | |done].
  - intros k item Hk. by apply (Hitems k item).
  - unfold __next__. by rewrite decide_True by lia.
Qed.

(** X19, at a concrete input: the three units of the example curve. *)
Lemma iteration_yields_every_unit_once_witness :
  length (_ratemap example_curve) = n_units example_curve ∧
  length (_unit_labels example_curve) = n_units example_curve ∧
  n_units example_curve < 4 ∧
  ∃ items,
    for_each_unit 4 example_curve None = (Ok items, Some 3%Z) ∧
    uc_unit_ids <$> items = [10; 20; 30]%Z.
Proof.
  assert (Hfuel : n_units example_curve < 4) by (vm_compute; lia).
  split; [reflexivity|]. split; [reflexivity|]. split; [exact Hfuel|].
  destruct (iteration_yields_every_unit_once example_curve None 4
              eq_refl eq_refl Hfuel) as (items & Hrun & _).
  exists items. split; [exact Hrun|].
  vm_compute in Hrun. injection Hrun as <-. reflexivity.
Defined.

(** ** Shape *)

(** X20: for a curve whose ratemap has one row per unit and [n]
    columns, [shape] is [(n_units, n)] as soon as there is a unit,
    [len] is [n_units], and the curve is empty exactly when it has no
    unit, in which case [shape] is [(0, 0)] whatever the number of
    bins is. *)
Theorem shape_of_a_well_formed_curve (self : TuningCurve1D) (n : nat) :
  has_shape (n_units self) n (_ratemap self) →
  __len__ self = n_units self ∧
  (isempty self = true ↔ n_units self = 0) ∧
  (1 ≤ n_units self → shape self = (n_units self, n)) ∧
  (n_units self = 0 → shape self = (0, 0)).
Proof.
  intros [Hrows Hcols]. unfold shape, isempty, __len__.
  split; [done|]. split; [|split].
  - rewrite bool_decide_eq_true. lia.
  - intros Hunits. rewrite bool_decide_false by lia.
    destruct (_ratemap self) as [|row rest]; simpl in *; [lia|].
    apply Forall_cons in Hcols as [Hrow _]. by rewrite Hrows, Hrow.
  - intros H0. rewrite bool_decide_true by lia. by rewrite H0.
Qed.

(** X20, at a concrete input: three units over four bins. *)
Lemma shape_of_a_well_formed_curve_witness :
  has_shape (n_units example_curve) 4 (_ratemap example_curve) ∧
  shape example_curve = (3, 4) ∧ __len__ example_curve = 3.
Proof.
  assert (Hshape : has_shape (n_units example_curve) 4 (_ratemap example_curve)).
  { split; [reflexivity|]. by repeat constructor. }
  split; [exact Hshape|].
  destruct (shape_of_a_well_formed_curve example_curve 4 Hshape)
    as (Hlen & _ & Hsh & _).
  split; [|exact Hlen]. apply Hsh. vm_compute. lia.
Defined.

(** ** The two reorderings by peak position *)


